(** * Agents, memory and tenants: a shallow embedding

    The development embeds three classes of the repository,

    - [AnalyticsAgent]    (src/agents/analytics/index.ts, first document),
    - [TenantManager]     (src/agents/analytics/index.ts, second document),
    - [BrandManagerAgent] (src/agents/brand-manager/index.ts),

    and states the properties the specification attaches to them.

    Conventions of the embedding.
    - A JavaScript [number] is an IEEE 754 double, a primitive [float]:
      sums round to nearest even, and NaN, the infinities and the two
      zeros are values like the others.
    - A string is a Stdlib [string] (a sequence of bytes); [toLowerCase]
      acts on the ASCII letters.
    - A plain object used as a dictionary, and a [Map], is an association
      list in insertion order; integer-like keys, which JavaScript
      enumerates first, are not given a special place.
    - The functions of the host (clock, random source, language-model
      client, JSON parser, number printing) are fields of a record [Host];
      every read of one of them consumes one tick of the state.
    - [async] methods are run to completion one at a time (spec section 5);
      file-system calls succeed.
    - A method is a computation in the monad [M]: it threads the state of
      its object and may throw. *)

From Stdlib Require Import Ascii String ZArith Lia Sorted Floats.
From stdpp Require Import base option list strings pretty gmap.


(* ===================================================================== *)
(** * 1. JavaScript primitives *)
(* ===================================================================== *)

Module JS.

(** ** Strings *)

Definition nl : string := String (Ascii.ascii_of_nat 10) EmptyString.
Definition dq : string := String (Ascii.ascii_of_nat 34) EmptyString.

(** [l.join(sep)] on an array of strings. *)
Fixpoint join (sep : string) (l : list string) : string :=
  match l with
  | [] => ""
  | [x] => x
  | x :: rest => x +:+ sep +:+ join sep rest
  end.

(** [s.startsWith(p)]. *)
Definition startsWith (s p : string) : bool := String.prefix p s.

(** [a >= b] on strings: lexicographic order of the code units. *)
Definition string_ge (a b : string) : bool := String.leb b a.

Definition is_upper (c : ascii) : bool :=
  let n := Ascii.nat_of_ascii c in (65 <=? n)%nat && (n <=? 90)%nat.

Definition is_lower (c : ascii) : bool :=
  let n := Ascii.nat_of_ascii c in (97 <=? n)%nat && (n <=? 122)%nat.

Definition is_digit (c : ascii) : bool :=
  let n := Ascii.nat_of_ascii c in (48 <=? n)%nat && (n <=? 57)%nat.

Definition lower_char (c : ascii) : ascii :=
  if is_upper c then Ascii.ascii_of_nat (Ascii.nat_of_ascii c + 32) else c.

(** [s.toLowerCase()]. *)
Fixpoint toLowerCase (s : string) : string :=
  match s with
  | EmptyString => EmptyString
  | String c r => String (lower_char c) (toLowerCase r)
  end.

(** The character class [[a-z0-9]]. *)
Definition slug_char (c : ascii) : bool := is_lower c || is_digit c.

Definition dash : ascii := Ascii.ascii_of_nat 45.

(** [s.replace(/[^a-z0-9]+/g, "-")]: every maximal run of characters
    outside [[a-z0-9]] becomes one ["-"].  [in_run] tells that the
    previous character already belonged to such a run. *)
Fixpoint replace_runs (in_run : bool) (s : string) : string :=
  match s with
  | EmptyString => EmptyString
  | String c r =>
      if slug_char c then String c (replace_runs false r)
      else if in_run then replace_runs true r
      else String dash (replace_runs true r)
  end.

Definition open_brace : ascii := Ascii.ascii_of_nat 123.
Definition close_brace : ascii := Ascii.ascii_of_nat 125.

(** The suffix of [s] that starts at its first ["{"]. *)
Fixpoint from_first_open (s : string) : option string :=
  match s with
  | EmptyString => None
  | String c r =>
      if Ascii.eqb c open_brace then Some s else from_first_open r
  end.

(** The prefix of [s] that ends at its last ["}"]. *)
Fixpoint through_last_close (s : string) : option string :=
  match s with
  | EmptyString => None
  | String c r =>
      match through_last_close r with
      | Some t => Some (String c t)
      | None => if Ascii.eqb c close_brace then Some (String c EmptyString) else None
      end
  end.

(** [s.match(/\{[\s\S]*\}/)]: the text from the first ["{"] to the last
    ["}"] that follows it; [None] is JavaScript's [null]. *)
Definition match_braces (s : string) : option string :=
  match from_first_open s with
  | Some (String c r) => String c <$> through_last_close r
  | _ => None
  end.

(** ** Values and coercions *)

(** The value [JSON.parse] returns. *)
#[warnings="-register-all"]
Inductive JSON :=
| JNull
| JBool (b : bool)
| JNum (x : float)
| JStr (s : string)
| JArr (l : list JSON)
| JObj (fields : list (string * JSON)).

(** [x || d] for a string [x] that may be [undefined]: the empty string
    is falsy. *)
Definition str_or (x : option string) (d : string) : string :=
  match x with
  | Some s => if String.eqb s "" then d else s
  | None => d
  end.

(** [x || d] for two strings that may be [undefined]. *)
Definition str_or_undefined (x d : option string) : option string :=
  match x with
  | Some s => if String.eqb s "" then d else Some s
  | None => d
  end.

(** Truthiness of a number: the two zeros and NaN are falsy. *)
Definition num_truthy (x : float) : bool :=
  negb (PrimFloat.is_nan x || PrimFloat.eqb x 0).

(** [x || d] for a number [x] that may be [undefined]. *)
Definition num_or (x : option float) (d : float) : float :=
  match x with
  | Some q => if num_truthy q then q else d
  | None => d
  end.

(** The integer [z] as a number: the nearest double, ties to even. *)
Definition of_Z (z : Z) : float := SF2Prim (binary_normalize prec emax z 0 false).

(** A length or an index as a number. *)
Definition of_nat (n : nat) : float := of_Z (Z.of_nat n).

(** [TimeClip]: the time values a [Date] holds lie within 8.64e15
    milliseconds of the epoch; NaN and the infinities do not. *)
Definition time_in_range (v : float) : bool :=
  PrimFloat.leb (-8.64e15) v && PrimFloat.leb v 8.64e15.

(** [x || d] for an array: every array is truthy. *)
Definition arr_or {A} (x : option (list A)) (d : list A) : list A :=
  match x with Some l => l | None => d end.

(** [x ?? d]. *)
Definition nullish {A} (x : option A) (d : A) : A :=
  match x with Some a => a | None => d end.

(** A string that may be [undefined], inside a template literal. *)
Definition show_str (x : option string) : string :=
  match x with Some s => s | None => "undefined" end.

(** ** Arrays *)

(** [l.includes(x)]. *)
Definition includes (l : list string) (x : string) : bool :=
  existsb (String.eqb x) l.

(** [a === b] for two strings that may be [undefined]. *)
Definition same (a b : option string) : bool :=
  match a, b with
  | Some x, Some y => String.eqb x y
  | None, None => true
  | _, _ => false
  end.

(** [l.includes(x)] on an array that may hold [undefined]. *)
Definition includes_undefined (l : list (option string)) (x : option string) : bool :=
  existsb (same x) l.

(** [l.slice(-n)]: the last [n] elements. *)
Definition slice_last {A} (n : nat) (l : list A) : list A :=
  drop (length l - n) l.

Inductive IntegerOrInfinity :=
| Finite (k : Z)
| PlusInfinity
| MinusInfinity.

(** [ToIntegerOrInfinity]: NaN becomes 0, a finite number is truncated
    toward zero. *)
Definition ToIntegerOrInfinity (x : float) : IntegerOrInfinity :=
  match Prim2SF x with
  | S754_nan | S754_zero _ => Finite 0
  | S754_infinity false => PlusInfinity
  | S754_infinity true => MinusInfinity
  | S754_finite s m e =>
      Finite (cond_Zopp s (if (0 <=? e)%Z then Zpos m * 2 ^ e
                           else Zpos m / 2 ^ (- e))%Z)
  end.

(** The integer part of a number that has one. *)
Definition trunc (x : float) : Z :=
  match ToIntegerOrInfinity x with
  | Finite k => k
  | _ => 0%Z
  end.

(** [l.slice(0, e)]: a negative [e] counts from the end. *)
Definition slice_to {A} (e : float) (l : list A) : list A :=
  match ToIntegerOrInfinity e with
  | Finite k =>
      if (k <? 0)%Z then take (Z.to_nat (Z.of_nat (length l) + k)) l
      else take (Z.to_nat k) l
  | PlusInfinity => l
  | MinusInfinity => []
  end.

(** [[...new Set(l)]]: the elements of [l] in order of first occurrence.
    [seen] holds, in order, the elements met so far. *)
Fixpoint set_add_all (seen l : list string) : list string :=
  match l with
  | [] => seen
  | x :: r => if includes seen x then set_add_all seen r
              else set_add_all (seen ++ [x]) r
  end.

Definition set_of (l : list string) : list string := set_add_all [] l.

(** [l.sort(cmp)]: the sort is stable, so for a consistent comparator its
    result is the one of insertion from the right, an element going in
    front of the first one it does not have to follow. *)
Section Sort.
Context {A : Type} (cmp : A -> A -> float).

(** [cmp a b > 0], a comparator result of NaN counting as 0. *)
Definition after (a b : A) : bool := PrimFloat.ltb 0 (cmp a b).

Fixpoint sort_insert (x : A) (l : list A) : list A :=
  match l with
  | [] => [x]
  | y :: r => if after x y then y :: sort_insert x r else x :: y :: r
  end.

Fixpoint sort (l : list A) : list A :=
  match l with
  | [] => []
  | x :: r => sort_insert x (sort r)
  end.
End Sort.

(** ** Plain objects and [Map]s: association lists in insertion order *)

Section Obj.
Context {V : Type}.

(** [o[k]] and [m.get(k)]. *)
Fixpoint obj_get (o : list (string * V)) (k : string) : option V :=
  match o with
  | [] => None
  | (k', v) :: r => if String.eqb k' k then Some v else obj_get r k
  end.

(** [o[k] = v] and [m.set(k, v)]: a present key keeps its place. *)
Fixpoint obj_set (o : list (string * V)) (k : string) (v : V) : list (string * V) :=
  match o with
  | [] => [(k, v)]
  | (k', v') :: r =>
      if String.eqb k' k then (k', v) :: r else (k', v') :: obj_set r k v
  end.

(** [{...a, ...b}]. *)
Definition spread (a b : list (string * V)) : list (string * V) :=
  fold_left (fun acc kv => obj_set acc kv.1 kv.2) b a.

(** [m.delete(k)]. *)
Definition obj_delete (o : list (string * V)) (k : string) : list (string * V) :=
  List.filter (fun kv => negb (String.eqb kv.1 k)) o.

(** [Object.values(o)]. *)
Definition values (o : list (string * V)) : list V := map snd o.
End Obj.

End JS.

(* ===================================================================== *)
(** * 2. Data model *)
(* ===================================================================== *)

Module Data.
Import JS.

(** ** analytics: [ContentMetrics] *)

(** One value of [ContentMetrics.metrics]; an absent field is [None]. *)
Record PlatformStats := {
  views : option float;
  likes : option float;
  shares : option float;
  comments : option float;
  clicks : option float;
  impressions : option float;
  engagement : option float;
  stats_updatedAt : string;
}.

Record ContentMetrics := {
  cm_id : option string;
  cm_title : option string;
  cm_topic : string;
  cm_createdAt : string;
  cm_platforms : list (option string);
  cm_metrics : list (string * PlatformStats);
  cm_tags : list string;
}.

(** The [metrics] object of a [track] task: the numeric fields it carries
    (its [updatedAt], if any, is overwritten by [track]). *)
Record MetricsInput := {
  mi_views : option float;
  mi_likes : option float;
  mi_shares : option float;
  mi_comments : option float;
  mi_clicks : option float;
  mi_impressions : option float;
  mi_engagement : option float;
}.

Definition no_metrics : MetricsInput :=
  {| mi_views := None; mi_likes := None; mi_shares := None;
     mi_comments := None; mi_clicks := None; mi_impressions := None;
     mi_engagement := None |}.

(** ** brand-manager: [BrandProfile] *)

Record SocialStyle := {
  twitter : string;
  linkedin : string;
  instagram : string;
}.

Record PartialSocialStyle := {
  ps_twitter : option string;
  ps_linkedin : option string;
  ps_instagram : option string;
}.

Record BrandProfile := {
  bp_name : string;
  bp_voice : string;
  bp_tone : string;
  bp_audience : string;
  bp_industry : string;
  bp_keywords : list string;
  bp_avoidWords : list string;
  bp_examples : list string;
  bp_socialStyle : SocialStyle;
  bp_learnings : list string;
}.

(** The record [learnFromFeedback] files under [feedback:<time>]. *)
Record FeedbackRecord := {
  fb_feedback : option string;
  fb_learning : option JSON;
  fb_contentType : string;
  fb_rating : option float;
}.

(** ** tenant: [TenantConfig] *)

Record Brand := {
  voice : string;
  tone : string;
  audience : string;
  industry : string;
  keywords : list string;
  avoidWords : list string;
}.

Record PartialBrand := {
  pb_voice : option string;
  pb_tone : option string;
  pb_audience : option string;
  pb_industry : option string;
  pb_keywords : option (list string);
  pb_avoidWords : option (list string);
}.

Record Settings := {
  defaultType : string;
  defaultModel : option string;
  autoPublish : bool;
  settings_platforms : list string;
}.

Record PartialSettings := {
  pst_defaultType : option string;
  pst_defaultModel : option string;
  pst_autoPublish : option bool;
  pst_platforms : option (list string);
}.

(** A credential map, [Record<string, string>]. *)
Definition Credentials := list (string * string).

(** [TenantConfig.platforms]: platform name to credential map. *)
Definition Platforms := list (string * Credentials).

Record TenantConfig := {
  id : string;
  name : string;
  slug : string;
  brand : Brand;
  platforms : Platforms;
  settings : Settings;
  createdAt : string;
  updatedAt : string;
}.

(** [Partial<TenantConfig>]; [create] requires [name]. *)
Record PartialTenantConfig := {
  pt_id : option string;
  pt_name : option string;
  pt_slug : option string;
  pt_brand : option PartialBrand;
  pt_platforms : option Platforms;
  pt_settings : option PartialSettings;
  pt_createdAt : option string;
  pt_updatedAt : option string;
}.

(** ** Messages *)

(** [TaskPayload.input]: the fields the handlers of the two agents read,
    each absent ([None]) or of the type its capability declares. *)
Record TaskInput := {
  in_contentId : option string;
  in_platform : option string;
  in_metrics : option MetricsInput;
  in_title : option string;
  in_topic : option string;
  in_tags : option (list string);
  in_days : option float;
  in_limit : option float;
  in_metric : option string;
  in_brandName : option string;
  in_name : option string;
  in_voice : option string;
  in_tone : option string;
  in_audience : option string;
  in_industry : option string;
  in_keywords : option (list string);
  in_avoidWords : option (list string);
  in_examples : option (list string);
  in_socialStyle : option PartialSocialStyle;
  in_learnings : option (list string);
  in_feedback : option string;
  in_contentType : option string;
  in_rating : option float;
  in_sample : option string;
}.

Definition no_input : TaskInput :=
  {| in_contentId := None; in_platform := None; in_metrics := None;
     in_title := None; in_topic := None; in_tags := None; in_days := None;
     in_limit := None; in_metric := None; in_brandName := None;
     in_name := None; in_voice := None; in_tone := None;
     in_audience := None; in_industry := None; in_keywords := None;
     in_avoidWords := None; in_examples := None; in_socialStyle := None;
     in_learnings := None; in_feedback := None; in_contentType := None;
     in_rating := None; in_sample := None |}.

(** The score [topContent] accumulates with [+=]: a number, or a string
    once a string has been added to it. *)
Inductive Score := SNum (x : float) | SStr (s : string).

Record TopItem := {
  ti_title : option string;
  ti_topic : string;
  ti_platforms : list (option string);
  ti_score : Score;
  ti_metric : string;
}.

Record Report := {
  rp_period : string;
  rp_platform : string;
  rp_contentCount : nat;
  rp_totalViews : float;
  rp_totalLikes : float;
  rp_totalShares : float;
  rp_totalComments : float;
  rp_avgEngagement : string;
  rp_topPlatform : string;
}.

(** [ResultPayload.output], one constructor per handler. *)
Inductive Output :=
| OutTracked (contentId platform : option string)
| OutReport (r : Report)
| OutInsights (insights : list string)
| OutTopContent (content : list TopItem)
| OutBrandContext (profile : BrandProfile) (guidelines : string)
| OutSaved (profile : BrandProfile)
| OutLearned (learned appliesTo : option JSON)
| OutAnalysis (analysis : JSON).

Inductive Kind := task | result | error.

Inductive Payload :=
| TaskPayload (action : string) (input : TaskInput)
| ResultPayload (success : bool) (output : Output)
| ErrorPayload (code message : string) (retryable : bool).

Record Message := {
  msg_from : string;
  msg_to : string;
  msg_kind : Kind;
  msg_payload : Payload;
  msg_id : string;
  msg_correlationId : option string;
}.

Record LLMMessage := {
  role : string;
  content : string;
}.

(** ** What a Memory Store holds *)

(** The values the code of the repository writes to a store. *)
Inductive MemValue :=
| VString (s : string)
| VMetrics (m : ContentMetrics)
| VProfile (p : BrandProfile)
| VBrand (b : Brand)
| VFeedback (f : FeedbackRecord).

(** Truthiness: of these values only the empty string is falsy. *)
Definition truthy (v : MemValue) : bool :=
  match v with
  | VString s => negb (String.eqb s "")
  | _ => true
  end.

(** [String(v)], as a template literal renders a stored value. *)
Definition show_value (v : MemValue) : string :=
  match v with
  | VString s => s
  | _ => "[object Object]"
  end.

End Data.

(* ===================================================================== *)
(** * 3. The core modules the agents import *)
(* ===================================================================== *)

(** [core/message], [core/memory], [core/executor] and [core/agent] are
    imported by the sources but are not among them; they are modelled from
    the specification. *)

Module Core.
Import JS Data.

(** ** Computations *)

Inductive Exn :=
| TypeError (what : string)
| RangeError (what : string)
| OutsideSchema (what : string).

(** What a call leaves: a value and the state of the object, or an
    exception and the state the object had when it was thrown. *)
Inductive Outcome (S A : Type) :=
| Ok (r : A * S)
| Throw (e : Exn) (s : S).
Arguments Ok {S A} r.
Arguments Throw {S A} e s.

(** A method of an object whose state has type [S]. *)
Definition M (S A : Type) : Type := S -> Outcome S A.

Definition ret {S A} (a : A) : M S A := fun s => Ok (a, s).

Definition bind {S A B} (m : M S A) (k : A -> M S B) : M S B :=
  fun s => match m s with
           | Ok (a, s') => k a s'
           | Throw e s' => Throw e s'
           end.

Definition throw {S A} (e : Exn) : M S A := fun s => Throw e s.

Definition get {S} : M S S := fun s => Ok (s, s).

Definition put {S} (s : S) : M S unit := fun _ => Ok (tt, s).

Definition modify {S} (f : S -> S) : M S unit := fun s => Ok (tt, f s).

Notation "'let!' x ':=' m 'in' k" := (bind m (fun x => k))
  (at level 10, x name, m at level 100, k at level 200, only parsing).
Notation "'run!' m 'in' k" := (bind m (fun _ => k))
  (at level 10, m at level 100, k at level 200, only parsing).

(** [for (const x of l) ...] with a body that may throw. *)
Fixpoint mapM {S A B} (f : A -> M S B) (l : list A) : M S (list B) :=
  match l with
  | [] => ret []
  | x :: r => let! y := f x in let! ys := mapM f r in ret (y :: ys)
  end.

(** ** The host *)

Record Host := {
  (** [Date.now()], at a given tick *)
  now_ms : nat -> float;
  (** [new Date(ms).toISOString()], for a time value [ms] in range *)
  toISOString : float -> string;
  (** a number inside a template literal *)
  number_to_string : float -> string;
  (** [ToNumber] of a string *)
  string_to_number : string -> float;
  (** [n.toFixed(2)] *)
  toFixed2 : float -> string;
  (** [Math.random().toString(36).slice(2, 6)], at a given tick *)
  random_suffix : nat -> string;
  (** the identifier [createMessage] generates, at a given tick *)
  fresh_id : nat -> string;
  (** the answer of the language-model client, at a given tick *)
  llm_chat : nat -> list LLMMessage -> string;
  (** [JSON.parse]; [None] when it throws *)
  JSON_parse : string -> option JSON;
  (** [JSON.stringify] of a [socialStyle] object *)
  JSON_stringify : SocialStyle -> string;
}.

(** States that count the reads of the host. *)
Class Ticking (S : Type) := {
  ticks : S -> nat;
  set_ticks : nat -> S -> S;
}.

(** One read of the host: the current tick, which is then consumed. *)
Definition tick {S} `{Ticking S} : M S nat :=
  fun s => Ok (ticks s, set_ticks (Datatypes.S (ticks s)) s).

Section WithHost.
Context (h : Host).

(** [new Date().toISOString()]: the time of the clock is in range. *)
Definition now_iso {S} `{Ticking S} : M S string :=
  let! t := tick in ret (toISOString h (now_ms h t)).

(** [new Date(v).toISOString()]: a [RangeError] when [v] is no time
    value. *)
Definition date_iso {S} (v : float) : M S string :=
  if time_in_range v then ret (toISOString h v)
  else throw (RangeError "Invalid time value").

(** Modelled from the spec: [createMessage] of core/message is missing.
    Section 4.1: [createMessage(from, to, kind, payload, correlationId?)]
    produces an envelope with a freshly generated unique [id]; construction
    has no other effect. *)
Definition createMessage {S} `{Ticking S} (from to : string) (kind : Kind)
    (payload : Payload) (correlationId : option string) : M S Message :=
  let! t := tick in
  ret {| msg_from := from; msg_to := to; msg_kind := kind;
         msg_payload := payload; msg_id := fresh_id h t;
         msg_correlationId := correlationId |}.

End WithHost.

(** ** Memory Store *)

(** Modelled from the spec: the entry type of core/memory is missing.
    Section 3: [{ key, value, agent, tags, updatedAt }]. *)
Record MemoryEntry := {
  key : string;
  value : MemValue;
  agent : string;
  tags : list (option string);
  entry_updatedAt : string;
}.

(** Modelled from the spec: the class [Memory] of core/memory is missing.
    Sections 3 and 4.3: a store is scoped to one backing location and holds
    entries of unique key; its sequences of entries are stable-ordered, here
    in order of first insertion. *)
Record Memory := {
  mem_dir : string;
  mem_entries : list MemoryEntry;
}.

(** Modelled from the spec: an entry of the same key is overwritten where
    it stands, a new key is added at the end. *)
Fixpoint upsert (e : MemoryEntry) (l : list MemoryEntry) : list MemoryEntry :=
  match l with
  | [] => [e]
  | e' :: r => if String.eqb (key e') (key e) then e :: r else e' :: upsert e r
  end.

(** Modelled from the spec: [Memory.set] is missing. Section 4.3:
    [set(key, value, agent, tags)] upserts an entry and updates
    [updatedAt] to the current time, here [now]; a later [get] observes
    the write. *)
Definition Memory_set (m : Memory) (k : string) (v : MemValue)
    (a : string) (tg : list (option string)) (now : string) : Memory :=
  {| mem_dir := mem_dir m;
     mem_entries :=
       upsert {| key := k; value := v; agent := a; tags := tg;
                 entry_updatedAt := now |} (mem_entries m) |}.

(** Modelled from the spec: [Memory.get] is missing. Section 4.3:
    [get(key)] returns the current value or an absent indicator and never
    throws. *)
Definition Memory_get (m : Memory) (k : string) : option MemValue :=
  value <$> List.find (fun e => String.eqb (key e) k) (mem_entries m).

(** Modelled from the spec: [Memory.search] is missing. Section 4.3:
    [search(prefix)] returns all entries whose key starts with the given
    prefix, in stable order. *)
Definition Memory_search (m : Memory) (p : string) : list MemoryEntry :=
  List.filter (fun e => startsWith (key e) p) (mem_entries m).

(** Modelled from the spec: [Memory.byAgent] is missing. Section 4.3:
    [byAgent(agentName)] returns all entries last written by the given
    agent, in stable order. *)
Definition Memory_byAgent (m : Memory) (a : string) : list MemoryEntry :=
  List.filter (fun e => String.eqb (agent e) a) (mem_entries m).

(** The persisted backing of the stores: location to entries. *)
Abbreviation Disk := (gmap string (list MemoryEntry)).

(** Modelled from the spec: the constructor and [init] of [Memory] are
    missing. Sections 4.3 and 6: [init()] acquires the backing location,
    after which the store is readable and writable and holds what the
    location persists; it is idempotent. *)
Definition Memory_init (d : Disk) (dir : string) : Memory :=
  {| mem_dir := dir; mem_entries := default [] (d !! dir) |}.

(** Modelled from the spec: the backing location after [init]. *)
Definition Disk_init (d : Disk) (dir : string) : Disk :=
  <[dir := default [] (d !! dir)]> d.

(** Modelled from the spec: write-through of a store to its backing
    location (section 4.3: a write is persisted before [set] returns). *)
Definition persist (m : Memory) (d : Disk) : Disk :=
  <[mem_dir m := mem_entries m]> d.

(** ** Executor *)

(** Modelled from the spec: the class [Executor] of core/executor is
    missing. Glossary and section 1: a credential-scoped component that is
    passed opaque credential key-value pairs, of which only the
    credential-injection interface is specified.  An executor is
    therefore known by the pairs it has been passed, in order. *)
Record Executor := {
  credentials : list (string * string);
}.

(** Modelled from the spec: [new Executor()] has been passed nothing. *)
Definition Executor_new : Executor := {| credentials := [] |}.

(** Modelled from the spec: [Executor.setCredential(key, value)] is
    missing; the executor has been passed one more pair. *)
Definition setCredential (e : Executor) (k v : string) : Executor :=
  {| credentials := credentials e ++ [(k, v)] |}.

(** ** Agent identity *)

Record Capability := {
  cap_name : string;
  cap_description : string;
  inputSchema : list (string * string);
  outputSchema : list (string * string);
}.

(** Modelled from the spec: [BaseAgent] of core/agent is missing. Section
    4.2: the identity an agent passes to its base constructor. *)
Record AgentInfo := {
  agent_name : string;
  agent_description : string;
  agent_version : string;
  capabilities : list Capability;
}.

End Core.

(* ===================================================================== *)
(** * 4. AnalyticsAgent *)
(* ===================================================================== *)

Module Analytics.
Import JS Data Core.

(** The identity passed to [super(...)]. *)
Definition info : AgentInfo :=
  {| agent_name := "analytics";
     agent_description :=
       "Tracks content performance, provides insights, and learns what works best";
     agent_version := "1.0.0";
     capabilities :=
       [ {| cap_name := "track";
            cap_description := "Record metrics for a piece of content";
            inputSchema := [("contentId", "string"); ("platform", "string");
                            ("metrics", "object")];
            outputSchema := [("tracked", "boolean")] |};
         {| cap_name := "report";
            cap_description := "Get performance report for recent content";
            inputSchema := [("days", "number?"); ("platform", "string?")];
            outputSchema := [("report", "object")] |};
         {| cap_name := "insights";
            cap_description := "Get insights on what content performs best";
            inputSchema := [];
            outputSchema := [("insights", "string[]")] |};
         {| cap_name := "top-content";
            cap_description := "Get top performing content";
            inputSchema := [("limit", "number?"); ("metric", "string?")];
            outputSchema := [("content", "object[]")] |} ] |}.

Definition name : string := agent_name info.

(** The fields of the agent, with the count of host reads. *)
Record State := {
  memory : Memory;
  reads : nat;
}.

#[global] Instance State_ticking : Ticking State :=
  {| ticks := reads;
     set_ticks := fun n s => {| memory := memory s; reads := n |} |}.

Definition set_memory (m : Memory) : M State unit :=
  modify (fun s => {| memory := m; reads := reads s |}).

(** [entry.value as ContentMetrics]: the cast checks nothing. *)
Definition as_metrics (v : MemValue) : option ContentMetrics :=
  match v with VMetrics m => Some m | _ => None end.

(** [{ ...old, ...metrics, updatedAt }]: a field of [metrics] wins over
    the one of [old]. *)
Definition over {A} (new old : option A) : option A :=
  match new with Some a => Some a | None => old end.

Definition merge_stats (old : option PlatformStats) (mi : option MetricsInput)
    (now : string) : PlatformStats :=
  let o f := old ≫= f in
  let n f := mi ≫= f in
  {| views := over (n mi_views) (o views);
     likes := over (n mi_likes) (o likes);
     shares := over (n mi_shares) (o shares);
     comments := over (n mi_comments) (o comments);
     clicks := over (n mi_clicks) (o clicks);
     impressions := over (n mi_impressions) (o impressions);
     engagement := over (n mi_engagement) (o engagement);
     stats_updatedAt := now |}.

(** [if (m.views && m.views > 0) m.engagement = ...]. *)
Definition with_engagement (m : PlatformStats) : PlatformStats :=
  match views m with
  | Some v =>
      if num_truthy v && PrimFloat.ltb 0 v then
        {| views := views m; likes := likes m; shares := shares m;
           comments := comments m; clicks := clicks m;
           impressions := impressions m;
           engagement :=
             Some ((num_or (likes m) 0 + num_or (comments m) 0
                    + num_or (shares m) 0) / v * 100)%float;
           stats_updatedAt := stats_updatedAt m |}
      else m
  | None => m
  end.

(** [if (!existing.platforms.includes(platform)) existing.platforms.push(platform)]. *)
Definition add_platform (l : list (option string)) (platform : option string)
    : list (option string) :=
  if includes_undefined l platform then l else l ++ [platform].

Section WithHost.
Context (h : Host).

Definition track (message : Message) (input : TaskInput) : M State Message :=
  let contentId := in_contentId input in
  let platform := in_platform input in
  let tags := in_tags input in
  let key := "metrics:" +:+ show_str contentId in
  let fresh : M State ContentMetrics :=
    let! now := now_iso h in
    ret {| cm_id := contentId;
           cm_title := str_or_undefined (in_title input) contentId;
           cm_topic := str_or (in_topic input) "";
           cm_createdAt := now;
           cm_platforms := [];
           cm_metrics := [];
           cm_tags := arr_or tags [] |} in
  let! this := get in
  let! existing :=
    match Memory_get (memory this) key with
    | Some v =>
        if truthy v then
          match as_metrics v with
          | Some m => ret m
          | None => throw (TypeError "existing.metrics is undefined")
          end
        else fresh
    | None => fresh
    end in
  (* Update metrics for platform *)
  let! now := now_iso h in
  let stats := merge_stats (obj_get (cm_metrics existing) (show_str platform))
                 (in_metrics input) now in
  let platforms := add_platform (cm_platforms existing) platform in
  (* Calculate engagement rate *)
  let m := with_engagement stats in
  let updated :=
    {| cm_id := cm_id existing; cm_title := cm_title existing;
       cm_topic := cm_topic existing;
       cm_createdAt := cm_createdAt existing;
       cm_platforms := platforms;
       cm_metrics := obj_set (cm_metrics existing) (show_str platform) m;
       cm_tags := cm_tags existing |} in
  let! written := now_iso h in
  let! this := get in
  run! set_memory
         (Memory_set (memory this) key (VMetrics updated) name
            (Some "metrics" :: platform :: (Some <$> arr_or tags [])) written) in
  createMessage h name (msg_from message) result
    (ResultPayload true (OutTracked contentId platform))
    (Some (msg_id message)).

(** The entries of [allMetrics] that are content metrics. *)
Definition metrics_of (l : list MemoryEntry) : list ContentMetrics :=
  omap (fun e => as_metrics (value e)) l.

(** The [(platform, stats)] pairs the nested loops of [report] and
    [getTopPlatform] visit. *)
Definition all_stats (l : list ContentMetrics) : list (string * PlatformStats) :=
  concat (map cm_metrics l).

Definition sum_of (f : PlatformStats -> option float)
    (l : list (string * PlatformStats)) : float :=
  fold_left (fun acc ps => (acc + num_or (f ps.2) 0)%float) l 0%float.

(** [sorted[0]?.[0] || "none"] for the platform views of [getTopPlatform]. *)
Definition getTopPlatform (metrics : list ContentMetrics) : string :=
  let platformViews :=
    fold_left
      (fun acc ps =>
         obj_set acc ps.1
           ((num_or (obj_get acc ps.1) 0 + num_or (views ps.2) 0)%float))
      (all_stats metrics) [] in
  let sorted :=
    sort (fun a b : string * float => (b.2 - a.2)%float) platformViews in
  str_or (fst <$> head sorted) "none".

Definition report (message : Message) (input : TaskInput) : M State Message :=
  let days := num_or (in_days input) 30 in
  let platform := in_platform input in
  let! t := tick in
  let! cutoff := date_iso h (now_ms h t - days * 86400000)%float in
  let! this := get in
  (* an entry that is no content metrics has no [createdAt]:
     [undefined >= cutoff] is false *)
  let allMetrics :=
    List.filter (fun m => string_ge (cm_createdAt m) cutoff)
      (metrics_of (Memory_search (memory this) "metrics:")) in
  let contentCount := length allMetrics in
  let wanted (ps : string * PlatformStats) : bool :=
    match platform with
    | Some p => String.eqb p "" || String.eqb ps.1 p
    | None => true
    end in
  let visited := List.filter wanted (all_stats allMetrics) in
  let totalViews := sum_of views visited in
  let totalLikes := sum_of likes visited in
  let totalShares := sum_of shares visited in
  let totalComments := sum_of comments visited in
  let avgEngagement :=
    if PrimFloat.ltb 0 totalViews
    then toFixed2 h ((totalLikes + totalComments + totalShares)
                     / totalViews * 100)%float
    else number_to_string h 0%float in
  createMessage h name (msg_from message) result
    (ResultPayload true
       (OutReport
          {| rp_period := "Last " +:+ number_to_string h days +:+ " days";
             rp_platform := str_or platform "all";
             rp_contentCount := contentCount;
             rp_totalViews := totalViews;
             rp_totalLikes := totalLikes;
             rp_totalShares := totalShares;
             rp_totalComments := totalComments;
             rp_avgEngagement := avgEngagement +:+ "%";
             rp_topPlatform := getTopPlatform allMetrics |}))
    (Some (msg_id message)).

(** [for (const entry of allMetrics) ... Object.entries(m.metrics)]: the
    loop throws at an entry that is no content metrics. *)
Definition entries_metrics (l : list MemoryEntry) : M State (list ContentMetrics) :=
  mapM (fun e => match as_metrics (value e) with
                 | Some m => ret m
                 | None => throw (TypeError "m.metrics is undefined")
                 end) l.

(** One value of the [topicPerformance] map. *)
Record TopicStats := {
  topic_views : float;
  topic_engagement : float;
  topic_count : nat;
}.

Definition add_stats (acc : float * float) (stats : PlatformStats) : float * float :=
  ((acc.1 + num_or (views stats) 0)%float,
   (acc.2 + num_or (engagement stats) 0)%float).

Definition topicPerformance (l : list ContentMetrics) : list (string * TopicStats) :=
  fold_left
    (fun acc m =>
       if String.eqb (cm_topic m) "" then acc
       else
         let existing :=
           default {| topic_views := 0; topic_engagement := 0; topic_count := 0 |}
                   (obj_get acc (cm_topic m)) in
         let ve := fold_left add_stats (values (cm_metrics m))
                     (topic_views existing, topic_engagement existing) in
         obj_set acc (cm_topic m)
           {| topic_views := ve.1; topic_engagement := ve.2;
              topic_count := S (topic_count existing) |})
    l [].

Definition platformStats (l : list ContentMetrics) : list (string * (float * float)) :=
  fold_left
    (fun acc ps =>
       obj_set acc ps.1
         (add_stats (default (0%float, 0%float) (obj_get acc ps.1)) ps.2))
    (all_stats l) [].

Definition push_if {A} (x : option A) (f : A -> string) (l : list string) : list string :=
  match x with Some a => l ++ [f a] | None => l end.

Definition getInsights (message : Message) : M State Message :=
  let! this := get in
  let allMetrics := Memory_search (memory this) "metrics:" in
  if (length allMetrics =? 0)%nat then
    createMessage h name (msg_from message) result
      (ResultPayload true
         (OutInsights
            ["No content tracked yet. Start generating and tracking to get insights!"]))
      (Some (msg_id message))
  else
    (* Find best performing topics; sort by engagement *)
    let sortedTopics :=
      sort (fun a b : string * TopicStats =>
              (topic_engagement b.2 - topic_engagement a.2)%float)
           (topicPerformance (metrics_of allMetrics)) in
    let insights1 :=
      push_if (head sortedTopics)
        (fun t => "📈 Best performing topic: " +:+ dq +:+ t.1 +:+ dq
                  +:+ " with " +:+ number_to_string h (topic_views t.2)
                  +:+ " total views") [] in
    (* Platform comparison *)
    let! ms := entries_metrics allMetrics in
    let bestPlatform :=
      head (sort (fun a b : string * (float * float) => (b.2.2 - a.2.2)%float)
                 (platformStats ms)) in
    let insights2 :=
      push_if bestPlatform
        (fun b => "🏆 Best platform: " +:+ b.1 +:+ " (highest engagement)")
        insights1 in
    let insights3 :=
      insights2
      ++ [ "📊 Total content tracked: "
           +:+ number_to_string h (of_nat (length allMetrics))
           +:+ " pieces";
           "💡 Tip: Track metrics regularly to improve content strategy" ] in
    createMessage h name (msg_from message) result
      (ResultPayload true (OutInsights insights3))
      (Some (msg_id message)).

(** [(stats as any)[metric]]: a number, the string [updatedAt], or
    [undefined]; properties inherited from [Object.prototype] are not
    modelled. *)
Inductive Field := FNum (x : float) | FStr (s : string) | FUndefined.

Definition opt_num (x : option float) : Field :=
  match x with Some q => FNum q | None => FUndefined end.

Definition stats_field (stats : PlatformStats) (metric : string) : Field :=
  if String.eqb metric "views" then opt_num (views stats)
  else if String.eqb metric "likes" then opt_num (likes stats)
  else if String.eqb metric "shares" then opt_num (shares stats)
  else if String.eqb metric "comments" then opt_num (comments stats)
  else if String.eqb metric "clicks" then opt_num (clicks stats)
  else if String.eqb metric "impressions" then opt_num (impressions stats)
  else if String.eqb metric "engagement" then opt_num (engagement stats)
  else if String.eqb metric "updatedAt" then FStr (stats_updatedAt stats)
  else FUndefined.

(** [x || 0]. *)
Definition field_or_0 (x : Field) : Field :=
  match x with
  | FNum q => if num_truthy q then FNum q else FNum 0
  | FStr s => if String.eqb s "" then FNum 0 else FStr s
  | FUndefined => FNum 0
  end.

(** [score += x]: [+] concatenates as soon as one side is a string. *)
Definition score_add (score : Score) (x : Field) : Score :=
  match score, x with
  | SNum a, FNum b => SNum (a + b)%float
  | SNum a, FStr s => SStr (number_to_string h a +:+ s)
  | SStr a, FNum b => SStr (a +:+ number_to_string h b)
  | SStr a, FStr s => SStr (a +:+ s)
  | _, FUndefined => score
  end.

Definition score_of (metric : string) (m : ContentMetrics) : Score :=
  fold_left (fun score stats => score_add score (field_or_0 (stats_field stats metric)))
            (values (cm_metrics m)) (SNum 0).

(** [ToNumber(score)]. *)
Definition score_number (s : Score) : float :=
  match s with
  | SNum q => q
  | SStr t => string_to_number h t
  end.

(** [(a, b) => b.score - a.score]. *)
Definition by_score (a b : ContentMetrics * Score) : float :=
  (score_number b.2 - score_number a.2)%float.

Definition topContent (message : Message) (input : TaskInput) : M State Message :=
  let limit := num_or (in_limit input) 5 in
  let metric := str_or (in_metric input) "views" in
  let! this := get in
  let allMetrics := Memory_search (memory this) "metrics:" in
  let! ms := entries_metrics allMetrics in
  let scored :=
    slice_to limit (sort by_score (map (fun m => (m, score_of metric m)) ms)) in
  createMessage h name (msg_from message) result
    (ResultPayload true
       (OutTopContent
          (map (fun c : ContentMetrics * Score =>
                  {| ti_title := cm_title c.1; ti_topic := cm_topic c.1;
                     ti_platforms := cm_platforms c.1; ti_score := c.2;
                     ti_metric := metric |}) scored)))
    (Some (msg_id message)).

(** [message.payload as TaskPayload]: the fields read off a payload that
    is no task are [undefined]. *)
Definition payload_action (p : Payload) : option string :=
  match p with TaskPayload a _ => Some a | _ => None end.

Definition payload_input (p : Payload) : option TaskInput :=
  match p with TaskPayload _ i => Some i | _ => None end.

(** A handler reading [task.input] of a payload that has none. *)
Definition with_input (p : Payload) (k : TaskInput -> M State Message) : M State Message :=
  match payload_input p with
  | Some i => k i
  | None => throw (TypeError "task.input is undefined")
  end.

Definition handle (message : Message) : M State Message :=
  let task := msg_payload message in
  let action := payload_action task in
  if bool_decide (action = Some "track") then with_input task (track message)
  else if bool_decide (action = Some "report") then with_input task (report message)
  else if bool_decide (action = Some "insights") then getInsights message
  else if bool_decide (action = Some "top-content") then with_input task (topContent message)
  else
    createMessage h name (msg_from message) error
      (ErrorPayload "UNKNOWN_ACTION" ("Unknown: " +:+ show_str action) false)
      (Some (msg_id message)).

End WithHost.

End Analytics.

(* ===================================================================== *)
(** * 5. BrandManagerAgent *)
(* ===================================================================== *)

Module BrandManager.
Import JS Data Core.

Definition info : AgentInfo :=
  {| agent_name := "brand-manager";
     agent_description :=
       "Manages brand voice, style preferences, and learns from feedback to improve content quality";
     agent_version := "1.0.0";
     capabilities :=
       [ {| cap_name := "get-brand-context";
            cap_description :=
              "Get the brand profile and writing guidelines for content generation";
            inputSchema := [("brandName", "string?")];
            outputSchema := [("profile", "BrandProfile"); ("guidelines", "string")] |};
         {| cap_name := "set-brand";
            cap_description :=
              "Set or update brand profile (voice, tone, audience, etc.)";
            inputSchema := [("profile", "Partial<BrandProfile>")];
            outputSchema := [("saved", "boolean")] |};
         {| cap_name := "learn-from-feedback";
            cap_description := "Learn from user feedback on generated content";
            inputSchema := [("feedback", "string"); ("contentType", "string?");
                            ("rating", "number?")];
            outputSchema := [("learned", "string")] |};
         {| cap_name := "analyze-sample";
            cap_description :=
              "Analyze a content sample to extract brand voice and style";
            inputSchema := [("sample", "string")];
            outputSchema := [("analysis", "object")] |} ] |}.

Definition name : string := agent_name info.

(** [DEFAULT_PROFILE]. Its arrays are shared by every profile spread from
    it; [learnings] is the only one the code mutates in place, so its
    current content is a parameter. *)
Definition DEFAULT_PROFILE (learnings : list string) : BrandProfile :=
  {| bp_name := "default";
     bp_voice := "professional yet approachable";
     bp_tone := "authoritative but friendly";
     bp_audience := "general";
     bp_industry := "technology";
     bp_keywords := [];
     bp_avoidWords := [];
     bp_examples := [];
     bp_socialStyle :=
       {| twitter := "engaging threads with hooks and data";
          linkedin := "thought leadership with insights";
          instagram := "visual-friendly with emojis" |};
     bp_learnings := learnings |}.

(** The fields of the agent, the array [DEFAULT_PROFILE.learnings] of its
    module, and the count of host reads.  A store hands out copies of the
    values it holds. *)
Record State := {
  memory : Memory;
  default_learnings : list string;
  reads : nat;
}.

#[global] Instance State_ticking : Ticking State :=
  {| ticks := reads;
     set_ticks := fun n s =>
       {| memory := memory s; default_learnings := default_learnings s;
          reads := n |} |}.

Definition set_default_learnings (l : list string) : M State unit :=
  modify (fun s => {| memory := memory s; default_learnings := l;
                      reads := reads s |}).

Definition with_name (p : BrandProfile) (n : string) : BrandProfile :=
  {| bp_name := n; bp_voice := bp_voice p; bp_tone := bp_tone p;
     bp_audience := bp_audience p; bp_industry := bp_industry p;
     bp_keywords := bp_keywords p; bp_avoidWords := bp_avoidWords p;
     bp_examples := bp_examples p; bp_socialStyle := bp_socialStyle p;
     bp_learnings := bp_learnings p |}.

Definition with_learnings (p : BrandProfile) (l : list string) : BrandProfile :=
  {| bp_name := bp_name p; bp_voice := bp_voice p; bp_tone := bp_tone p;
     bp_audience := bp_audience p; bp_industry := bp_industry p;
     bp_keywords := bp_keywords p; bp_avoidWords := bp_avoidWords p;
     bp_examples := bp_examples p; bp_socialStyle := bp_socialStyle p;
     bp_learnings := l |}.

(** [{ ...DEFAULT_PROFILE, ...stored }] for a stored value of each shape;
    the keys of [stored] that are no field of a profile are dropped.  The
    boolean tells whether [learnings] is still the array of
    [DEFAULT_PROFILE]. *)
Definition spread_stored (d : BrandProfile) (stored : MemValue) : BrandProfile * bool :=
  match stored with
  | VProfile p => (p, false)
  | VBrand b =>
      ({| bp_name := bp_name d; bp_voice := voice b; bp_tone := tone b;
          bp_audience := audience b; bp_industry := industry b;
          bp_keywords := keywords b; bp_avoidWords := avoidWords b;
          bp_examples := bp_examples d; bp_socialStyle := bp_socialStyle d;
          bp_learnings := bp_learnings d |}, true)
  | VString _ | VMetrics _ | VFeedback _ => (d, true)
  end.

Section WithHost.
Context (h : Host).

(** [this.memory.set(...)], the store reading the clock for [updatedAt]. *)
Definition memory_set (k : string) (v : MemValue) (tg : list (option string))
    : M State unit :=
  let! now := now_iso h in
  modify (fun s =>
    {| memory := Memory_set (memory s) k v name tg now;
       default_learnings := default_learnings s; reads := reads s |}).

(** Get brand profile from memory *)
Definition getProfile (n : string) : M State (BrandProfile * bool) :=
  let! this := get in
  let d := DEFAULT_PROFILE (default_learnings this) in
  match Memory_get (memory this) ("brand:" +:+ n) with
  | Some stored =>
      if truthy stored then ret (spread_stored d stored)
      else ret (with_name d n, true)
  | None => ret (with_name d n, true)
  end.

Definition show_nat (n : nat) : string :=
  number_to_string h (of_nat n).

(** Build guidelines string for other agents *)
Definition buildGuidelines (profile : BrandProfile) : string :=
  let g := "## Brand Writing Guidelines" +:+ nl +:+ nl in
  let g := g +:+ "**Voice:** " +:+ bp_voice profile +:+ nl in
  let g := g +:+ "**Tone:** " +:+ bp_tone profile +:+ nl in
  let g := g +:+ "**Target Audience:** " +:+ bp_audience profile +:+ nl in
  let g := g +:+ "**Industry:** " +:+ bp_industry profile +:+ nl in
  let g :=
    if (length (bp_keywords profile) =? 0)%nat then g
    else g +:+ "**Include these keywords when relevant:** "
           +:+ join ", " (bp_keywords profile) +:+ nl in
  let g :=
    if (length (bp_avoidWords profile) =? 0)%nat then g
    else g +:+ "**NEVER use these words:** "
           +:+ join ", " (bp_avoidWords profile) +:+ nl in
  let g :=
    if (length (bp_examples profile) =? 0)%nat then g
    else
      fold_left String.append
        (imap (fun i e => show_nat (i + 1) +:+ ". " +:+ dq
                          +:+ String.substring 0 200 e +:+ "..." +:+ dq +:+ nl)
              (bp_examples profile))
        (g +:+ nl +:+ "**Content examples the brand likes:**" +:+ nl) in
  let g :=
    if (length (bp_learnings profile) =? 0)%nat then g
    else
      fold_left String.append
        (map (fun l => "- " +:+ l +:+ nl) (bp_learnings profile))
        (g +:+ nl +:+ "**Learned preferences (from past feedback):**" +:+ nl) in
  let g := g +:+ nl +:+ "**Social Media Style:**" +:+ nl in
  let g := g +:+ "- Twitter: " +:+ twitter (bp_socialStyle profile) +:+ nl in
  let g := g +:+ "- LinkedIn: " +:+ linkedin (bp_socialStyle profile) +:+ nl in
  let g := g +:+ "- Instagram: " +:+ instagram (bp_socialStyle profile) +:+ nl in
  g.

Definition getBrandContext (message : Message) (input : TaskInput) : M State Message :=
  let brandName := str_or (in_brandName input) "default" in
  let! pf := getProfile brandName in
  let profile := pf.1 in
  (* Build guidelines string for other agents to use *)
  let guidelines := buildGuidelines profile in
  createMessage h name (msg_from message) result
    (ResultPayload true (OutBrandContext profile guidelines))
    (Some (msg_id message)).

(** [{ ...existing.socialStyle, ...(task.input.socialStyle || {}) }]. *)
Definition merge_socialStyle (old : SocialStyle) (new : option PartialSocialStyle) : SocialStyle :=
  {| twitter := nullish (new ≫= ps_twitter) (twitter old);
     linkedin := nullish (new ≫= ps_linkedin) (linkedin old);
     instagram := nullish (new ≫= ps_instagram) (instagram old) |}.

(** Merge with existing *)
Definition merge_profile (existing : BrandProfile) (input : TaskInput) : BrandProfile :=
  {| bp_name := nullish (in_name input) (bp_name existing);
     bp_voice := nullish (in_voice input) (bp_voice existing);
     bp_tone := nullish (in_tone input) (bp_tone existing);
     bp_audience := nullish (in_audience input) (bp_audience existing);
     bp_industry := nullish (in_industry input) (bp_industry existing);
     bp_socialStyle := merge_socialStyle (bp_socialStyle existing) (in_socialStyle input);
     bp_keywords :=
       set_of (bp_keywords existing ++ arr_or (in_keywords input) []);
     bp_avoidWords :=
       set_of (bp_avoidWords existing ++ arr_or (in_avoidWords input) []);
     bp_examples :=
       (* keep last 10 *)
       slice_last 10 (bp_examples existing ++ arr_or (in_examples input) []);
     bp_learnings := bp_learnings existing ++ arr_or (in_learnings input) [] |}.

Definition setBrand (message : Message) (input : TaskInput) : M State Message :=
  let brandName := str_or (in_name input) (str_or (in_brandName input) "default") in
  let! pf := getProfile brandName in
  let updated := merge_profile pf.1 input in
  run! memory_set ("brand:" +:+ brandName) (VProfile updated)
         [Some "brand"; Some brandName] in
  (* Also update shared memory so other agents can access *)
  run! memory_set "brand_voice" (VString (bp_voice updated)) [Some "brand"] in
  run! memory_set "brand_tone" (VString (bp_tone updated)) [Some "brand"] in
  run! memory_set "brand_audience" (VString (bp_audience updated)) [Some "brand"] in
  run! memory_set "social_tone"
         (VString (JSON_stringify h (bp_socialStyle updated))) [Some "brand"] in
  createMessage h name (msg_from message) result
    (ResultPayload true (OutSaved updated))
    (Some (msg_id message)).

Definition quoted (s : string) : string := dq +:+ s +:+ dq.

Definition learn_system_prompt : string :=
  join nl
    [ "You are a brand learning system. Extract actionable writing rules from user feedback.";
      "";
      "Convert feedback into specific, reusable rules. Examples:";
      "- " +:+ quoted "Too formal" +:+ " → "
        +:+ quoted "Use conversational tone, contractions, and shorter sentences";
      "- " +:+ quoted "Not enough data" +:+ " → "
        +:+ quoted "Include at least 3 statistics or data points per blog post";
      "- " +:+ quoted "Love the humor" +:+ " → "
        +:+ quoted "Continue using light humor and analogies";
      "";
      "Return ONLY valid JSON:";
      "{";
      "  " +:+ quoted "learning" +:+ ": " +:+ quoted "the specific actionable rule" +:+ ",";
      "  " +:+ quoted "applies_to" +:+ ": "
        +:+ quoted "blog|social|twitter|linkedin|instagram|all" +:+ ",";
      "  " +:+ quoted "priority" +:+ ": " +:+ quoted "high|medium|low";
      "}" ].

Definition analyze_system_prompt : string :=
  join nl
    [ "Analyze this content sample and extract the brand voice, tone, and style.";
      "";
      "Return ONLY valid JSON:";
      "{";
      "  " +:+ quoted "voice" +:+ ": " +:+ quoted "description of writing voice" +:+ ",";
      "  " +:+ quoted "tone" +:+ ": " +:+ quoted "description of tone" +:+ ",";
      "  " +:+ quoted "audience" +:+ ": " +:+ quoted "who this is written for" +:+ ",";
      "  " +:+ quoted "characteristics" +:+ ": [" +:+ quoted "list" +:+ ", "
        +:+ quoted "of" +:+ ", " +:+ quoted "key" +:+ ", "
        +:+ quoted "characteristics" +:+ "],";
      "  " +:+ quoted "vocabulary_level" +:+ ": " +:+ quoted "simple|moderate|advanced" +:+ ",";
      "  " +:+ quoted "sentence_length" +:+ ": " +:+ quoted "short|medium|long|mixed" +:+ ",";
      "  " +:+ quoted "use_of_humor" +:+ ": " +:+ quoted "none|light|heavy" +:+ ",";
      "  " +:+ quoted "use_of_data" +:+ ": " +:+ quoted "none|light|heavy" +:+ ",";
      "  " +:+ quoted "use_of_emojis" +:+ ": " +:+ quoted "none|light|heavy" +:+ ",";
      "  " +:+ quoted "recommended_voice" +:+ ": "
        +:+ quoted "a concise brand voice description to use as a writing guideline";
      "}" ].

(** [this.llm.chat(messages)], then [response.content]. *)
Definition chat (messages : list LLMMessage) : M State string :=
  let! t := tick in ret (llm_chat h t messages).

(** A parsed value inside a template literal. *)
Fixpoint show_json (v : JSON) : string :=
  match v with
  | JNull => "null"
  | JBool b => if b then "true" else "false"
  | JNum x => number_to_string h x
  | JStr s => s
  | JArr l =>
      join "," (map (fun e => match e with JNull => "" | _ => show_json e end) l)
  | JObj _ => "[object Object]"
  end.

Definition show_json_opt (v : option JSON) : string :=
  match v with Some j => show_json j | None => "undefined" end.

(** [v.k] for a parsed value [v]. *)
Definition json_field (v : JSON) (k : string) : M State (option JSON) :=
  match v with
  | JObj fields => ret (obj_get fields k)
  | JNull => throw (TypeError "cannot read properties of null")
  | _ => ret None
  end.

(** The [try] block the two handlers share: the text matched by
    [/\{[\s\S]*\}/] is parsed; [no_match] stands for the result when
    nothing matches and [on_throw] for the one of the [catch] clause. *)
Definition extract_json (response : string) (no_match on_throw : JSON) : JSON :=
  match match_braces response with
  | Some text =>
      match JSON_parse h text with
      | Some v => v
      | None => on_throw
      end
  | None => no_match
  end.

(** The [messages] of [learnFromFeedback]. *)
Definition learn_messages (input : TaskInput) : list LLMMessage :=
  let feedback := in_feedback input in
  let contentType := str_or (in_contentType input) "general" in
  let rating := in_rating input in (* 1-5 *)
  [ {| role := "system"; content := learn_system_prompt |};
    {| role := "user";
       content :=
         "Feedback on " +:+ contentType +:+ " content"
         +:+ (match rating with
              | Some r => if num_truthy r
                          then " (rating: " +:+ number_to_string h r +:+ "/5)"
                          else ""
              | None => ""
              end)
         +:+ ":" +:+ nl +:+ quoted (show_str feedback) |} ].

Definition learnFromFeedback (message : Message) (input : TaskInput) : M State Message :=
  let feedback := in_feedback input in
  let contentType := str_or (in_contentType input) "general" in
  let rating := in_rating input in (* 1-5 *)
  (* Use LLM to extract actionable learning from feedback *)
  let messages := learn_messages input in
  let! response := chat messages in
  let fallback :=
    JObj (match feedback with
          | Some f => [("learning", JStr f)]
          | None => []
          end ++ [("applies_to", JStr "all"); ("priority", JStr "medium")]) in
  let learning := extract_json response fallback fallback in
  (* Save to brand profile *)
  let! pf := getProfile "default" in
  let! applies_to := json_field learning "applies_to" in
  let! learned := json_field learning "learning" in
  let pushed :=
    bp_learnings pf.1
    ++ ["[" +:+ show_json_opt applies_to +:+ "] " +:+ show_json_opt learned] in
  run! (if pf.2 then set_default_learnings pushed else ret tt) in
  (* Keep last 20 learnings *)
  let kept :=
    if (20 <? length pushed)%nat then slice_last 20 pushed else pushed in
  let profile := with_learnings pf.1 kept in
  run! memory_set "brand:default" (VProfile profile)
         [Some "brand"; Some "learning"] in
  let! t := tick in
  run! memory_set ("feedback:" +:+ number_to_string h (now_ms h t))
         (VFeedback {| fb_feedback := feedback; fb_learning := learned;
                       fb_contentType := contentType; fb_rating := rating |})
         [Some "feedback"; Some contentType] in
  createMessage h name (msg_from message) result
    (ResultPayload true (OutLearned learned applies_to))
    (Some (msg_id message)).

(** The [messages] of [analyzeSample]. *)
Definition analyze_messages (input : TaskInput) : list LLMMessage :=
  [ {| role := "system"; content := analyze_system_prompt |};
    {| role := "user";
       content := "Analyze this content:" +:+ nl +:+ nl
                  +:+ show_str (in_sample input) |} ].

Definition analyzeSample (message : Message) (input : TaskInput) : M State Message :=
  let messages := analyze_messages input in
  let! response := chat messages in
  let analysis :=
    extract_json response
      (JObj [("error", JStr "Could not parse")])
      (JObj [("raw", JStr response)]) in
  createMessage h name (msg_from message) result
    (ResultPayload true (OutAnalysis analysis))
    (Some (msg_id message)).

(** A handler reading [task.input] of a payload that has none. *)
Definition with_input (p : Payload) (k : TaskInput -> M State Message) : M State Message :=
  match Analytics.payload_input p with
  | Some i => k i
  | None => throw (TypeError "task.input is undefined")
  end.

Definition handle (message : Message) : M State Message :=
  let task := msg_payload message in
  let action := Analytics.payload_action task in
  if bool_decide (action = Some "set-brand") then with_input task (setBrand message)
  else if bool_decide (action = Some "learn-from-feedback")
       then with_input task (learnFromFeedback message)
  else if bool_decide (action = Some "analyze-sample")
       then with_input task (analyzeSample message)
  (* Default: get-brand-context *)
  else with_input task (getBrandContext message).

End WithHost.

End BrandManager.

(* ===================================================================== *)
(** * 6. TenantManager *)
(* ===================================================================== *)

Module Tenant.
Import JS Data Core.

(** [join(a, b, ...)] of the module [path]. *)
Definition path_join (parts : list string) : string := join "/" parts.

(** The fields of the manager, the files it reads and writes, and the
    count of host reads.  [tenants] keeps the insertion order of its
    [Map]; [manifest] is the content of [tenants.json] ([None] when the file
    is absent or unreadable); [disk] backs the Memory Stores; [directories]
    are the directories made so far. *)
Record State := {
  tenants : list (string * TenantConfig);
  dataDir : string;
  memories : gmap string Memory;
  executors : gmap string Executor;
  manifest : option (list TenantConfig);
  disk : Disk;
  directories : gset string;
  reads : nat;
}.

Definition with_tenants (f : list (string * TenantConfig) -> list (string * TenantConfig))
    (s : State) : State :=
  {| tenants := f (tenants s); dataDir := dataDir s; memories := memories s;
     executors := executors s; manifest := manifest s; disk := disk s;
     directories := directories s; reads := reads s |}.

Definition with_memories (f : gmap string Memory -> gmap string Memory)
    (s : State) : State :=
  {| tenants := tenants s; dataDir := dataDir s; memories := f (memories s);
     executors := executors s; manifest := manifest s; disk := disk s;
     directories := directories s; reads := reads s |}.

Definition with_executors (f : gmap string Executor -> gmap string Executor)
    (s : State) : State :=
  {| tenants := tenants s; dataDir := dataDir s; memories := memories s;
     executors := f (executors s); manifest := manifest s; disk := disk s;
     directories := directories s; reads := reads s |}.

Definition with_manifest (m : option (list TenantConfig)) (s : State) : State :=
  {| tenants := tenants s; dataDir := dataDir s; memories := memories s;
     executors := executors s; manifest := m; disk := disk s;
     directories := directories s; reads := reads s |}.

Definition with_disk (f : Disk -> Disk) (s : State) : State :=
  {| tenants := tenants s; dataDir := dataDir s; memories := memories s;
     executors := executors s; manifest := manifest s; disk := f (disk s);
     directories := directories s; reads := reads s |}.

Definition with_directory (d : string) (s : State) : State :=
  {| tenants := tenants s; dataDir := dataDir s; memories := memories s;
     executors := executors s; manifest := manifest s; disk := disk s;
     directories := {[d]} ∪ directories s; reads := reads s |}.

#[global] Instance State_ticking : Ticking State :=
  {| ticks := reads;
     set_ticks := fun n s =>
       {| tenants := tenants s; dataDir := dataDir s; memories := memories s;
          executors := executors s; manifest := manifest s; disk := disk s;
          directories := directories s; reads := n |} |}.

(** [mkdir(d, { recursive: true })]. *)
Definition mkdir (d : string) : M State unit := modify (with_directory d).

(** The credential pairs in the order the nested loops of
    [initTenantResources] visit them. *)
Definition credential_pairs (p : Platforms) : list (string * string) :=
  concat (map snd p).

(** A new executor given the credentials of every platform. *)
Definition executor_of (p : Platforms) : Executor :=
  fold_left (fun exec kv => setCredential exec kv.1 kv.2)
            (credential_pairs p) Executor_new.

Definition saveTenants : M State unit :=
  modify (fun s => with_manifest (Some (values (tenants s))) s).

Definition initTenantResources (tenant : TenantConfig) : M State unit :=
  let! this := get in
  (* Each tenant gets own memory *)
  let memDir := path_join [dataDir this; id tenant; "memory"] in
  let mem := Memory_init (disk this) memDir in
  run! modify (with_disk (fun d => Disk_init d memDir)) in
  run! modify (with_memories (insert (id tenant) mem)) in
  (* Each tenant gets own executor with their credentials *)
  let exec := executor_of (platforms tenant) in
  run! modify (with_executors (insert (id tenant) exec)) in
  (* Create tenant output dir *)
  mkdir (path_join [dataDir this; id tenant; "output"]).

Definition loadTenants : M State unit :=
  let! this := get in
  match manifest this with
  | Some ts =>
      fold_left
        (fun acc t =>
           run! acc in
           run! modify (with_tenants (fun m => obj_set m (id t) t)) in
           initTenantResources t)
        ts (ret tt)
  | None => ret tt
  end.

Definition init : M State unit :=
  let! this := get in
  run! mkdir (dataDir this) in
  loadTenants.

Definition default_brand : Brand :=
  {| voice := "professional yet approachable";
     tone := "authoritative but friendly";
     audience := "general";
     industry := "technology";
     keywords := [];
     avoidWords := [] |}.

Definition default_settings : Settings :=
  {| defaultType := "blog+social";
     defaultModel := None;
     autoPublish := false;
     settings_platforms := ["local-file"] |}.

(** [config.name.toLowerCase().replace(/[^a-z0-9]+/g, "-")]. *)
Definition slugify (n : string) : string := replace_runs false (toLowerCase n).

(** The [brand] object literal of [create]. *)
Definition create_brand (b : option PartialBrand) : Brand :=
  {| voice := str_or (b ≫= pb_voice) (voice default_brand);
     tone := str_or (b ≫= pb_tone) (tone default_brand);
     audience := str_or (b ≫= pb_audience) (audience default_brand);
     industry := str_or (b ≫= pb_industry) (industry default_brand);
     keywords := arr_or (b ≫= pb_keywords) (keywords default_brand);
     avoidWords := arr_or (b ≫= pb_avoidWords) (avoidWords default_brand) |}.

(** The [settings] object literal of [create]. *)
Definition create_settings (st : option PartialSettings) : Settings :=
  {| defaultType := str_or (st ≫= pst_defaultType) (defaultType default_settings);
     defaultModel := st ≫= pst_defaultModel;
     autoPublish := nullish (st ≫= pst_autoPublish) (autoPublish default_settings);
     settings_platforms :=
       arr_or (st ≫= pst_platforms) (settings_platforms default_settings) |}.

(** [{ ...tenant.brand, ...updates.brand }]. *)
Definition merge_brand (old : Brand) (new : PartialBrand) : Brand :=
  {| voice := nullish (pb_voice new) (voice old);
     tone := nullish (pb_tone new) (tone old);
     audience := nullish (pb_audience new) (audience old);
     industry := nullish (pb_industry new) (industry old);
     keywords := nullish (pb_keywords new) (keywords old);
     avoidWords := nullish (pb_avoidWords new) (avoidWords old) |}.

(** [{ ...tenant.settings, ...updates.settings }]. *)
Definition merge_settings (old : Settings) (new : PartialSettings) : Settings :=
  {| defaultType := nullish (pst_defaultType new) (defaultType old);
     defaultModel := Analytics.over (pst_defaultModel new) (defaultModel old);
     autoPublish := nullish (pst_autoPublish new) (autoPublish old);
     settings_platforms := nullish (pst_platforms new) (settings_platforms old) |}.

Section WithHost.
Context (h : Host).

(** [mem.set(...)] on the store [this.memories.get(tid)]: the store reads
    the clock for [updatedAt] and writes through to its backing location. *)
Definition memory_set (tid k : string) (v : MemValue) (a : string)
    (tg : list (option string)) : M State unit :=
  let! this := get in
  match memories this !! tid with
  | Some mem =>
      let! now := now_iso h in
      let mem' := Memory_set mem k v a tg now in
      run! modify (with_memories (insert tid mem')) in
      modify (with_disk (persist mem'))
  | None => throw (TypeError "mem is undefined")
  end.

(** The identifier [`tenant_${Date.now()}_${...}`]. *)
Definition tenant_id (now : float) (suffix : string) : string :=
  "tenant_" +:+ number_to_string h now +:+ "_" +:+ suffix.

(** The object literal [tenant] of [create]. *)
Definition new_tenant (config : PartialTenantConfig) (cname tid created updated : string)
    : TenantConfig :=
  {| id := tid;
     name := cname;
     slug :=
       match pt_slug config with
       | Some s => if String.eqb s "" then slugify cname else s
       | None => slugify cname
       end;
     brand := create_brand (pt_brand config);
     platforms := arr_or (pt_platforms config) [];
     settings := create_settings (pt_settings config);
     createdAt := created;
     updatedAt := updated |}.

(** The statements of [create] that follow the literal [tenant]. *)
Definition register (tenant : TenantConfig) : M State TenantConfig :=
  run! modify (with_tenants (fun m => obj_set m (id tenant) tenant)) in
  run! initTenantResources tenant in
  run! saveTenants in
  (* Store brand in tenant memory *)
  run! memory_set (id tenant) "brand_voice" (VString (voice (brand tenant)))
         "brand-manager" [Some "brand"] in
  run! memory_set (id tenant) "brand_tone" (VString (tone (brand tenant)))
         "brand-manager" [Some "brand"] in
  run! memory_set (id tenant) "brand_audience" (VString (audience (brand tenant)))
         "brand-manager" [Some "brand"] in
  run! memory_set (id tenant) ("brand:" +:+ slug tenant) (VBrand (brand tenant))
         "brand-manager" [Some "brand"] in
  ret tenant.

(** Create a new tenant *)
Definition create (config : PartialTenantConfig) : M State TenantConfig :=
  match pt_name config with
  | Some cname =>
      let! t := tick in
      let! r := tick in
      let! created := now_iso h in
      let! updated := now_iso h in
      register
        (new_tenant config cname (tenant_id (now_ms h t) (random_suffix h r))
           created updated)
  | None => throw (OutsideSchema "create: name is a string")
  end.

(** The tenant after the first three statements of [update], as
    [initTenantResources] sees it. *)
Definition apply_updates (tenant : TenantConfig) (updates : PartialTenantConfig)
    : TenantConfig :=
  {| id := id tenant;
     name := str_or (pt_name updates) (name tenant);
     slug := slug tenant;
     brand :=
       match pt_brand updates with
       | Some b => merge_brand (brand tenant) b
       | None => brand tenant
       end;
     platforms :=
       match pt_platforms updates with
       | Some p => spread (platforms tenant) p
       | None => platforms tenant
       end;
     settings := settings tenant;
     createdAt := createdAt tenant;
     updatedAt := updatedAt tenant |}.

(** The tenant after the last two assignments of [update]. *)
Definition apply_settings (tenant : TenantConfig) (updates : PartialTenantConfig)
    (now : string) : TenantConfig :=
  {| id := id tenant; name := name tenant; slug := slug tenant;
     brand := brand tenant; platforms := platforms tenant;
     settings :=
       match pt_settings updates with
       | Some st => merge_settings (settings tenant) st
       | None => settings tenant
       end;
     createdAt := createdAt tenant;
     updatedAt := now |}.

(** Update tenant *)
Definition update (tid : string) (updates : PartialTenantConfig)
    : M State (option TenantConfig) :=
  let! this := get in
  match obj_get (tenants this) tid with
  | None => ret None
  | Some tenant =>
      let tenant1 := apply_updates tenant updates in
      (* Reinit executor with new creds *)
      run! (match pt_platforms updates with
            | Some _ => initTenantResources tenant1
            | None => ret tt
            end) in
      let! now := now_iso h in
      let tenant2 := apply_settings tenant1 updates now in
      run! modify (with_tenants (fun m => obj_set m tid tenant2)) in
      run! saveTenants in
      ret (Some tenant2)
  end.

End WithHost.

(** Delete tenant *)
Definition delete (tid : string) : M State bool :=
  let! this := get in
  let deleted := bool_decide (is_Some (obj_get (tenants this) tid)) in
  run! modify (with_tenants (fun m => obj_delete m tid)) in
  run! modify (with_memories (base.delete tid)) in
  run! modify (with_executors (base.delete tid)) in
  run! (if deleted then saveTenants else ret tt) in
  ret deleted.

(** Get tenant *)
Definition get (this : State) (tid : string) : option TenantConfig :=
  obj_get (tenants this) tid.

(** Find by slug *)
Definition getBySlug (this : State) (s : string) : option TenantConfig :=
  List.find (fun t => String.eqb (slug t) s) (values (tenants this)).

(** List all tenants *)
Definition list_ (this : State) : list TenantConfig := values (tenants this).

(** Get tenant's memory *)
Definition getMemory (this : State) (tenantId : string) : option Memory :=
  memories this !! tenantId.

(** Get tenant's executor *)
Definition getExecutor (this : State) (tenantId : string) : option Executor :=
  executors this !! tenantId.

(** Get tenant's output dir *)
Definition getOutputDir (this : State) (tenantId : string) : string :=
  path_join [dataDir this; tenantId; "output"].

(** The lines [getBrandGuidelines] writes for the tenant record itself. *)
Definition brand_section (tenant : TenantConfig) : string :=
  let g := "## Brand Writing Guidelines — " +:+ name tenant +:+ nl +:+ nl in
  let g := g +:+ "**Voice:** " +:+ voice (brand tenant) +:+ nl in
  let g := g +:+ "**Tone:** " +:+ tone (brand tenant) +:+ nl in
  let g := g +:+ "**Target Audience:** " +:+ audience (brand tenant) +:+ nl in
  let g := g +:+ "**Industry:** " +:+ industry (brand tenant) +:+ nl in
  let g :=
    if (length (keywords (brand tenant)) =? 0)%nat then g
    else g +:+ "**Include keywords:** " +:+ join ", " (keywords (brand tenant)) +:+ nl in
  let g :=
    if (length (avoidWords (brand tenant)) =? 0)%nat then g
    else g +:+ "**NEVER use:** " +:+ join ", " (avoidWords (brand tenant)) +:+ nl in
  g.

(** The line of one learning. *)
Definition learning_line (l : MemoryEntry) : string :=
  "- " +:+ key l +:+ ": " +:+ show_value (value l) +:+ nl.

(** The lines [getBrandGuidelines] adds for the given learnings. *)
Definition learned_section (shown : list MemoryEntry) : string :=
  fold_left String.append (map learning_line shown)
    (nl +:+ "**Learned preferences:**" +:+ nl).

(** Get brand guidelines for a tenant (formatted for LLM) *)
Definition getBrandGuidelines (this : State) (tenantId : string) : string :=
  match obj_get (tenants this) tenantId with
  | None => ""
  | Some tenant =>
      let g := brand_section tenant in
      (* Add learnings from memory *)
      match memories this !! tenantId with
      | Some mem =>
          let learnings := Memory_byAgent mem "brand-manager" in
          if (length learnings =? 0)%nat then g
          else g +:+ learned_section (slice_last 10 learnings)
      | None => g
      end
  end.

End Tenant.

(* ===================================================================== *)
(** * 7. Concrete hosts, stores and tasks *)
(* ===================================================================== *)

Module Demo.
Import JS Data Core.

Definition show_Z (z : Z) : string := pretty.pretty z.

(** A host whose clock advances by one millisecond per read, whose
    language model answers without JSON, and whose parser rejects every
    text. *)
Definition host : Host :=
  {| now_ms := fun n => of_Z (1700000000000 + Z.of_nat n);
     toISOString := fun x => "T+" +:+ show_Z (trunc x);
     number_to_string := fun x => show_Z (trunc x);
     string_to_number := fun _ => PrimFloat.nan;
     toFixed2 := fun x => show_Z (trunc x) +:+ ".00";
     random_suffix := fun n => "r" +:+ show_Z (Z.of_nat n);
     fresh_id := fun n => "msg_" +:+ show_Z (Z.of_nat n);
     llm_chat := fun _ _ => "I could not find any rule.";
     JSON_parse := fun _ => None;
     JSON_stringify := fun _ => "{}" |}.

(** A host whose language model answers with braces the parser rejects. *)
Definition host_braces : Host :=
  {| now_ms := now_ms host; toISOString := toISOString host;
     number_to_string := number_to_string host;
     string_to_number := string_to_number host;
     toFixed2 := toFixed2 host; random_suffix := random_suffix host;
     fresh_id := fresh_id host;
     llm_chat := fun _ _ => "Here you go: {voice: formal}";
     JSON_parse := fun _ => None;
     JSON_stringify := JSON_stringify host |}.

Definition task_message (mid action : string) (input : TaskInput) : Message :=
  {| msg_from := "orchestrator"; msg_to := "agent"; msg_kind := task;
     msg_payload := TaskPayload action input; msg_id := mid;
     msg_correlationId := None |}.

Definition empty_memory : Memory := {| mem_dir := "data/memory"; mem_entries := [] |}.

Definition analytics0 : Analytics.State :=
  {| Analytics.memory := empty_memory; Analytics.reads := 0 |}.

Definition brand0 : BrandManager.State :=
  {| BrandManager.memory := empty_memory;
     BrandManager.default_learnings := [];
     BrandManager.reads := 0 |}.

Definition tenants0 : Tenant.State :=
  {| Tenant.tenants := []; Tenant.dataDir := "data";
     Tenant.memories := ∅; Tenant.executors := ∅;
     Tenant.manifest := None; Tenant.disk := ∅;
     Tenant.directories := ∅; Tenant.reads := 0 |}.

Definition track_input (contentId platform : string) (v : float) : TaskInput :=
  {| in_contentId := Some contentId; in_platform := Some platform;
     in_metrics :=
       Some {| mi_views := Some v; mi_likes := None; mi_shares := None;
               mi_comments := None; mi_clicks := None;
               mi_impressions := None; mi_engagement := None |};
     in_title := None; in_topic := None; in_tags := None; in_days := None;
     in_limit := None; in_metric := None; in_brandName := None;
     in_name := None; in_voice := None; in_tone := None;
     in_audience := None; in_industry := None; in_keywords := None;
     in_avoidWords := None; in_examples := None; in_socialStyle := None;
     in_learnings := None; in_feedback := None; in_contentType := None;
     in_rating := None; in_sample := None |}.

Definition top_input (limit : option float) (metric : option string) : TaskInput :=
  {| in_contentId := None; in_platform := None; in_metrics := None;
     in_title := None; in_topic := None; in_tags := None; in_days := None;
     in_limit := limit; in_metric := metric; in_brandName := None;
     in_name := None; in_voice := None; in_tone := None;
     in_audience := None; in_industry := None; in_keywords := None;
     in_avoidWords := None; in_examples := None; in_socialStyle := None;
     in_learnings := None; in_feedback := None; in_contentType := None;
     in_rating := None; in_sample := None |}.

Definition learnings_input (l : list string) : TaskInput :=
  {| in_contentId := None; in_platform := None; in_metrics := None;
     in_title := None; in_topic := None; in_tags := None; in_days := None;
     in_limit := None; in_metric := None; in_brandName := None;
     in_name := None; in_voice := None; in_tone := None;
     in_audience := None; in_industry := None; in_keywords := None;
     in_avoidWords := None; in_examples := None; in_socialStyle := None;
     in_learnings := Some l; in_feedback := None; in_contentType := None;
     in_rating := None; in_sample := None |}.

Definition feedback_input (f : string) : TaskInput :=
  {| in_contentId := None; in_platform := None; in_metrics := None;
     in_title := None; in_topic := None; in_tags := None; in_days := None;
     in_limit := None; in_metric := None; in_brandName := None;
     in_name := None; in_voice := None; in_tone := None;
     in_audience := None; in_industry := None; in_keywords := None;
     in_avoidWords := None; in_examples := None; in_socialStyle := None;
     in_learnings := None; in_feedback := Some f; in_contentType := None;
     in_rating := None; in_sample := None |}.

Definition sample_input (s : string) : TaskInput :=
  {| in_contentId := None; in_platform := None; in_metrics := None;
     in_title := None; in_topic := None; in_tags := None; in_days := None;
     in_limit := None; in_metric := None; in_brandName := None;
     in_name := None; in_voice := None; in_tone := None;
     in_audience := None; in_industry := None; in_keywords := None;
     in_avoidWords := None; in_examples := None; in_socialStyle := None;
     in_learnings := None; in_feedback := None; in_contentType := None;
     in_rating := None; in_sample := Some s |}.

(** [{ name: n }] and nothing else. *)
Definition named (n : string) : PartialTenantConfig :=
  {| pt_id := None; pt_name := Some n; pt_slug := None; pt_brand := None;
     pt_platforms := None; pt_settings := None; pt_createdAt := None;
     pt_updatedAt := None |}.

(** [{ name: n, platforms: p }]. *)
Definition with_platforms (n : string) (p : Platforms) : PartialTenantConfig :=
  {| pt_id := None; pt_name := Some n; pt_slug := None; pt_brand := None;
     pt_platforms := Some p; pt_settings := None; pt_createdAt := None;
     pt_updatedAt := None |}.

(** A configuration whose brand is complete and has an empty voice. *)
Definition empty_voice : PartialTenantConfig :=
  {| pt_id := None; pt_name := Some "Acme"; pt_slug := None;
     pt_brand :=
       Some {| pb_voice := Some ""; pb_tone := Some "dry";
               pb_audience := Some "engineers"; pb_industry := Some "tools";
               pb_keywords := Some []; pb_avoidWords := Some [] |};
     pt_platforms := None; pt_settings := None; pt_createdAt := None;
     pt_updatedAt := None |}.


(** A registry holding one tenant, [t1], with credentials for two
    platforms that use the same key. *)
Definition tenant1 : TenantConfig :=
  {| id := "t1"; name := "Acme"; slug := "acme";
     brand := Tenant.default_brand;
     platforms := [("wordpress", [("apiKey", "wp-old"); ("url", "https://acme.example")]);
                   ("twitter", [("apiKey", "tw-key")])];
     settings := Tenant.default_settings;
     createdAt := "T+0"; updatedAt := "T+0" |}.

Definition registry1 : Tenant.State :=
  {| Tenant.tenants := [("t1", tenant1)]; Tenant.dataDir := "data";
     Tenant.memories := {[ "t1" := Memory_init ∅ "data/t1/memory" ]};
     Tenant.executors := {[ "t1" := Tenant.executor_of (platforms tenant1) ]};
     Tenant.manifest := Some [tenant1]; Tenant.disk := ∅;
     Tenant.directories := ∅; Tenant.reads := 0 |}.

(** The registry of [t1] with the store [learned_store]. *)
Definition registry_learned (m : Memory) : Tenant.State :=
  {| Tenant.tenants := [("t1", tenant1)]; Tenant.dataDir := "data";
     Tenant.memories := {[ "t1" := m ]};
     Tenant.executors := {[ "t1" := Tenant.executor_of (platforms tenant1) ]};
     Tenant.manifest := Some [tenant1]; Tenant.disk := ∅;
     Tenant.directories := ∅; Tenant.reads := 0 |}.

(** A manager that has not loaded the manifest naming [t1]. *)
Definition unloaded1 : Tenant.State :=
  {| Tenant.tenants := []; Tenant.dataDir := "data";
     Tenant.memories := ∅; Tenant.executors := ∅;
     Tenant.manifest := Some [tenant1]; Tenant.disk := ∅;
     Tenant.directories := ∅; Tenant.reads := 0 |}.

(** Three [track] tasks on one content, two of them for one platform. *)
Definition three_tracks : list Message :=
  [ task_message "m1" "track" (track_input "post1" "twitter" 10);
    task_message "m2" "track" (track_input "post1" "twitter" 25);
    task_message "m3" "track" (track_input "post1" "linkedin" 7) ].

(** The analytics agent after one [track] task. *)
Definition tracked_once : Analytics.State :=
  Eval vm_compute in
    match Analytics.handle host
            (task_message "m1" "track" (track_input "post1" "twitter" 10))
            analytics0 with
    | Ok (_, s) => s
    | Throw _ _ => analytics0
    end.

(** [track] tasks on three contents. *)
Definition three_contents : list Message :=
  [ task_message "m1" "track" (track_input "post1" "twitter" 10);
    task_message "m2" "track" (track_input "post2" "twitter" 30);
    task_message "m3" "track" (track_input "post3" "linkedin" 20) ].

(** The analytics agent after these three tasks. *)
Definition tracked_three : Analytics.State :=
  Eval vm_compute in
    match mapM (Analytics.handle host) three_contents analytics0 with
    | Ok (_, s) => s
    | Throw _ _ => analytics0
    end.

(** A store of the brand-manager after eleven writes under eleven keys,
    at the times 1 to 11 of the clock, and a twelfth write under the first
    key. *)
Definition learned_store : Memory :=
  Eval vm_compute in
    let write m (kv : nat * (string * string)) :=
      Memory_set m kv.2.1 (VString kv.2.2) "brand-manager" [Some "learning"]
        (toISOString host (now_ms host kv.1)) in
    fold_left write
      [ (1, ("pref01", "short sentences")); (2, ("pref02", "no jargon"));
        (3, ("pref03", "cite sources")); (4, ("pref04", "active voice"));
        (5, ("pref05", "one idea per paragraph")); (6, ("pref06", "use examples"));
        (7, ("pref07", "avoid cliches")); (8, ("pref08", "plain headings"));
        (9, ("pref09", "metric units")); (10, ("pref10", "no exclamation marks"));
        (11, ("pref11", "British spelling"));
        (12, ("pref01", "very short sentences")) ]
      (Memory_init ∅ "data/t1/memory").

(** Twenty-one learnings. *)
Definition twenty_one : list string :=
  (fun n => "rule " +:+ pretty.pretty n) <$> seq 1 21.

End Demo.

(* ===================================================================== *)
(** * 8. Vocabulary of the properties *)
(* ===================================================================== *)

Module Spec.
Import JS Data Core.

(** The names of the capabilities an agent declares. *)
Definition recognized (info : AgentInfo) : list string :=
  cap_name <$> capabilities info.

(** A [track] task whose input has the two strings its capability
    requires. *)
Definition track_task (message : Message) : Prop :=
  exists input contentId platform,
    msg_payload message = TaskPayload "track" input /\
    in_contentId input = Some contentId /\
    in_platform input = Some platform.

(** Every entry filed under a key [metrics:...] holds content metrics. *)
Definition metrics_typed (m : Memory) : Prop :=
  Forall (fun e => startsWith (key e) "metrics:" = true ->
                   is_Some (Analytics.as_metrics (value e)))
         (mem_entries m).

(** Every content metrics of the store lists each platform once. *)
Definition platforms_distinct (m : Memory) : Prop :=
  Forall (fun e => forall cm, value e = VMetrics cm -> NoDup (cm_platforms cm))
         (mem_entries m).

(** The content metrics [track] files for [platform] at time [now], given
    the ones it found. *)
Definition tracked (cm0 : ContentMetrics) (p : option string)
    (mi : option MetricsInput) (now : string) : ContentMetrics :=
  {| cm_id := cm_id cm0; cm_title := cm_title cm0; cm_topic := cm_topic cm0;
     cm_createdAt := cm_createdAt cm0;
     cm_platforms := Analytics.add_platform (cm_platforms cm0) p;
     cm_metrics :=
       obj_set (cm_metrics cm0) (show_str p)
         (Analytics.with_engagement
            (Analytics.merge_stats (obj_get (cm_metrics cm0) (show_str p)) mi now));
     cm_tags := cm_tags cm0 |}.

(** The store lists platform [q] for the content [cid]. *)
Definition listed (m : Memory) (cid q : string) : Prop :=
  exists cm, Memory_get m ("metrics:" +:+ cid) = Some (VMetrics cm)
             /\ Some q ∈ cm_platforms cm.


(** A count as a sum reads it: an absent count, a zero and NaN are 0. *)
Definition counted (x : option float) : float :=
  match x with
  | Some v => if PrimFloat.is_nan v || PrimFloat.eqb v 0 then 0%float else v
  | None => 0%float
  end.










(** The state [initTenantResources] leaves. *)
Definition provisioned (tenant : TenantConfig) (s : Tenant.State) : Tenant.State :=
  let memDir := Tenant.path_join [Tenant.dataDir s; id tenant; "memory"] in
  Tenant.with_directory (Tenant.path_join [Tenant.dataDir s; id tenant; "output"])
    (Tenant.with_executors (insert (id tenant) (Tenant.executor_of (platforms tenant)))
       (Tenant.with_memories (insert (id tenant) (Memory_init (Tenant.disk s) memDir))
          (Tenant.with_disk (fun d => Disk_init d memDir) s))).

(** Every character outside [[a-z0-9]] replaced by the separator. *)
Fixpoint dashed (s : string) : string :=
  match s with
  | EmptyString => EmptyString
  | String c r => String (if slug_char c then c else dash) (dashed r)
  end.

Definition starts_with_dash (s : string) : bool :=
  match s with
  | String c _ => Ascii.eqb c dash
  | EmptyString => false
  end.

(** A run of separators reduced to its last one. *)
Fixpoint squeeze (s : string) : string :=
  match s with
  | EmptyString => EmptyString
  | String c r =>
      if Ascii.eqb c dash && starts_with_dash r then squeeze r
      else String c (squeeze r)
  end.

(** The slug in the words of the specification: the name lower-cased,
    its non-alphanumeric runs replaced by a single separator. *)
Definition slug_spec (n : string) : string := squeeze (dashed (toLowerCase n)).

(** [actual] is the supplied string when one is supplied and is not
    empty, and the default otherwise. *)
Definition merged_string (supplied : option string) (default actual : string) : Prop :=
  (forall v, supplied = Some v -> v <> "" -> actual = v) /\
  (supplied = None \/ supplied = Some "" -> actual = default).

(** [actual] is the supplied value when one is supplied, and the default
    otherwise. *)
Definition merged {A} (supplied : option A) (default actual : A) : Prop :=
  (forall v, supplied = Some v -> actual = v) /\
  (supplied = None -> actual = default).

(** The entries of a tenant's store attributed to the brand-manager. *)
Definition learnings_of (this : Tenant.State) (tid : string) : list MemoryEntry :=
  match Tenant.getMemory this tid with
  | Some mem => Memory_byAgent mem "brand-manager"
  | None => []
  end.

(** The executor after [setCredential] for each pair of [l], in order. *)
Definition replay (l : list (string * string)) (e : Executor) : Executor :=
  fold_left (fun exec kv => setCredential exec kv.1 kv.2) l e.


(** The executor has been passed the credential [v] under the key [k]. *)
Definition holds (e : Executor) (k v : string) : Prop := (k, v) ∈ credentials e.

(** Some platform of [p] has the credential [v] under the key [k]. *)
Definition credential_of (p : Platforms) (k v : string) : Prop :=
  exists platform creds, (platform, creds) ∈ p /\ (k, v) ∈ creds.

(** A stored value as a line of the guidelines shows it: a string as it
    is, any other value as the text every object is converted to. *)
Definition rendered (v : MemValue) : string :=
  match v with
  | VString t => t
  | _ => "[object Object]"
  end.

Fixpoint comma_separated (l : list string) : string :=
  match l with
  | [] => ""
  | [x] => x
  | x :: r => x +:+ ", " +:+ comma_separated r
  end.

(** The lines of the guideline document of a tenant that shows the
    entries [shown]: the heading and a blank line, the four brand fields,
    the keywords and the words to avoid when there are any, and, when
    entries are shown, a blank line, a heading and one line per entry. *)
Definition guideline_lines (t : TenantConfig) (shown : list MemoryEntry) : list string :=
  [ "## Brand Writing Guidelines — " +:+ name t;
    "";
    "**Voice:** " +:+ voice (brand t);
    "**Tone:** " +:+ tone (brand t);
    "**Target Audience:** " +:+ audience (brand t);
    "**Industry:** " +:+ industry (brand t) ]
  ++ match keywords (brand t) with
     | [] => []
     | kw => ["**Include keywords:** " +:+ comma_separated kw]
     end
  ++ match avoidWords (brand t) with
     | [] => []
     | aw => ["**NEVER use:** " +:+ comma_separated aw]
     end
  ++ match shown with
     | [] => []
     | _ =>
         "" :: "**Learned preferences:**"
         :: map (fun e => "- " +:+ key e +:+ ": " +:+ rendered (value e)) shown
     end.

(** The text of the lines [l], each ended by a line feed. *)
Fixpoint text_of (l : list string) : string :=
  match l with
  | [] => ""
  | x :: r => x +:+ nl +:+ text_of r
  end.

(** The last [n] elements of [l], or all of them. *)
Definition last_n {A} (n : nat) (l : list A) : list A :=
  drop (length l - n) l.

(** Every tenant is registered under its own [id]. *)
Definition keyed (s : Tenant.State) : Prop :=
  forall tid t, obj_get (Tenant.tenants s) tid = Some t -> id t = tid.

(** The answer of the language model contains no parseable JSON object:
    nothing matches the braces pattern, or [JSON.parse] throws on the
    match. *)
Definition unparsable (h : Host) (response : string) : Prop :=
  match_braces response = None \/
  exists text, match_braces response = Some text /\ JSON_parse h text = None.

End Spec.

(** ** Further vocabulary: what a run reads and what it leaves behind *)

Module Terms.
Import JS Data Core Spec.

(** *** analytics *)

(** Field [f] of the record [new] that [track] writes: the value the task
    supplies under [g], or else the one of the record [old] it replaces. *)
Definition field_merged (f : PlatformStats -> option float)
    (g : MetricsInput -> option float)
    (old : option PlatformStats) (mi : option MetricsInput) (new : PlatformStats) : Prop :=
  f new = match mi ≫= g with
          | Some q => Some q
          | None => old ≫= f
          end.

(** The value of [existing] in [track]: the content metrics stored under
    the key, or the literal built from the task when the key is absent or
    holds the empty string; any other stored value makes [track] throw. *)
Definition found_or_new (h : Host) (s : Analytics.State) (input : TaskInput)
    (contentId : string) : option ContentMetrics :=
  match Memory_get (Analytics.memory s) ("metrics:" +:+ contentId) with
  | Some (VMetrics cm) => Some cm
  | Some (VString "") | None =>
      Some {| cm_id := Some contentId;
              cm_title := Some (str_or (in_title input) contentId);
              cm_topic := str_or (in_topic input) "";
              cm_createdAt := toISOString h (now_ms h (Analytics.reads s));
              cm_platforms := []; cm_metrics := [];
              cm_tags := arr_or (in_tags input) [] |}
  | Some _ => None
  end.

(** The record of [platform] in the content metrics stored for
    [contentId]. *)
Definition stats_of (m : Memory) (contentId platform : string) : option PlatformStats :=
  match Memory_get m ("metrics:" +:+ contentId) with
  | Some (VMetrics cm) => obj_get (cm_metrics cm) platform
  | _ => None
  end.

(** A stored value that is no content metrics and is not the empty
    string. *)
Definition foreign (v : MemValue) : Prop :=
  match v with
  | VMetrics _ => False
  | VString t => t <> ""
  | _ => True
  end.

(** Under the key of [contentId] the store holds content metrics, or
    nothing. *)
Definition trackable (m : Memory) (contentId : string) : Prop :=
  Memory_get m ("metrics:" +:+ contentId) = None \/
  exists cm, Memory_get m ("metrics:" +:+ contentId) = Some (VMetrics cm).

(** The engagement rate of a record whose views are [v]: likes, comments
    and shares, added in this order, over the views, in percent. *)
Definition engagement_rate (st : PlatformStats) (v : float) : float :=
  ((counted (likes st) + counted (comments st) + counted (shares st)) / v * 100)%float.

(** The record of [platform] after a [track] task carrying [mi] at the
    time [now], [old] being the record it replaces: every field is the one
    the task supplies, or else the one of [old]; the engagement is the
    rate of the new counts when the views are positive. *)
Definition record_updated (old : option PlatformStats) (mi : option MetricsInput)
    (now : string) (new : PlatformStats) : Prop :=
  stats_updatedAt new = now /\
  field_merged views mi_views old mi new /\
  field_merged likes mi_likes old mi new /\
  field_merged shares mi_shares old mi new /\
  field_merged comments mi_comments old mi new /\
  field_merged clicks mi_clicks old mi new /\
  field_merged impressions mi_impressions old mi new /\
  (forall v, views new = Some v -> PrimFloat.ltb 0 v = true ->
     engagement new = Some (engagement_rate new v)) /\
  (views new = None \/ (exists v, views new = Some v /\ PrimFloat.ltb 0 v = false) ->
     field_merged engagement mi_engagement old mi new).

(** A number that counts something: 0, a positive number or infinity. *)
Definition is_count (x : float) : bool :=
  match Prim2SF x with
  | S754_zero false | S754_infinity false | S754_finite false _ _ => true
  | _ => false
  end.

(** The place of a count on the number line, in units of 2^-1074;
    infinity is above every finite count. *)
Definition count_rank (x : float) : Z :=
  match Prim2SF x with
  | S754_finite false m e => Zpos m * 2 ^ (e + 1074)
  | S754_infinity false => 2 ^ 2100
  | _ => 0
  end.

(** The views of platform [p] over the records [l], added up from 0 in
    the order of the records. *)
Definition views_total (p : string) (l : list (string * PlatformStats)) : float :=
  fold_left (fun total ps => (total + counted (views ps.2))%float)
    (List.filter (fun ps : string * PlatformStats => String.eqb ps.1 p) l)
    0%float.

(** One step of the loop of [getTopPlatform]. *)
Definition add_views (acc : list (string * float)) (ps : string * PlatformStats)
    : list (string * float) :=
  obj_set acc ps.1 ((num_or (obj_get acc ps.1) 0 + num_or (views ps.2) 0)%float).

(** The days a [report] task covers: those it names, 30 when it names
    none, 0 or NaN. *)
Definition period_days (input : TaskInput) : float :=
  match in_days input with
  | Some d => if PrimFloat.is_nan d || PrimFloat.eqb d 0 then 30%float else d
  | None => 30%float
  end.

(** The time value [v] is one a [Date] can hold. *)
Definition is_time (v : float) : Prop :=
  PrimFloat.leb (-8.64e15) v = true /\ PrimFloat.leb v 8.64e15 = true.

(** No content metrics of the store has a record for platform [p]. *)
Definition untracked (m : Memory) (p : string) : Prop :=
  Forall (fun e => forall cm, value e = VMetrics cm -> obj_get (cm_metrics cm) p = None)
         (mem_entries m).

(** *** brand-manager *)

(** The brand a [set-brand] task names. *)
Definition brand_of (input : TaskInput) : string :=
  str_or (in_name input) (str_or (in_brandName input) "default").

(** The line [learnFromFeedback] pushes on the learnings. *)
Definition learned_line (h : Host) (applies_to learned : option JSON) : string :=
  "[" +:+ BrandManager.show_json_opt h applies_to +:+ "] "
  +:+ BrandManager.show_json_opt h learned.

(** *** tenant *)

(** The store of a new tenant after the four writes of [create], the
    clock being read at [n], [n+1], [n+2] and [n+3]. *)
Definition seeded (h : Host) (t : TenantConfig) (n : nat) (mem : Memory) : Memory :=
  let set k v i m :=
    Memory_set m k v "brand-manager" [Some "brand"]
      (toISOString h (now_ms h (n + i))) in
  set ("brand:" +:+ slug t) (VBrand (brand t)) 3
    (set "brand_audience" (VString (audience (brand t))) 2
       (set "brand_tone" (VString (tone (brand t))) 1
          (set "brand_voice" (VString (voice (brand t))) 0 mem))).

(** The tenant [create] builds in state [s]. *)
Definition created (h : Host) (config : PartialTenantConfig) (cname : string)
    (s : Tenant.State) : TenantConfig :=
  Tenant.new_tenant config cname
    (Tenant.tenant_id h (now_ms h (Tenant.reads s))
       (random_suffix h (S (Tenant.reads s))))
    (toISOString h (now_ms h (Tenant.reads s + 2)))
    (toISOString h (now_ms h (Tenant.reads s + 3))).

(** The manager after the loop of [loadTenants] over [ts]. *)
Definition loaded (ts : list TenantConfig) (s : Tenant.State) : Tenant.State :=
  fold_left
    (fun s t => provisioned t (Tenant.with_tenants (fun m => obj_set m (id t) t) s))
    ts s.

(** The registry holds each tenant once, under its own [id]. *)
Definition registry_ok (s : Tenant.State) : Prop :=
  NoDup (Tenant.tenants s).*1 /\ keyed s.

End Terms.

(** ** Further tasks and stores *)

Module Samples.
Import JS Data Core.

(** The input of a [report] task. *)
Definition report_input (platform : option string) (days : option float) : TaskInput :=
  {| in_contentId := None; in_platform := platform; in_metrics := None;
     in_title := None; in_topic := None; in_tags := None; in_days := days;
     in_limit := None; in_metric := None; in_brandName := None;
     in_name := None; in_voice := None; in_tone := None;
     in_audience := None; in_industry := None; in_keywords := None;
     in_avoidWords := None; in_examples := None; in_socialStyle := None;
     in_learnings := None; in_feedback := None; in_contentType := None;
     in_rating := None; in_sample := None |}.

(** The input of a [get-brand-context] task. *)
Definition brand_input (brandName : string) : TaskInput :=
  {| in_contentId := None; in_platform := None; in_metrics := None;
     in_title := None; in_topic := None; in_tags := None; in_days := None;
     in_limit := None; in_metric := None; in_brandName := Some brandName;
     in_name := None; in_voice := None; in_tone := None;
     in_audience := None; in_industry := None; in_keywords := None;
     in_avoidWords := None; in_examples := None; in_socialStyle := None;
     in_learnings := None; in_feedback := None; in_contentType := None;
     in_rating := None; in_sample := None |}.

(** The input of a [set-brand] task that names keywords and learnings. *)
Definition keywords_input (kw learnings : list string) : TaskInput :=
  {| in_contentId := None; in_platform := None; in_metrics := None;
     in_title := None; in_topic := None; in_tags := None; in_days := None;
     in_limit := None; in_metric := None; in_brandName := None;
     in_name := None; in_voice := None; in_tone := None;
     in_audience := None; in_industry := None; in_keywords := Some kw;
     in_avoidWords := None; in_examples := None; in_socialStyle := None;
     in_learnings := Some learnings; in_feedback := None; in_contentType := None;
     in_rating := None; in_sample := None |}.

(** An analytics agent whose store holds a string under the key of
    [post1]. *)
Definition foreign_store : Analytics.State :=
  {| Analytics.memory :=
       {| mem_dir := "data/memory";
          mem_entries :=
            [ {| key := "metrics:post1"; value := VString "n/a";
                 agent := "importer"; tags := []; entry_updatedAt := "T+0" |} ] |};
     Analytics.reads := 0 |}.

End Samples.

(* ===================================================================== *)
(** * 9. Properties *)
(* ===================================================================== *)

(** ** Numbers *)

(** Facts on doubles, from the specification of their operations
    ([SpecFloat]): comparison goes by the aligned mantissas, and a
    difference or a sum rounds to a number of the sign of its exact
    value. *)

Module FloatFacts.

Local Open Scope Z_scope.

Lemma digits2_bounds (m : positive) :
  2 ^ (Zpos (digits2_pos m) - 1) <= Zpos m < 2 ^ Zpos (digits2_pos m).
Proof.
  induction m as [m IH|m IH|]; cbn [digits2_pos].
  - rewrite Pos2Z.inj_succ.
    replace (Z.succ (Zpos (digits2_pos m)) - 1) with (Z.succ (Zpos (digits2_pos m) - 1)) by lia.
    rewrite !Z.pow_succ_r by lia. lia.
  - rewrite Pos2Z.inj_succ.
    replace (Z.succ (Zpos (digits2_pos m)) - 1) with (Z.succ (Zpos (digits2_pos m) - 1)) by lia.
    rewrite !Z.pow_succ_r by lia. lia.
  - cbn. lia.
Qed.

Lemma iter_xO (d m : positive) : Zpos (Pos.iter xO m d) = Zpos m * 2 ^ Zpos d.
Proof.
  induction d as [|d IH] using Pos.peano_ind.
  - cbn. lia.
  - rewrite Pos.iter_succ, Pos2Z.inj_xO, IH, Pos2Z.inj_succ, Z.pow_succ_r by lia. lia.
Qed.

Lemma shl_align_value (m : positive) (e e' : Z) :
  e' <= e ->
  Zpos (shl_align m e e').1 = Zpos m * 2 ^ (e - e') /\ (shl_align m e e').2 = e'.
Proof.
  intros Hle. unfold shl_align.
  destruct (e' - e) as [|d|d] eqn:Hd.
  - assert (e' = e) as -> by lia. rewrite Z.sub_diag. cbn. lia.
  - lia.
  - cbn [fst snd]. rewrite iter_xO. split; [|reflexivity].
    f_equal. f_equal. lia.
Qed.

Lemma shr_1_value (mrs : shr_record) :
  0 <= shr_m mrs -> shr_m (shr_1 mrs) = shr_m mrs / 2.
Proof.
  destruct mrs as [m r s]. cbn. intros Hm.
  destruct m as [|[p|p|]|p]; cbn [shr_m]; try lia.
  - reflexivity.
  - apply (Z.div_unique _ 2 _ 1); lia.
  - apply (Z.div_unique _ 2 _ 0); lia.
  - reflexivity.
Qed.

Lemma iter_shr_1 (p : positive) : forall mrs,
  0 <= shr_m mrs ->
  0 <= shr_m (SpecFloat.iter_pos shr_1 p mrs) /\
  shr_m (SpecFloat.iter_pos shr_1 p mrs) = shr_m mrs / 2 ^ Zpos p.
Proof.
  induction p as [p IH|p IH|]; intros mrs Hm; cbn [SpecFloat.iter_pos].
  - assert (0 <= shr_m (shr_1 mrs)) as H1
      by (rewrite shr_1_value by done; apply Z.div_pos; lia).
    destruct (IH _ H1) as [H2 E2]. destruct (IH _ H2) as [H3 E3].
    split; [exact H3|].
    rewrite E3, E2, shr_1_value by done.
    rewrite !Z.div_div by (try apply Z.pow_pos_nonneg; lia).
    f_equal. replace (Zpos p~1) with (1 + Zpos p + Zpos p) by lia.
    rewrite !Z.pow_add_r, Z.pow_1_r by lia. lia.
  - destruct (IH _ Hm) as [H2 E2]. destruct (IH _ H2) as [H3 E3].
    split; [exact H3|].
    rewrite E3, E2.
    rewrite !Z.div_div by (try apply Z.pow_pos_nonneg; lia).
    f_equal. replace (Zpos p~0) with (Zpos p + Zpos p) by lia.
    rewrite !Z.pow_add_r by lia. lia.
  - rewrite shr_1_value by done. split; [apply Z.div_pos; lia|reflexivity].
Qed.

Lemma shr_fexp_pos (m e : Z) (l : location) :
  0 < m -> emin <= e ->
  0 < shr_m (shr_fexp prec emax m e l).1 /\ emin <= (shr_fexp prec emax m e l).2.
Proof.
  intros Hm He. unfold shr_fexp, shr.
  assert (shr_m (shr_record_of_loc m l) = m) as Hrec by (by destruct l as [|[]]).
  destruct m as [|p|p]; [lia| |lia]. cbn [Zdigits2].
  pose proof (digits2_bounds p) as [Hlo _].
  set (d := Zpos (digits2_pos p)) in *.
  destruct (fexp prec emax (d + e) - e) as [|q|q] eqn:Hq; cbn [fst snd];
    [rewrite Hrec; lia| |rewrite Hrec; lia].
  assert (Zpos q = d - 53) as Hq'.
  { revert Hq. unfold fexp, SpecFloat.emin, prec, emax in *. lia. }
  destruct (iter_shr_1 q (shr_record_of_loc (Zpos p) l)) as [_ ->]; [rewrite Hrec; lia|].
  rewrite Hrec. split; [|lia].
  apply Z.div_str_pos. split; [apply Z.pow_pos_nonneg; lia|].
  etrans; [|exact Hlo]. apply Z.pow_le_mono_r; lia.
Qed.

Lemma round_nearest_even_ge (m : Z) (l : location) : m <= round_nearest_even m l.
Proof. destruct l as [|[]]; cbn; try destruct (Z.even m); lia. Qed.

(** A positive mantissa at an exponent that is not below [emin] rounds
    to a positive number: there is no underflow to zero. *)
Lemma binary_round_aux_pos (m e : Z) (l : location) :
  0 < m -> emin <= e ->
  SFltb (S754_zero false) (binary_round_aux prec emax false m e l) = true.
Proof.
  intros Hm He. unfold binary_round_aux.
  pose proof (shr_fexp_pos m e l Hm He) as [H1 H1'].
  destruct (shr_fexp prec emax m e l) as [mrs' e']. cbn [fst snd] in *.
  pose proof (round_nearest_even_ge (shr_m mrs') (loc_of_shr_record mrs')) as Hge.
  pose proof (shr_fexp_pos (round_nearest_even (shr_m mrs') (loc_of_shr_record mrs'))
                e' loc_Exact ltac:(lia) H1') as [H2 _].
  destruct (shr_fexp prec emax _ e' loc_Exact) as [mrs'' e'']. cbn [fst snd] in *.
  destruct (shr_m mrs''); [lia| |lia].
  by destruct (_ <=? _).
Qed.

Lemma binary_round_aux_neg (m e : Z) (l : location) :
  SFltb (S754_zero false) (binary_round_aux prec emax true m e l) = false.
Proof.
  unfold binary_round_aux.
  destruct (shr_fexp prec emax m e l) as [mrs' e'].
  destruct (shr_fexp prec emax _ e' loc_Exact) as [mrs'' e''].
  destruct (shr_m mrs''); [done| |done]. by destruct (_ <=? _).
Qed.

(** The sign of the rounded sum of two aligned mantissas is the sign of
    the sum. *)
Lemma binary_normalize_sign (D e : Z) :
  emin <= e ->
  SFltb (S754_zero false) (binary_normalize prec emax D e false) = (0 <? D).
Proof.
  intros He. destruct D as [|p|p]; cbn [binary_normalize]; [done| |].
  - unfold binary_round.
    destruct (shl_align p e (fexp prec emax (Zpos (digits2_pos p) + e))) as [mz ez] eqn:Hs.
    rewrite binary_round_aux_pos; [done|lia|].
    revert Hs. unfold shl_align.
    destruct (fexp prec emax (Zpos (digits2_pos p) + e) - e) eqn:Hd; intros [= <- <-];
      try lia.
    unfold fexp, SpecFloat.emin, prec, emax in *. lia.
  - unfold binary_round.
    destruct (shl_align p e _) as [mz ez]. by rewrite binary_round_aux_neg.
Qed.

Lemma bounded_inv (m : positive) (e : Z) :
  bounded prec emax m e = true ->
  emin <= e /\ Zpos (digits2_pos m) <= 53 /\ (emin < e -> Zpos (digits2_pos m) = 53).
Proof.
  unfold bounded, canonical_mantissa, fexp, SpecFloat.emin, prec, emax.
  intros H. apply andb_prop in H as [H _]. apply Z.eqb_eq in H. lia.
Qed.

Lemma aligned_lt (mx my : positive) (ex ey : Z) :
  bounded prec emax mx ex = true -> bounded prec emax my ey = true ->
  ex < ey -> Zpos mx < Zpos my * 2 ^ (ey - ex).
Proof.
  intros Hx Hy Hlt.
  apply bounded_inv in Hx as (Hex & Hdx & _).
  apply bounded_inv in Hy as (Hey & _ & Hdy).
  pose proof (digits2_bounds mx) as [_ Hux].
  pose proof (digits2_bounds my) as [Hly _].
  rewrite Hdy in Hly by lia.
  assert (2 ^ Zpos (digits2_pos mx) <= 2 ^ 53) as Hp by (apply Z.pow_le_mono_r; lia).
  assert (2 ^ 1 <= 2 ^ (ey - ex)) as Hk by (apply Z.pow_le_mono_r; lia).
  change (2 ^ 53) with 9007199254740992 in Hp.
  change (2 ^ (53 - 1)) with 4503599627370496 in Hly.
  change (2 ^ 1) with 2 in Hk.
  nia.
Qed.

Lemma shl_align_same (m : positive) (e : Z) : shl_align m e e = (m, e).
Proof. unfold shl_align. by rewrite Z.sub_diag. Qed.

(** Comparing two finite doubles is comparing their mantissas once they
    are aligned on the smaller exponent. *)
Lemma compare_aligned (sx sy : bool) (mx my : positive) (ex ey : Z) :
  bounded prec emax mx ex = true -> bounded prec emax my ey = true ->
  SFcompare (S754_finite sx mx ex) (S754_finite sy my ey)
  = Some (Z.compare (cond_Zopp sx (Zpos (shl_align mx ex (Z.min ex ey)).1))
                    (cond_Zopp sy (Zpos (shl_align my ey (Z.min ex ey)).1))).
Proof.
  intros Hx Hy.
  assert (Z.compare (Zpos (shl_align mx ex (Z.min ex ey)).1)
                    (Zpos (shl_align my ey (Z.min ex ey)).1)
          = match Z.compare ex ey with
            | Lt => Lt | Gt => Gt | Eq => Pos.compare_cont Eq mx my
            end) as Hpos.
  { destruct (Z.compare_spec ex ey) as [->|Hlt|Hgt].
    - rewrite Z.min_id, !shl_align_same. reflexivity.
    - rewrite Z.min_l by lia. rewrite shl_align_same. cbn [fst].
      destruct (shl_align_value my ey ex ltac:(lia)) as [-> _].
      apply Z.compare_lt_iff. by apply aligned_lt.
    - rewrite Z.min_r by lia. rewrite shl_align_same. cbn [fst].
      destruct (shl_align_value mx ex ey ltac:(lia)) as [-> _].
      apply Z.compare_gt_iff. by apply aligned_lt. }
  set (a := Zpos (shl_align mx ex (Z.min ex ey)).1) in *.
  set (b := Zpos (shl_align my ey (Z.min ex ey)).1) in *.
  destruct sx, sy; cbn [SFcompare cond_Zopp].
  - rewrite Z.compare_opp, (Z.compare_antisym a b), Hpos.
    by destruct (ex ?= ey).
  - reflexivity.
  - reflexivity.
  - by rewrite Hpos.
Qed.

Lemma SFsub_sign (X Y : spec_float) :
  valid_binary X = true -> valid_binary Y = true ->
  SFltb (S754_zero false) (SFsub prec emax Y X) = SFltb X Y.
Proof.
  intros HX HY.
  destruct X as [sx|sx| |sx mx ex], Y as [sy|sy| |sy my ey];
    try done; try (by destruct sx); try (by destruct sy); try (by destruct sx, sy).
  cbn [SpecFloat.valid_binary] in HX, HY.
  unfold SFltb at 2. rewrite compare_aligned by done.
  cbn [SFsub]. rewrite binary_normalize_sign.
  2: { apply bounded_inv in HX as [? _]. apply bounded_inv in HY as [? _]. lia. }
  rewrite (Z.min_comm ey ex).
  set (a := cond_Zopp sx _). set (b := cond_Zopp sy _).
  destruct (Z.compare_spec a b); destruct (Z.ltb_spec 0 (b - a)); try done; lia.
Qed.

Local Open Scope float_scope.

(** The comparator [b - a] of a descending sort is positive exactly
    when [a] is below [b]: subtraction of doubles does not underflow to
    zero, and an overflow keeps the sign. *)
Lemma sub_pos (x y : float) : (0 <? y - x) = (x <? y).
Proof.
  rewrite !FloatAxioms.ltb_spec, FloatAxioms.sub_spec.
  change (Prim2SF 0) with (S754_zero false).
  apply SFsub_sign; apply Prim2SF_valid.
Qed.


Local Close Scope float_scope.

Lemma Prim2SF_minus_one : Prim2SF (-1)%float = S754_finite true 4503599627370496 (-52).
Proof. reflexivity. Qed.

(** A number above 0 is a positive finite number or infinity. *)
Lemma positive_inv (x : float) :
  (0 <? x)%float = true ->
  (exists m e, Prim2SF x = S754_finite false m e) \/ Prim2SF x = S754_infinity false.
Proof.
  rewrite FloatAxioms.ltb_spec. change (Prim2SF 0) with (S754_zero false).
  destruct (Prim2SF x) as [s|s| |s m e]; cbn; try discriminate;
    destruct s; try discriminate; eauto.
Qed.

Lemma SFcompare_refl (s : bool) (m : positive) (e : Z) :
  SFcompare (S754_finite s m e) (S754_finite s m e) = Some Eq.
Proof.
  destruct s; cbn; by rewrite Z.compare_refl, Pos.compare_cont_refl.
Qed.

Lemma positive_truthy (x : float) : (0 <? x)%float = true -> JS.num_truthy x = true.
Proof.
  intros H. unfold JS.num_truthy, is_nan. rewrite !FloatAxioms.eqb_spec.
  change (Prim2SF 0) with (S754_zero false).
  destruct (positive_inv x H) as [(m & e & ->)| ->]; [|reflexivity].
  unfold SFeqb. by rewrite SFcompare_refl.
Qed.

Lemma num_or_positive (q d : float) : (0 <? q)%float = true -> JS.num_or (Some q) d = q.
Proof. intros H. cbn. by rewrite positive_truthy. Qed.

(** A number that is at most -1 is minus infinity or a finite negative
    number of magnitude 1 or more. *)
Lemma below_minus_one_inv (x : float) :
  (x <=? -1)%float = true ->
  Prim2SF x = S754_infinity true \/
  exists m e, Prim2SF x = S754_finite true m e /\
              (e < 0 -> 2 ^ (- e) <= Zpos m).
Proof.
  rewrite FloatAxioms.leb_spec, Prim2SF_minus_one. pose proof (Prim2SF_valid x) as Hv.
  destruct (Prim2SF x) as [s|s| |s m e]; try discriminate.
  { destruct s; [by left|discriminate]. }
  cbn [SpecFloat.valid_binary] in Hv. unfold SFleb.
  rewrite compare_aligned by done.
  destruct s; [|discriminate]. intros Hle. right. exists m, e. split; [done|].
  intros He. cbn [cond_Zopp] in Hle.
  destruct (Z.le_gt_cases e (-52)) as [Hlo|Hhi].
  - rewrite Z.min_l in Hle by done. rewrite shl_align_same in Hle. cbn [fst] in Hle.
    destruct (shl_align_value 4503599627370496 (-52) e Hlo) as [Heq _].
    rewrite Heq in Hle.
    replace (- e) with (52 + (-52 - e)) by lia.
    rewrite Z.pow_add_r by lia. change (2 ^ 52) with 4503599627370496.
    assert (- Zpos m <= - (4503599627370496 * 2 ^ (-52 - e))); [|lia].
    apply Z.compare_le_iff. intros Hgt. by rewrite Hgt in Hle.
  - rewrite Z.min_r in Hle by lia. rewrite shl_align_same in Hle. cbn [fst] in Hle.
    destruct (shl_align_value m e (-52) ltac:(lia)) as [Heq _].
    rewrite Heq in Hle.
    assert (2 ^ (- e) * 2 ^ (e - -52) = 4503599627370496) as Hp.
    { rewrite <- Z.pow_add_r by lia. by replace (- e + (e - -52)) with 52 by lia. }
    assert (0 < 2 ^ (e - -52)) by (apply Z.pow_pos_nonneg; lia).
    assert (- (Zpos m * 2 ^ (e - -52)) <= Z.opp (Zpos 4503599627370496)) as Hc.
    { apply Z.compare_le_iff. intros Hgt. by rewrite Hgt in Hle. }
    apply (Z.mul_le_mono_pos_r _ _ (2 ^ (e - -52))); lia.
Qed.

Lemma negative_truthy (x : float) : (x <=? -1)%float = true -> JS.num_truthy x = true.
Proof.
  intros H. unfold JS.num_truthy, is_nan. rewrite !FloatAxioms.eqb_spec.
  change (Prim2SF 0) with (S754_zero false).
  destruct (below_minus_one_inv x H) as [->|(m & e & -> & _)]; [reflexivity|].
  unfold SFeqb. by rewrite SFcompare_refl.
Qed.

(** The integer part of a positive number is not negative. *)
Lemma ToIntegerOrInfinity_positive (x : float) :
  (0 <? x)%float = true ->
  JS.ToIntegerOrInfinity x = JS.PlusInfinity \/
  exists k, JS.ToIntegerOrInfinity x = JS.Finite k /\ 0 <= k.
Proof.
  intros H. unfold JS.ToIntegerOrInfinity.
  destruct (positive_inv x H) as [(m & e & ->)| ->]; [right|by left].
  eexists. split; [reflexivity|]. cbn [cond_Zopp].
  destruct (Z.leb_spec 0 e).
  - apply Z.mul_nonneg_nonneg; [lia|]. apply Z.pow_nonneg; lia.
  - apply Z.div_pos; [lia|]. apply Z.pow_pos_nonneg; lia.
Qed.

(** The integer part of a number that is at most -1 is at most -1. *)
Lemma ToIntegerOrInfinity_negative (x : float) :
  (x <=? -1)%float = true ->
  JS.ToIntegerOrInfinity x = JS.MinusInfinity \/
  exists k, JS.ToIntegerOrInfinity x = JS.Finite k /\ k <= -1.
Proof.
  intros H. unfold JS.ToIntegerOrInfinity.
  destruct (below_minus_one_inv x H) as [->|(m & e & -> & Hm)]; [by left|right].
  eexists. split; [reflexivity|]. cbn [cond_Zopp].
  destruct (Z.leb_spec 0 e).
  - assert (1 <= 2 ^ e) by (apply (Z.pow_le_mono_r 2 0 e); lia). nia.
  - assert (0 < 2 ^ (- e)) by (apply Z.pow_pos_nonneg; lia).
    assert (1 <= Zpos m / 2 ^ (- e)); [|lia].
    apply Z.div_le_lower_bound; lia.
Qed.




End FloatFacts.

(** Counts -- doubles that are 0, positive or infinity -- are closed under
    addition and totally ordered. *)
Module CountFacts.
Import JS Data Core Spec Terms FloatFacts.
Local Open Scope Z_scope.

Lemma bounded_top (m : positive) (e : Z) :
  bounded prec emax m e = true -> e <= 971.
Proof.
  unfold bounded. intros H. apply andb_prop in H as [_ H].
  apply Z.leb_le in H. unfold emax, prec in H. lia.
Qed.

Lemma finite_rank (m : positive) (e : Z) :
  bounded prec emax m e = true -> 0 < Zpos m * 2 ^ (e + 1074) < 2 ^ 2100.
Proof.
  intros H. pose proof (bounded_top m e H) as Ht.
  apply bounded_inv in H as (He & Hd & _). unfold SpecFloat.emin, emax, prec in He.
  pose proof (digits2_bounds m) as [_ Hm].
  assert (0 < 2 ^ (e + 1074)) by (apply Z.pow_pos_nonneg; lia).
  split; [lia|].
  assert (Zpos m < 2 ^ 53).
  { eapply Z.lt_le_trans; [exact Hm|]. apply Z.pow_le_mono_r; lia. }
  assert (2 ^ (e + 1074) <= 2 ^ 2045) by (apply Z.pow_le_mono_r; lia).
  replace (2 ^ 2100) with (2 ^ 55 * 2 ^ 2045) by (rewrite <- Z.pow_add_r; [reflexivity|lia|lia]).
  assert (0 < 2 ^ 2045) by (apply Z.pow_pos_nonneg; lia).
  assert (2 ^ 53 < 2 ^ 55) by (apply Z.pow_lt_mono_r; lia).
  nia.
Qed.

Lemma count_compare (x y : float) :
  is_count x = true -> is_count y = true ->
  SFcompare (Prim2SF x) (Prim2SF y) = Some (count_rank x ?= count_rank y).
Proof.
  unfold is_count, count_rank.
  pose proof (Prim2SF_valid x) as HX. pose proof (Prim2SF_valid y) as HY.
  destruct (Prim2SF x) as [[]|[]| |[] mx ex], (Prim2SF y) as [[]|[]| |[] my ey];
    try discriminate; intros _ _; cbn [SpecFloat.valid_binary] in HX, HY;
    try reflexivity.
  all: try (rewrite (compare_aligned _ _ _ _ _ _ HX HY)).
  all: cbn [SFcompare].
  all: try (pose proof (finite_rank _ _ HX)); try (pose proof (finite_rank _ _ HY)).
  all: try (symmetry; f_equal;
            first [apply Z.compare_lt_iff; lia | apply Z.compare_gt_iff; lia]).
  f_equal. cbn [cond_Zopp].
  apply bounded_inv in HX as (Hex & _), HY as (Hey & _).
    unfold SpecFloat.emin, emax, prec in Hex, Hey.
    destruct (shl_align_value mx ex (Z.min ex ey)) as [-> _]; [lia|].
    destruct (shl_align_value my ey (Z.min ex ey)) as [-> _]; [lia|].
    replace (ex + 1074) with ((ex - Z.min ex ey) + (Z.min ex ey + 1074)) by lia.
    replace (ey + 1074) with ((ey - Z.min ex ey) + (Z.min ex ey + 1074)) by lia.
    rewrite (Z.pow_add_r 2 (ex - Z.min ex ey)), (Z.pow_add_r 2 (ey - Z.min ex ey)),
      !Z.mul_assoc by lia.
    assert (0 < 2 ^ (Z.min ex ey + 1074)) as Hk by (apply Z.pow_pos_nonneg; lia).
    destruct (Z.compare_spec (Zpos mx * 2 ^ (ex - Z.min ex ey))
                (Zpos my * 2 ^ (ey - Z.min ex ey))) as [Heq|Hlt|Hgt]; symmetry.
    + apply Z.compare_eq_iff. by rewrite Heq.
    + apply Z.compare_lt_iff. by apply Z.mul_lt_mono_pos_r.
    + apply Z.compare_gt_iff. by apply Z.mul_lt_mono_pos_r.
Qed.

Lemma count_leb (x y : float) :
  is_count x = true -> is_count y = true ->
  PrimFloat.leb x y = (count_rank x <=? count_rank y).
Proof.
  intros Hx Hy. rewrite FloatAxioms.leb_spec. unfold SFleb.
  rewrite (count_compare x y Hx Hy). unfold Z.leb.
  by destruct (count_rank x ?= count_rank y).
Qed.

Lemma count_ltb (x y : float) :
  is_count x = true -> is_count y = true ->
  PrimFloat.ltb x y = (count_rank x <? count_rank y).
Proof.
  intros Hx Hy. rewrite FloatAxioms.ltb_spec. unfold SFltb.
  rewrite (count_compare x y Hx Hy). unfold Z.ltb.
  by destruct (count_rank x ?= count_rank y).
Qed.

(** The sum of two counts is a count. *)
Lemma count_add (x y : float) :
  is_count x = true -> is_count y = true -> is_count (x + y)%float = true.
Proof.
  unfold is_count. rewrite FloatAxioms.add_spec.
  pose proof (Prim2SF_valid x) as HX. pose proof (Prim2SF_valid y) as HY.
  destruct (Prim2SF x) as [[]|[]| |[] mx ex], (Prim2SF y) as [[]|[]| |[] my ey];
    try discriminate; intros _ _; try reflexivity.
  cbn [SpecFloat.valid_binary] in HX, HY. unfold SF64add, SFadd. cbn [cond_Zopp].
  apply bounded_inv in HX as (Hex & _), HY as (Hey & _).
  match goal with
  | |- context [binary_normalize prec emax ?D ?e false] =>
      pose proof (binary_normalize_sign D e ltac:(lia)) as Hs;
      destruct (binary_normalize prec emax D e false) as [[]|[]| |[] m e']; try done
  end.
Qed.

Lemma count_zero : is_count 0%float = true.
Proof. reflexivity. Qed.

Lemma counted_count (x : option float) :
  (forall v, x = Some v -> is_count (counted (Some v)) = true) ->
  is_count (counted x) = true.
Proof. destruct x as [v|]; [intros H; by apply H|done]. Qed.

Lemma num_or_count (a : float) : is_count a = true -> num_or (Some a) 0 = a.
Proof.
  intros Ha. unfold num_or, num_truthy.
  destruct (PrimFloat.is_nan a || PrimFloat.eqb a 0)%float eqn:Hz; [|done].
  cbn [negb]. apply Prim2SF_inj.
  unfold is_count in Ha. unfold PrimFloat.is_nan in Hz.
  rewrite !FloatAxioms.eqb_spec in Hz. change (Prim2SF 0) with (S754_zero false) in *.
  destruct (Prim2SF a) as [[]|[]| |[] m e]; try discriminate; try reflexivity.
  unfold SFeqb in Hz. rewrite SFcompare_refl in Hz. cbn in Hz.
  unfold SFeqb in Hz. cbn in Hz. discriminate.
Qed.

End CountFacts.

(** ** Computations *)

Module MonadFacts.
Import JS Data Core.

Lemma bind_Ok_inv {S A B} (m : M S A) (k : A -> M S B) (s : S) (r : B * S) :
  bind m k s = Ok r -> exists a s1, m s = Ok (a, s1) /\ k a s1 = Ok r.
Proof.
  unfold bind. destruct (m s) as [[a s1]|e]; [eauto | discriminate].
Qed.

Lemma bind_Ok {S A B} (m : M S A) (k : A -> M S B) (s s1 : S) (a : A) :
  m s = Ok (a, s1) -> bind m k s = k a s1.
Proof. unfold bind. now intros ->. Qed.

Lemma createMessage_Ok {S} `{Ticking S} (h : Host) (from to : string)
    (kind : Kind) (payload : Payload) (c : option string) (s : S) :
  createMessage h from to kind payload c s =
    Ok ({| msg_from := from; msg_to := to; msg_kind := kind;
           msg_payload := payload; msg_id := fresh_id h (ticks s);
           msg_correlationId := c |},
        set_ticks (Datatypes.S (ticks s)) s).
Proof. reflexivity. Qed.

Lemma createMessage_correlation {S} `{Ticking S} (h : Host) (from to : string)
    (kind : Kind) (payload : Payload) (c : option string) (s s' : S) (m : Message) :
  createMessage h from to kind payload c s = Ok (m, s') ->
  msg_correlationId m = c.
Proof. rewrite createMessage_Ok. now intros [= <- _]. Qed.

End MonadFacts.

(** ** The envelopes of the two agents *)

Module EnvelopeFacts.
Import JS Data Core MonadFacts.

(** Strips the binds in front of the last step of a handler. *)
Ltac last_step H :=
  cbv beta zeta in H;
  repeat (lazymatch type of H with
          | bind _ _ _ = Ok _ =>
              apply bind_Ok_inv in H as (? & ? & _ & H); cbv beta zeta in H
          end).

Ltac by_createMessage H :=
  last_step H; now apply createMessage_correlation in H.

Lemma Analytics_track_correlation h message input s m s' :
  Analytics.track h message input s = Ok (m, s') ->
  msg_correlationId m = Some (msg_id message).
Proof.
  unfold Analytics.track. intros H. by_createMessage H.
Qed.

Lemma Analytics_report_correlation h message input s m s' :
  Analytics.report h message input s = Ok (m, s') ->
  msg_correlationId m = Some (msg_id message).
Proof. unfold Analytics.report. intros H. by_createMessage H. Qed.

Lemma Analytics_getInsights_correlation h message s m s' :
  Analytics.getInsights h message s = Ok (m, s') ->
  msg_correlationId m = Some (msg_id message).
Proof.
  unfold Analytics.getInsights. intros H.
  apply bind_Ok_inv in H as (this & s1 & _ & H). cbv beta in H.
  destruct (_ =? 0)%nat; by_createMessage H.
Qed.

Lemma Analytics_topContent_correlation h message input s m s' :
  Analytics.topContent h message input s = Ok (m, s') ->
  msg_correlationId m = Some (msg_id message).
Proof. unfold Analytics.topContent. intros H. by_createMessage H. Qed.

Lemma Analytics_handle_correlation h message s m s' :
  Analytics.handle h message s = Ok (m, s') ->
  msg_correlationId m = Some (msg_id message).
Proof.
  unfold Analytics.handle, Analytics.with_input. intros H.
  repeat case_bool_decide;
    try (destruct (Analytics.payload_input _); [|discriminate]);
    eauto using Analytics_track_correlation, Analytics_report_correlation,
      Analytics_getInsights_correlation, Analytics_topContent_correlation.
  now apply createMessage_correlation in H.
Qed.

Lemma Brand_getBrandContext_correlation h message input s m s' :
  BrandManager.getBrandContext h message input s = Ok (m, s') ->
  msg_correlationId m = Some (msg_id message).
Proof. unfold BrandManager.getBrandContext. intros H. by_createMessage H. Qed.

Lemma Brand_setBrand_correlation h message input s m s' :
  BrandManager.setBrand h message input s = Ok (m, s') ->
  msg_correlationId m = Some (msg_id message).
Proof. unfold BrandManager.setBrand. intros H. by_createMessage H. Qed.

Lemma Brand_learnFromFeedback_correlation h message input s m s' :
  BrandManager.learnFromFeedback h message input s = Ok (m, s') ->
  msg_correlationId m = Some (msg_id message).
Proof. unfold BrandManager.learnFromFeedback. intros H. by_createMessage H. Qed.

Lemma Brand_analyzeSample_correlation h message input s m s' :
  BrandManager.analyzeSample h message input s = Ok (m, s') ->
  msg_correlationId m = Some (msg_id message).
Proof. unfold BrandManager.analyzeSample. intros H. by_createMessage H. Qed.

Lemma Brand_handle_correlation h message s m s' :
  BrandManager.handle h message s = Ok (m, s') ->
  msg_correlationId m = Some (msg_id message).
Proof.
  unfold BrandManager.handle, BrandManager.with_input. intros H.
  repeat case_bool_decide;
    (destruct (Analytics.payload_input _); [|discriminate]);
    eauto using Brand_getBrandContext_correlation, Brand_setBrand_correlation,
      Brand_learnFromFeedback_correlation, Brand_analyzeSample_correlation.
Qed.

End EnvelopeFacts.

Module Envelope.
Import JS Data Core Spec MonadFacts EnvelopeFacts.

Lemma recognized_analytics :
  recognized Analytics.info = ["track"; "report"; "insights"; "top-content"].
Proof. reflexivity. Qed.

Lemma recognized_brand_manager :
  recognized BrandManager.info =
    ["get-brand-context"; "set-brand"; "learn-from-feedback"; "analyze-sample"].
Proof. reflexivity. Qed.

(** C1, as stated, fails for the brand-manager agent: a task whose action
    is ["unknown-action"] is answered with a [result] envelope, not with an
    [error] envelope. *)
Lemma brand_manager_answers_unknown_action :
  ("unknown-action" ∉ recognized BrandManager.info) /\
  exists m s',
    BrandManager.handle Demo.host
      (Demo.task_message "m1" "unknown-action" no_input) Demo.brand0
    = Ok (m, s') /\
    msg_kind m = result /\
    forall code text retryable, msg_payload m <> ErrorPayload code text retryable.
Proof.
  split.
  - rewrite recognized_brand_manager. intros Hin.
    repeat (apply elem_of_cons in Hin as [Hin|Hin]; [discriminate|]).
    now apply elem_of_nil in Hin.
  - eexists _, _. split; [vm_compute; reflexivity|]. split; [reflexivity|].
    intros code text retryable. discriminate.
Qed.

(** C1, as amended. For every task message whose action is none of the
    capabilities the agent declares: the analytics agent returns an [error]
    envelope with code ["UNKNOWN_ACTION"], [retryable = false] and
    [correlationId] equal to the task's [id]; the brand-manager agent
    treats the task as [get-brand-context] and returns a [result] envelope
    whose [correlationId] equals the task's [id]. *)
Theorem unknown_action_envelopes (h : Host) (message : Message)
    (action : string) (input : TaskInput) :
  msg_payload message = TaskPayload action input ->
  (forall s, action ∉ recognized Analytics.info ->
     Analytics.handle h message s =
       Ok ({| msg_from := "analytics"; msg_to := msg_from message;
              msg_kind := error;
              msg_payload :=
                ErrorPayload "UNKNOWN_ACTION" ("Unknown: " +:+ action) false;
              msg_id := fresh_id h (Analytics.reads s);
              msg_correlationId := Some (msg_id message) |},
           set_ticks (S (Analytics.reads s)) s))
  /\
  (forall s, action ∉ recognized BrandManager.info ->
     BrandManager.handle h message s
       = BrandManager.getBrandContext h message input s /\
     exists profile s',
       BrandManager.handle h message s =
         Ok ({| msg_from := "brand-manager"; msg_to := msg_from message;
                msg_kind := result;
                msg_payload :=
                  ResultPayload true
                    (OutBrandContext profile
                       (BrandManager.buildGuidelines h profile));
                msg_id := fresh_id h (BrandManager.reads s);
                msg_correlationId := Some (msg_id message) |}, s')).
Proof.
  intros Hp. split; intros s Hn.
  - rewrite recognized_analytics in Hn.
    unfold Analytics.handle. rewrite Hp. cbn [Analytics.payload_action].
    rewrite !bool_decide_eq_false_2; [reflexivity|..];
      intros [= ->]; apply Hn; set_solver.
  - rewrite recognized_brand_manager in Hn.
    assert (BrandManager.handle h message s
            = BrandManager.getBrandContext h message input s) as Hh.
    { unfold BrandManager.handle, BrandManager.with_input. rewrite Hp.
      cbn [Analytics.payload_action Analytics.payload_input].
      rewrite !bool_decide_eq_false_2; [reflexivity|..];
        intros [= ->]; apply Hn; set_solver. }
    split; [exact Hh|]. rewrite Hh.
    unfold BrandManager.getBrandContext, BrandManager.getProfile.
    cbv beta zeta. unfold bind at 1. unfold bind at 1. unfold get.
    destruct (Memory_get _ _) as [stored|]; [destruct (truthy stored)|];
      cbn [ret]; rewrite createMessage_Ok; eexists _, _; reflexivity.
Qed.

Lemma unknown_action_envelopes_witness :
  exists m s',
    Analytics.handle Demo.host
      (Demo.task_message "m1" "unknown-action" no_input) Demo.analytics0
    = Ok (m, s') /\
    msg_payload m = ErrorPayload "UNKNOWN_ACTION" "Unknown: unknown-action" false /\
    msg_correlationId m = Some "m1".
Proof.
  eexists _, _. split; [|split].
  - apply (unknown_action_envelopes Demo.host
             (Demo.task_message "m1" "unknown-action" no_input)
             "unknown-action" no_input eq_refl).
    rewrite recognized_analytics. intros Hin.
    repeat (apply elem_of_cons in Hin as [Hin|Hin]; [discriminate|]).
    now apply elem_of_nil in Hin.
  - reflexivity.
  - reflexivity.
Defined.

(** C2. For every input message, every envelope the [handle] operation of
    the analytics agent or of the brand-manager agent returns, of kind
    [result] or [error], carries the input message's [id] as its
    [correlationId]. *)
Theorem handle_correlation (h : Host) (message : Message) :
  (forall s m s',
     Analytics.handle h message s = Ok (m, s') ->
     msg_correlationId m = Some (msg_id message)) /\
  (forall s m s',
     BrandManager.handle h message s = Ok (m, s') ->
     msg_correlationId m = Some (msg_id message)).
Proof.
  split; intros s m s'.
  - apply Analytics_handle_correlation.
  - apply Brand_handle_correlation.
Qed.

Lemma handle_correlation_witness :
  (exists m s',
     BrandManager.handle Demo.host
       (Demo.task_message "m7" "set-brand" (Demo.learnings_input ["Be brief"]))
       Demo.brand0
     = Ok (m, s') /\
     msg_correlationId m = Some "m7") /\
  (exists m s',
     Analytics.handle Demo.host (Demo.task_message "m8" "track" no_input)
       Demo.analytics0
     = Ok (m, s') /\
     msg_payload m = ResultPayload true (OutTracked None None) /\
     msg_correlationId m = Some "m8").
Proof.
  split.
  - eexists _, _. split; [vm_compute; reflexivity|].
    eapply (proj2 (handle_correlation Demo.host
                     (Demo.task_message "m7" "set-brand"
                        (Demo.learnings_input ["Be brief"])))
              Demo.brand0).
    vm_compute. reflexivity.
  - eexists _, _. split; [vm_compute; reflexivity|]. split; [reflexivity|].
    eapply (proj1 (handle_correlation Demo.host
                     (Demo.task_message "m8" "track" no_input))
              Demo.analytics0).
    vm_compute. reflexivity.
Defined.

End Envelope.

(** ** The Memory Store *)

Module StoreFacts.
Import JS Data Core.

Lemma upsert_Forall (P : MemoryEntry -> Prop) e l :
  P e -> Forall P l -> Forall P (upsert e l).
Proof.
  intros He Hl. induction Hl as [|x l Hx Hl IH]; cbn.
  - by constructor.
  - destruct (String.eqb _ _); by constructor.
Qed.

Lemma find_key_spec (l : list MemoryEntry) k e :
  List.find (fun e => String.eqb (key e) k) l = Some e -> e ∈ l /\ key e = k.
Proof.
  intros H. apply find_some in H as [Hin Hk].
  split; [by apply list_elem_of_In | by apply String.eqb_eq].
Qed.

Lemma Memory_get_Some m k v :
  Memory_get m k = Some v -> exists e, e ∈ mem_entries m /\ key e = k /\ value e = v.
Proof.
  unfold Memory_get. intros H.
  destruct (List.find _ _) as [e|] eqn:Hf; [|discriminate].
  injection H as <-. apply find_key_spec in Hf as [? ?]. eauto.
Qed.

Lemma find_upsert e l :
  List.find (fun x => String.eqb (key x) (key e)) (upsert e l) = Some e.
Proof.
  induction l as [|x l IH]; cbn.
  - by rewrite String.eqb_refl.
  - destruct (String.eqb (key x) (key e)) eqn:Hx; cbn.
    + by rewrite String.eqb_refl.
    + by rewrite Hx.
Qed.

Lemma find_upsert_ne e l k :
  key e <> k ->
  List.find (fun x => String.eqb (key x) k) (upsert e l)
  = List.find (fun x => String.eqb (key x) k) l.
Proof.
  intros Hne. apply String.eqb_neq in Hne.
  induction l as [|x l IH]; cbn.
  - by rewrite Hne.
  - destruct (String.eqb (key x) (key e)) eqn:Hx; cbn.
    + apply String.eqb_eq in Hx. rewrite Hx, Hne. done.
    + by rewrite IH.
Qed.

Lemma Memory_get_set m k v a tg now :
  Memory_get (Memory_set m k v a tg now) k = Some v.
Proof.
  unfold Memory_get, Memory_set. cbn.
  set (e := {| key := k |}). change k with (key e) at 1.
  by rewrite find_upsert.
Qed.

Lemma Memory_get_set_ne m k k' v a tg now :
  k <> k' -> Memory_get (Memory_set m k v a tg now) k' = Memory_get m k'.
Proof.
  intros. unfold Memory_get, Memory_set. cbn. by rewrite find_upsert_ne.
Qed.

(** A write under a new key comes last in the sequence of its agent. *)
Lemma upsert_fresh e l :
  Memory_get {| mem_dir := ""; mem_entries := l |} (key e) = None ->
  upsert e l = l ++ [e].
Proof.
  unfold Memory_get. cbn. induction l as [|x l IH]; cbn; [done|].
  destruct (String.eqb (key x) (key e)); cbn; [discriminate|].
  intros H. by rewrite IH.
Qed.

Lemma Memory_set_fresh_last m k v a tg now :
  Memory_get m k = None ->
  Memory_byAgent (Memory_set m k v a tg now) a
  = Memory_byAgent m a
    ++ [{| key := k; value := v; agent := a; tags := tg; entry_updatedAt := now |}].
Proof.
  intros Hk. unfold Memory_byAgent, Memory_set. cbn.
  rewrite upsert_fresh by (destruct m; exact Hk).
  rewrite List.filter_app. cbn. by rewrite String.eqb_refl.
Qed.

Lemma obj_get_set {V} (o : list (string * V)) k v :
  obj_get (obj_set o k v) k = Some v.
Proof.
  induction o as [|[k' v'] o IH]; cbn.
  - by rewrite String.eqb_refl.
  - destruct (String.eqb k' k) eqn:Hk; cbn; by rewrite Hk.
Qed.

End StoreFacts.

(** ** Tracking *)

Module TrackFacts.
Import JS Data Core Spec Terms MonadFacts StoreFacts FloatFacts.

Lemma metrics_key_prefix cid : startsWith ("metrics:" +:+ cid) "metrics:" = true.
Proof. unfold startsWith. cbn. by destruct cid. Qed.

Lemma same_eq a b : same a b = true <-> a = b.
Proof.
  destruct a as [x|], b as [y|]; cbn; try (split; [discriminate|congruence]);
    [|done].
  rewrite String.eqb_eq. split; congruence.
Qed.

Lemma includes_undefined_elem l x : includes_undefined l x = true <-> x ∈ l.
Proof.
  unfold includes_undefined. rewrite existsb_exists. split.
  - intros (y & Hy & Heq). apply same_eq in Heq as ->. by apply list_elem_of_In.
  - intros Hx. exists x. split; [by apply list_elem_of_In|by apply same_eq].
Qed.

Lemma add_platform_NoDup l p : NoDup l -> NoDup (Analytics.add_platform l p).
Proof.
  intros Hl. unfold Analytics.add_platform.
  destruct (includes_undefined l p) eqn:He; [done|].
  apply NoDup_app. split; [done|]. split; [|apply NoDup_singleton].
  intros x Hx Hx'. apply list_elem_of_singleton in Hx' as ->.
  apply includes_undefined_elem in Hx. congruence.
Qed.

Lemma add_platform_elem l p : p ∈ Analytics.add_platform l p.
Proof.
  unfold Analytics.add_platform.
  destruct (includes_undefined l p) eqn:He.
  - by apply includes_undefined_elem.
  - set_solver.
Qed.

Lemma add_platform_mono l p q : q ∈ l -> q ∈ Analytics.add_platform l p.
Proof. unfold Analytics.add_platform. destruct (includes_undefined _ _); set_solver. Qed.

Lemma add_platform_listed l p : p ∈ l -> Analytics.add_platform l p = l.
Proof.
  intros Hp. unfold Analytics.add_platform.
  by rewrite (proj2 (includes_undefined_elem l p) Hp).
Qed.

Lemma num_or_counted x : num_or x 0 = counted x.
Proof.
  destruct x as [q|]; cbn; [|done]. unfold num_truthy.
  by destruct (PrimFloat.is_nan q || PrimFloat.eqb q 0).
Qed.

Lemma with_engagement_counts m :
  views (Analytics.with_engagement m) = views m /\
  likes (Analytics.with_engagement m) = likes m /\
  shares (Analytics.with_engagement m) = shares m /\
  comments (Analytics.with_engagement m) = comments m /\
  clicks (Analytics.with_engagement m) = clicks m /\
  impressions (Analytics.with_engagement m) = impressions m /\
  stats_updatedAt (Analytics.with_engagement m) = stats_updatedAt m.
Proof.
  unfold Analytics.with_engagement. destruct (views m) as [v|] eqn:Hv; [|done].
  destruct (_ && _); cbn; repeat split; done.
Qed.

Lemma with_engagement_rate m :
  (forall v, views m = Some v -> PrimFloat.ltb 0 v = true ->
     engagement (Analytics.with_engagement m)
     = Some ((counted (likes m) + counted (comments m) + counted (shares m))
             / v * 100)%float) /\
  (views m = None \/ (exists v, views m = Some v /\ PrimFloat.ltb 0 v = false) ->
   engagement (Analytics.with_engagement m) = engagement m).
Proof.
  unfold Analytics.with_engagement. split.
  - intros v Hv Hpos. rewrite Hv, (positive_truthy v Hpos), Hpos. cbn.
    by rewrite !num_or_counted.
  - intros [Hv|(v & Hv & Hle)]; rewrite Hv; [done|].
    by rewrite Hle, andb_false_r.
Qed.

(** What [track] writes for the platform, in the words of
    [record_updated]. *)
Lemma updated_record old mi now :
  record_updated old mi now
    (Analytics.with_engagement (Analytics.merge_stats old mi now)).
Proof.
  set (m := Analytics.merge_stats old mi now).
  assert (forall (f : PlatformStats -> option float) (g : MetricsInput -> option float),
            Analytics.over (mi ≫= g) (old ≫= f)
            = match mi ≫= g with
              | Some q => Some q
              | None => old ≫= f
              end) as Hover.
  { intros f g. unfold Analytics.over. by destruct (mi ≫= g). }
  destruct (with_engagement_counts m) as (Hv & Hl & Hs & Hco & Hcl & Him & Hup).
  destruct (with_engagement_rate m) as [Hrate Hkeep].
  unfold record_updated, field_merged.
  split; [by rewrite Hup|].
  split; [etrans; [exact Hv|apply Hover]|].
  split; [etrans; [exact Hl|apply Hover]|].
  split; [etrans; [exact Hs|apply Hover]|].
  split; [etrans; [exact Hco|apply Hover]|].
  split; [etrans; [exact Hcl|apply Hover]|].
  split; [etrans; [exact Him|apply Hover]|].
  split.
  - intros v Hvs Hpos. rewrite Hv in Hvs. rewrite (Hrate v Hvs Hpos).
    unfold engagement_rate. by rewrite Hl, Hco, Hs.
  - intros Hno. etrans; [apply Hkeep|apply Hover].
    by rewrite Hv in Hno.
Qed.

Lemma track_Ok h message input cid p s :
  in_contentId input = Some cid ->
  in_platform input = Some p ->
  metrics_typed (Analytics.memory s) ->
  exists m s' cm0 now written,
    Analytics.track h message input s = Ok (m, s') /\
    msg_payload m = ResultPayload true (OutTracked (Some cid) (Some p)) /\
    (Memory_get (Analytics.memory s) ("metrics:" +:+ cid) = Some (VMetrics cm0) /\
     now = toISOString h (now_ms h (Analytics.reads s)) \/
     Memory_get (Analytics.memory s) ("metrics:" +:+ cid) = None /\
     cm_platforms cm0 = [] /\ cm_metrics cm0 = []) /\
    Analytics.memory s' =
      Memory_set (Analytics.memory s) ("metrics:" +:+ cid)
        (VMetrics (tracked cm0 (Some p) (in_metrics input) now)) "analytics"
        (Some "metrics" :: Some p :: (Some <$> arr_or (in_tags input) [])) written.
Proof.
  intros Hc Hp Hty. unfold Analytics.track. rewrite Hc, Hp.
  cbv beta zeta. cbn [show_str]. unfold bind at 1. unfold get at 1.
  destruct (Memory_get (Analytics.memory s) ("metrics:" +:+ cid)) as [v|] eqn:Hg.
  - pose proof Hg as Hg'. apply Memory_get_Some in Hg' as (e & He & Hk & Hv).
    unfold metrics_typed in Hty. rewrite Forall_forall in Hty.
    specialize (Hty e He). rewrite Hk in Hty.
    destruct (Hty (metrics_key_prefix cid)) as [cm Hcm]. rewrite Hv in Hcm.
    destruct v; try discriminate. cbn in Hcm. injection Hcm as ->.
    eexists _, _, cm, _, _. split; [reflexivity|].
    split; [reflexivity|]. split; [left; split; reflexivity|]. reflexivity.
  - eexists _, _,
      {| cm_id := Some cid;
         cm_title := str_or_undefined (in_title input) (Some cid);
         cm_topic := str_or (in_topic input) "";
         cm_createdAt := toISOString h (now_ms h (Analytics.reads s));
         cm_platforms := []; cm_metrics := [];
         cm_tags := arr_or (in_tags input) [] |}, _, _.
    split; [reflexivity|].
    split; [reflexivity|]. split; [right; split; [done|split; reflexivity]|].
    reflexivity.
Qed.

(** [track] returns whatever the task carries, a content id or a
    platform that is [undefined] included. *)
Lemma track_returns h message input s :
  metrics_typed (Analytics.memory s) ->
  exists m s',
    Analytics.track h message input s = Ok (m, s') /\
    msg_payload m
    = ResultPayload true (OutTracked (in_contentId input) (in_platform input)).
Proof.
  intros Hty. unfold Analytics.track.
  cbv beta zeta. unfold bind at 1. unfold get at 1.
  destruct (Memory_get (Analytics.memory s)
              ("metrics:" +:+ show_str (in_contentId input))) as [v|] eqn:Hg.
  - pose proof Hg as Hg'. apply Memory_get_Some in Hg' as (e & He & Hk & Hv).
    unfold metrics_typed in Hty. rewrite Forall_forall in Hty.
    specialize (Hty e He). rewrite Hk in Hty.
    destruct (Hty (metrics_key_prefix _)) as [cm Hcm]. rewrite Hv in Hcm.
    destruct v; try discriminate. eexists _, _. split; reflexivity.
  - eexists _, _. split; reflexivity.
Qed.

Lemma track_preserves h message input cid p s :
  in_contentId input = Some cid ->
  in_platform input = Some p ->
  metrics_typed (Analytics.memory s) ->
  platforms_distinct (Analytics.memory s) ->
  exists m s',
    Analytics.track h message input s = Ok (m, s') /\
    metrics_typed (Analytics.memory s') /\
    platforms_distinct (Analytics.memory s') /\
    (exists cm, Memory_get (Analytics.memory s') ("metrics:" +:+ cid) = Some (VMetrics cm)
                /\ Some p ∈ cm_platforms cm) /\
    (forall cid' q cm,
       Memory_get (Analytics.memory s) ("metrics:" +:+ cid') = Some (VMetrics cm) ->
       q ∈ cm_platforms cm ->
       exists cm', Memory_get (Analytics.memory s') ("metrics:" +:+ cid') = Some (VMetrics cm')
                   /\ q ∈ cm_platforms cm').
Proof.
  intros Hc Hp Hty Hnd.
  destruct (track_Ok h message input cid p s Hc Hp Hty)
    as (m & s' & cm0 & now & written & Hrun & _ & Hcm0 & Hmem).
  exists m, s'. split; [exact Hrun|]. rewrite Hmem.
  assert (NoDup (cm_platforms cm0)) as Hnd0.
  { destruct Hcm0 as [[Hg _]|(_ & -> & _)]; [|constructor].
    apply Memory_get_Some in Hg as (e & He & _ & Hv).
    unfold platforms_distinct in Hnd. rewrite Forall_forall in Hnd. eauto. }
  split; [|split; [|split]].
  - apply upsert_Forall; [|exact Hty]. intros _. cbn. eauto.
  - apply upsert_Forall; [|exact Hnd]. cbn. intros cm [= <-]. cbn.
    by apply add_platform_NoDup.
  - eexists. rewrite Memory_get_set. split; [reflexivity|]. cbn.
    apply add_platform_elem.
  - intros cid' q cm Hg Hq.
    destruct (decide (cid = cid')) as [<-|Hne].
    + eexists. rewrite Memory_get_set. split; [reflexivity|]. cbn.
      apply add_platform_mono.
      destruct Hcm0 as [[Hg0 _]|(Hg0 & _)]; rewrite Hg0 in Hg; [|discriminate].
      by injection Hg as ->.
    + exists cm. rewrite Memory_get_set_ne; [done|].
      intros Heq. apply Hne. cbn in Heq. by injection Heq.
Qed.

Lemma handle_track h message input s :
  msg_payload message = TaskPayload "track" input ->
  Analytics.handle h message s = Analytics.track h message input s.
Proof.
  intros Hp. unfold Analytics.handle, Analytics.with_input. rewrite Hp. cbn.
  reflexivity.
Qed.

Lemma tracks_preserve h msgs : forall s,
  Forall track_task msgs ->
  metrics_typed (Analytics.memory s) ->
  platforms_distinct (Analytics.memory s) ->
  exists replies s',
    mapM (Analytics.handle h) msgs s = Ok (replies, s') /\
    metrics_typed (Analytics.memory s') /\
    platforms_distinct (Analytics.memory s') /\
    (forall cid q, listed (Analytics.memory s) cid q ->
                   listed (Analytics.memory s') cid q) /\
    (forall message input cid p,
       message ∈ msgs ->
       msg_payload message = TaskPayload "track" input ->
       in_contentId input = Some cid ->
       in_platform input = Some p ->
       listed (Analytics.memory s') cid p).
Proof.
  induction msgs as [|message msgs IH]; intros s Hall Hty Hnd.
  - exists [], s. split; [reflexivity|]. split; [done|]. split; [done|].
    split; [done|]. intros ???? Hin. by apply elem_of_nil in Hin.
  - apply Forall_cons in Hall as [(input & cid & p & Hp & Hc & Hpl) Hall].
    destruct (track_preserves h message input cid p s Hc Hpl Hty Hnd)
      as (m & s1 & Hrun & Hty1 & Hnd1 & Hnew & Hkeep).
    destruct (IH s1 Hall Hty1 Hnd1) as (rs & s' & Hrest & Hty' & Hnd' & Hkeep' & Hin').
    exists (m :: rs), s'. split; [|split; [done|split; [done|split]]].
    + cbn [mapM]. rewrite (bind_Ok _ _ s s1 m).
      * rewrite (bind_Ok _ _ s1 s' rs Hrest). reflexivity.
      * by rewrite (handle_track h message input s Hp).
    + intros cid' q (cm & Hg & Hq). apply Hkeep'.
      destruct (Hkeep cid' (Some q) cm Hg Hq) as (cm' & ? & ?). by exists cm'.
    + intros message' input' cid' p' Hin Hp' Hc' Hpl'.
      apply elem_of_cons in Hin as [->|Hin]; [|by eapply Hin'].
      rewrite Hp in Hp'. injection Hp' as <-.
      rewrite Hc in Hc'. injection Hc' as <-.
      rewrite Hpl in Hpl'. injection Hpl' as <-.
      apply Hkeep'. exact Hnew.
Qed.

Example three_tracks_platforms :
  exists replies s' cm,
    mapM (Analytics.handle Demo.host) Demo.three_tracks Demo.analytics0
      = Ok (replies, s') /\
    Memory_get (Analytics.memory s') "metrics:post1" = Some (VMetrics cm) /\
    cm_platforms cm = [Some "twitter"; Some "linkedin"] /\
    (views <$> obj_get (cm_metrics cm) "twitter") = Some (Some 25%float).
Proof.
  eexists _, _, _. split; [vm_compute; reflexivity|].
  split; [vm_compute; reflexivity|]. split; reflexivity.
Qed.

End TrackFacts.

Module Tracking.
Import JS Data Core Spec Terms MonadFacts StoreFacts TrackFacts.

(** C9. From a store whose entries under [metrics:...] are content metrics
    with duplicate-free [platforms] lists (the empty store is one), every
    sequence of [track] tasks runs to completion and leaves a store of
    the same kind, in which the entry of each tracked content lists each
    tracked platform, once.  Moreover a [track] for a platform the entry
    already lists leaves the [platforms] list as it is and updates the
    metrics record of that platform: the record it stores is stamped with
    the time of the clock, each of its counts is the one of the task or,
    when the task has none, the one of the record it replaces, and its
    engagement is the rate of these counts when the views are positive. *)
Theorem track_platforms_distinct (h : Host) (msgs : list Message)
    (s : Analytics.State) :
  Forall track_task msgs ->
  metrics_typed (Analytics.memory s) ->
  platforms_distinct (Analytics.memory s) ->
  (exists replies s',
     mapM (Analytics.handle h) msgs s = Ok (replies, s') /\
     metrics_typed (Analytics.memory s') /\
     platforms_distinct (Analytics.memory s') /\
     forall message input contentId platform,
       message ∈ msgs ->
       msg_payload message = TaskPayload "track" input ->
       in_contentId input = Some contentId ->
       in_platform input = Some platform ->
       exists cm,
         Memory_get (Analytics.memory s') ("metrics:" +:+ contentId)
           = Some (VMetrics cm) /\
         Some platform ∈ cm_platforms cm /\ NoDup (cm_platforms cm))
  /\
  (forall message input contentId platform cm,
     msg_payload message = TaskPayload "track" input ->
     in_contentId input = Some contentId ->
     in_platform input = Some platform ->
     Memory_get (Analytics.memory s) ("metrics:" +:+ contentId)
       = Some (VMetrics cm) ->
     Some platform ∈ cm_platforms cm ->
     exists reply s' cm' record,
       Analytics.handle h message s = Ok (reply, s') /\
       Memory_get (Analytics.memory s') ("metrics:" +:+ contentId)
         = Some (VMetrics cm') /\
       cm_platforms cm' = cm_platforms cm /\
       obj_get (cm_metrics cm') platform = Some record /\
       record_updated (obj_get (cm_metrics cm) platform) (in_metrics input)
         (toISOString h (now_ms h (Analytics.reads s))) record).
Proof.
  intros Hall Hty Hnd. split.
  - destruct (tracks_preserve h msgs s Hall Hty Hnd)
      as (replies & s' & Hrun & Hty' & Hnd' & _ & Hin).
    exists replies, s'. split; [exact Hrun|]. split; [exact Hty'|].
    split; [exact Hnd'|].
    intros message input cid p Hm Hp Hc Hpl.
    destruct (Hin message input cid p Hm Hp Hc Hpl) as (cm & Hg & Hq).
    exists cm. split; [exact Hg|]. split; [exact Hq|].
    apply Memory_get_Some in Hg as (e & He & _ & Hv).
    unfold platforms_distinct in Hnd'. rewrite Forall_forall in Hnd'. eauto.
  - intros message input cid p cm Hp Hc Hpl Hg Hq.
    destruct (track_Ok h message input cid p s Hc Hpl Hty)
      as (m & s' & cm0 & now & written & Hrun & _ & Hcm0 & Hmem).
    destruct Hcm0 as [[Hg0 ->]|(Hg0 & _)]; rewrite Hg0 in Hg; [|discriminate].
    injection Hg as ->.
    eexists m, s', _, _.
    split; [by rewrite (handle_track h message input s Hp)|].
    rewrite Hmem, Memory_get_set. split; [reflexivity|]. cbn.
    split; [by apply add_platform_listed|].
    split; [apply obj_get_set|]. apply updated_record.
Qed.

Lemma track_platforms_distinct_witness :
  exists replies s' cm record,
    mapM (Analytics.handle Demo.host) Demo.three_tracks Demo.analytics0
      = Ok (replies, s') /\
    platforms_distinct (Analytics.memory s') /\
    Memory_get (Analytics.memory s') "metrics:post1" = Some (VMetrics cm) /\
    cm_platforms cm = [Some "twitter"; Some "linkedin"] /\
    obj_get (cm_metrics cm) "twitter" = Some record /\
    views record = Some 25%float.
Proof.
  destruct (track_platforms_distinct Demo.host Demo.three_tracks Demo.analytics0)
    as [(replies & s' & Hrun & _ & Hnd & _) _].
  - repeat constructor; eexists _, _, _; repeat split; reflexivity.
  - constructor.
  - constructor.
  - vm_compute in Hrun. injection Hrun as <- <-.
    eexists _, _, _, _. split; [vm_compute; reflexivity|].
    split; [exact Hnd|]. split; [reflexivity|]. split; [reflexivity|].
    split; reflexivity.
Defined.

End Tracking.

(** ** Sorting and slicing *)

Module SortFacts.
Import JS Spec FloatFacts.

Section SortFacts.
Context {A : Type} (cmp : A -> A -> float) (R : A -> A -> Prop) (P : A -> Prop).
Hypothesis cmp_R :
  forall x y, P x -> P y -> if after cmp x y then R y x else R x y.

Lemma sort_insert_perm x l : sort_insert cmp x l ≡ₚ x :: l.
Proof.
  induction l as [|y l IH]; cbn [sort_insert]; [done|].
  destruct (after cmp x y); [|done].
  rewrite IH. apply Permutation_swap.
Qed.

Lemma sort_perm l : sort cmp l ≡ₚ l.
Proof.
  induction l as [|x l IH]; cbn [sort]; [done|].
  by rewrite sort_insert_perm, IH.
Qed.

Lemma sort_insert_HdRel x y l :
  R y x -> HdRel R y l -> HdRel R y (sort_insert cmp x l).
Proof.
  intros Hyx Hl. destruct l as [|z l]; cbn [sort_insert].
  - by constructor.
  - inversion_clear Hl. destruct (after cmp x z); by constructor.
Qed.

Lemma sort_insert_Sorted x l :
  P x -> Forall P l -> Sorted R l -> Sorted R (sort_insert cmp x l).
Proof.
  intros Hx HP Hl. induction Hl as [|y l Hl IH Hhd]; cbn [sort_insert].
  - repeat constructor.
  - apply Forall_cons in HP as [Hy HP].
    pose proof (cmp_R x y Hx Hy) as Hxy.
    destruct (after cmp x y).
    + constructor; [by apply IH|]. by apply sort_insert_HdRel.
    + constructor; [by constructor|]. by constructor.
Qed.

Lemma sort_Sorted l : Forall P l -> Sorted R (sort cmp l).
Proof.
  induction 1 as [|x l Hx Hl IH]; cbn [sort]; [constructor|].
  apply sort_insert_Sorted; [done| |done].
  by rewrite sort_perm.
Qed.
End SortFacts.





Lemma ToIntegerOrInfinity_5 : ToIntegerOrInfinity 5 = Finite 5.
Proof. vm_compute. reflexivity. Qed.




End SortFacts.

(** ** Ranking *)

Module RankFacts.
Import JS Data Core Spec MonadFacts StoreFacts SortFacts FloatFacts.




Lemma entries_metrics_typed l (s : Analytics.State) :
  Forall (fun e => is_Some (Analytics.as_metrics (value e))) l ->
  Analytics.entries_metrics l s = Ok (Analytics.metrics_of l, s).
Proof.
  unfold Analytics.entries_metrics, Analytics.metrics_of.
  induction 1 as [|e l [m Hm] Hl IH]; cbn; [done|].
  rewrite Hm. unfold bind, ret in *. cbn. by rewrite IH.
Qed.

Lemma search_typed m :
  metrics_typed m ->
  Forall (fun e => is_Some (Analytics.as_metrics (value e)))
         (Memory_search m "metrics:").
Proof.
  unfold metrics_typed, Memory_search. rewrite !Forall_forall.
  intros Hty e He. apply list_elem_of_In, filter_In in He as [He Hk].
  apply Hty; [by apply list_elem_of_In|exact Hk].
Qed.


Lemma handle_top_content h message input s :
  msg_payload message = TaskPayload "top-content" input ->
  Analytics.handle h message s = Analytics.topContent h message input s.
Proof.
  intros Hp. unfold Analytics.handle, Analytics.with_input. rewrite Hp. cbn.
  reflexivity.
Qed.

End RankFacts.

Module Ranking.
Import JS Data Core Spec MonadFacts StoreFacts SortFacts RankFacts FloatFacts.




End Ranking.

(** ** Objects as association lists *)

Module ObjFacts.
Import JS.

Lemma obj_set_keys {V} (o : list (string * V)) k v :
  forall k', k' ∈ (obj_set o k v).*1 <-> k' = k \/ k' ∈ o.*1.
Proof.
  induction o as [|[k0 v0] o IH]; intros k'; cbn.
  - rewrite list_elem_of_singleton, elem_of_nil. tauto.
  - destruct (String.eqb_spec k0 k) as [->|Hne]; cbn.
    + rewrite !elem_of_cons. tauto.
    + rewrite !elem_of_cons, IH. tauto.
Qed.

Lemma obj_set_NoDup {V} (o : list (string * V)) k v :
  NoDup o.*1 -> NoDup (obj_set o k v).*1.
Proof.
  induction o as [|[k0 v0] o IH]; intros Hnd; cbn.
  - apply NoDup_singleton.
  - cbn in Hnd. apply NoDup_cons in Hnd as [Hk0 Hnd].
    destruct (String.eqb_spec k0 k) as [->|Hne]; cbn.
    + by apply NoDup_cons.
    + apply NoDup_cons. split; [|by apply IH].
      rewrite obj_set_keys. intros [?|?]; done.
Qed.

Lemma obj_get_None {V} (o : list (string * V)) k :
  obj_get o k = None <-> k ∉ o.*1.
Proof.
  induction o as [|[k0 v0] o IH]; cbn.
  - split; [intros _; apply not_elem_of_nil|done].
  - destruct (String.eqb_spec k0 k) as [->|Hne].
    + split; [done|]. intros H. exfalso. apply H. by left.
    + rewrite IH, not_elem_of_cons. split; [by intros|by intros [_ ?]].
Qed.

Lemma obj_elem_get {V} (o : list (string * V)) k v :
  NoDup o.*1 -> (k, v) ∈ o -> obj_get o k = Some v.
Proof.
  induction o as [|[k0 v0] o IH]; intros Hnd Hin; [by apply elem_of_nil in Hin|].
  cbn in Hnd. apply NoDup_cons in Hnd as [Hk0 Hnd].
  apply elem_of_cons in Hin as [[= -> ->]|Hin]; cbn.
  - by rewrite String.eqb_refl.
  - destruct (String.eqb_spec k0 k) as [->|Hne]; [|by apply IH].
    exfalso. apply Hk0. apply list_elem_of_fmap. by exists (k, v).
Qed.

End ObjFacts.

(** ** The registry *)

Module TenantFacts.
Import JS Data Core Spec MonadFacts StoreFacts ObjFacts.

Lemma memory_set_Ok h tid k v a tg s mem :
  Tenant.memories s !! tid = Some mem ->
  exists s',
    Tenant.memory_set h tid k v a tg s = Ok (tt, s') /\
    Tenant.tenants s' = Tenant.tenants s /\
    Tenant.executors s' = Tenant.executors s /\
    Tenant.dataDir s' = Tenant.dataDir s /\
    is_Some (Tenant.memories s' !! tid).
Proof.
  intros Hm. unfold Tenant.memory_set. unfold bind at 1. unfold get at 1.
  rewrite Hm. eexists. split; [reflexivity|]. cbn.
  split; [done|]. split; [done|]. split; [done|].
  rewrite lookup_insert_eq. eauto.
Qed.

Lemma initTenantResources_Ok tenant s :
  Tenant.initTenantResources tenant s = Ok (tt, provisioned tenant s).
Proof. reflexivity. Qed.

Lemma register_Ok h tenant s :
  exists s',
    Tenant.register h tenant s = Ok (tenant, s') /\
    Tenant.tenants s' = obj_set (Tenant.tenants s) (id tenant) tenant /\
    Tenant.executors s' =
      <[id tenant := Tenant.executor_of (platforms tenant)]> (Tenant.executors s).
Proof.
  unfold Tenant.register.
  unfold bind at 1. cbn [modify].
  set (s1 := Tenant.with_tenants _ s).
  rewrite (bind_Ok _ _ _ _ _ (initTenantResources_Ok tenant s1)).
  unfold bind at 1. cbn [Tenant.saveTenants modify].
  set (s2 := Tenant.with_manifest _ _).
  assert (is_Some (Tenant.memories s2 !! id tenant)) as [m2 Hm2].
  { subst s2 s1. cbn. rewrite lookup_insert_eq. eauto. }
  destruct (memory_set_Ok h (id tenant) "brand_voice"
              (VString (voice (brand tenant))) "brand-manager" [Some "brand"] s2 m2 Hm2)
    as (s3 & Hr3 & Ht3 & He3 & Hd3 & [m3 Hm3]).
  rewrite (bind_Ok _ _ _ _ _ Hr3).
  destruct (memory_set_Ok h (id tenant) "brand_tone"
              (VString (tone (brand tenant))) "brand-manager" [Some "brand"] s3 m3 Hm3)
    as (s4 & Hr4 & Ht4 & He4 & Hd4 & [m4 Hm4]).
  rewrite (bind_Ok _ _ _ _ _ Hr4).
  destruct (memory_set_Ok h (id tenant) "brand_audience"
              (VString (audience (brand tenant))) "brand-manager" [Some "brand"] s4 m4 Hm4)
    as (s5 & Hr5 & Ht5 & He5 & Hd5 & [m5 Hm5]).
  rewrite (bind_Ok _ _ _ _ _ Hr5).
  destruct (memory_set_Ok h (id tenant) ("brand:" +:+ slug tenant)
              (VBrand (brand tenant)) "brand-manager" [Some "brand"] s5 m5 Hm5)
    as (s6 & Hr6 & Ht6 & He6 & Hd6 & _).
  rewrite (bind_Ok _ _ _ _ _ Hr6).
  exists s6. split; [reflexivity|].
  rewrite Ht6, Ht5, Ht4, Ht3, He6, He5, He4, He3. subst s2 s1. cbn. done.
Qed.

Lemma create_Ok h config cname s :
  pt_name config = Some cname ->
  exists tid created updated s',
    Tenant.create h config s
      = Ok (Tenant.new_tenant config cname tid created updated, s') /\
    Tenant.tenants s' =
      obj_set (Tenant.tenants s) tid
        (Tenant.new_tenant config cname tid created updated) /\
    Tenant.executors s' =
      <[tid := Tenant.executor_of (arr_or (pt_platforms config) [])]>
        (Tenant.executors s).
Proof.
  intros Hn. unfold Tenant.create. rewrite Hn.
  unfold bind at 1. cbn [tick]. unfold bind at 1. cbn [tick].
  unfold bind at 1. cbn [now_iso tick bind ret].
  match goal with
  | |- context [Tenant.register h (Tenant.new_tenant _ _ ?tid ?c ?u) ?s4] =>
      destruct (register_Ok h (Tenant.new_tenant config cname tid c u) s4)
        as (s' & Hr & Ht & He);
      exists tid, c, u, s'
  end.
  split; [exact Hr|]. split; [|exact He].
  rewrite Ht. reflexivity.
Qed.

Lemma slug_char_not_dash c : slug_char c = true -> Ascii.eqb c dash = false.
Proof.
  intros Hc. apply Ascii.eqb_neq. intros ->. vm_compute in Hc. discriminate.
Qed.

Lemma replace_runs_squeeze s :
  replace_runs false s = squeeze (dashed s) /\
  String dash (replace_runs true s) = squeeze (String dash (dashed s)).
Proof.
  induction s as [|c s [IH1 IH2]]; [done|].
  cbn [replace_runs dashed]. destruct (slug_char c) eqn:Hc.
  - pose proof (slug_char_not_dash c Hc) as Hd.
    cbn [squeeze starts_with_dash]. rewrite Hd. cbn. by rewrite IH1.
  - split.
    + by rewrite IH2.
    + rewrite IH2. cbn [squeeze starts_with_dash].
      rewrite Ascii.eqb_refl. cbn. reflexivity.
Qed.

Example slugify_example :
  Tenant.slugify "Hello,  World 42!" = "hello-world-42-".
Proof. reflexivity. Qed.

Lemma slugify_spec n : Tenant.slugify n = slug_spec n.
Proof. apply replace_runs_squeeze. Qed.

Lemma str_or_merged x d : merged_string x d (str_or x d).
Proof.
  unfold merged_string, str_or. split.
  - intros v -> Hv. apply String.eqb_neq in Hv. by rewrite Hv.
  - by intros [->| ->].
Qed.

Lemma arr_or_merged {A} (x : option (list A)) d : merged x d (arr_or x d).
Proof. unfold merged, arr_or. split; by intros; subst. Qed.

Lemma nullish_merged {A} (x : option A) d : merged x d (nullish x d).
Proof. unfold merged, nullish. split; by intros; subst. Qed.

Lemma slice_last_suffix {A} n (l : list A) : slice_last n l `suffix_of` l.
Proof. unfold slice_last. apply suffix_drop. Qed.

Lemma slice_last_length {A} n (l : list A) :
  length (slice_last n l) = n `min` length l.
Proof. unfold slice_last. rewrite length_drop. lia. Qed.

Lemma byAgent_agent m a : Forall (fun e => agent e = a) (Memory_byAgent m a).
Proof.
  unfold Memory_byAgent. apply Forall_forall. intros e He.
  apply list_elem_of_In, filter_In in He as [_ He]. by apply String.eqb_eq.
Qed.

Lemma brand_section_head t : exists r, Tenant.brand_section t = String "#" r.
Proof.
  unfold Tenant.brand_section.
  destruct (_ =? 0)%nat; destruct (_ =? 0)%nat; cbn; eauto.
Qed.

Lemma append_head c r s : String c r +:+ s = String c (r +:+ s).
Proof. reflexivity. Qed.

Lemma replay_credentials l : forall e,
  credentials (replay l e) = credentials e ++ l.
Proof.
  induction l as [|[k v] l IH]; intros e; cbn.
  - by rewrite app_nil_r.
  - rewrite IH. cbn. by rewrite <- app_assoc.
Qed.

(** A new executor given the credentials of the platforms [p] has been
    passed exactly their pairs, in the order of the platforms. *)
Lemma executor_of_credentials p :
  credentials (Tenant.executor_of p) = Tenant.credential_pairs p.
Proof. apply (replay_credentials _ Executor_new). Qed.

Lemma credential_pairs_elem (p : Platforms) pn c k v :
  (pn, c) ∈ p -> (k, v) ∈ c -> (k, v) ∈ Tenant.credential_pairs p.
Proof.
  intros Hp Hc. unfold Tenant.credential_pairs.
  apply list_elem_of_In, in_concat. exists c.
  split; [|by apply list_elem_of_In].
  apply in_map_iff. exists (pn, c). split; [done|by apply list_elem_of_In].
Qed.

Lemma obj_get_set_ne {V} (o : list (string * V)) k k' v :
  k <> k' -> obj_get (obj_set o k v) k' = obj_get o k'.
Proof.
  intros Hne. induction o as [|[k0 v0] o IH]; cbn.
  - apply String.eqb_neq in Hne. by rewrite Hne.
  - destruct (String.eqb k0 k) eqn:Hk; cbn.
    + apply String.eqb_eq in Hk as ->. apply String.eqb_neq in Hne.
      by rewrite Hne.
    + by rewrite IH.
Qed.

Lemma obj_get_elem {V} (o : list (string * V)) k v :
  obj_get o k = Some v -> (k, v) ∈ o.
Proof.
  induction o as [|[k0 v0] o IH]; cbn; [done|].
  destruct (String.eqb k0 k) eqn:Hk.
  - apply String.eqb_eq in Hk as ->. intros [= ->]. by left.
  - intros H. right. by apply IH.
Qed.






Lemma credential_pairs_inv (p : Platforms) k v :
  (k, v) ∈ Tenant.credential_pairs p -> exists pn c, (pn, c) ∈ p /\ (k, v) ∈ c.
Proof.
  intros H. apply list_elem_of_In, in_concat in H as (c & Hc & Hkv).
  apply in_map_iff in Hc as ([pn c'] & <- & Hp).
  exists pn, c'. split; by apply list_elem_of_In.
Qed.

(** The credentials a new executor of the platforms [p] holds are the
    credentials of the platforms. *)
Lemma executor_of_holds p k v :
  holds (Tenant.executor_of p) k v <-> credential_of p k v.
Proof.
  unfold holds, credential_of. rewrite executor_of_credentials. split.
  - apply credential_pairs_inv.
  - intros (pn & c & Hp & Hc). by apply (credential_pairs_elem p pn c).
Qed.


Lemma keyed_obj_set s s' tid t :
  keyed s -> id t = tid ->
  Tenant.tenants s' = obj_set (Tenant.tenants s) tid t ->
  keyed s'.
Proof.
  intros Hk Hid Ht tid' t' Hg. rewrite Ht in Hg.
  destruct (decide (tid = tid')) as [<-|Hne].
  - rewrite obj_get_set in Hg. by injection Hg as <-.
  - rewrite obj_get_set_ne in Hg by done. by apply Hk.
Qed.

Lemma create_keyed h config cname s t s' :
  keyed s -> pt_name config = Some cname ->
  Tenant.create h config s = Ok (t, s') -> keyed s'.
Proof.
  intros Hk Hn Hrun.
  destruct (create_Ok h config cname s Hn)
    as (tid & created & updated & s1 & Hrun1 & Ht & _).
  rewrite Hrun1 in Hrun. injection Hrun as <- <-.
  exact (keyed_obj_set s s1 tid
           (Tenant.new_tenant config cname tid created updated) Hk eq_refl Ht).
Qed.

Lemma update_keyed h tid updates s r s' :
  keyed s -> Tenant.update h tid updates s = Ok (r, s') -> keyed s'.
Proof.
  intros Hk. unfold Tenant.update. unfold bind at 1. unfold get at 1.
  destruct (obj_get (Tenant.tenants s) tid) as [tenant|] eqn:Ht.
  - pose proof (Hk tid tenant Ht) as Hid.
    destruct (pt_platforms updates) eqn:Hp; intros [= <- <-];
      (eapply (keyed_obj_set s _ tid); [exact Hk| |reflexivity]); exact Hid.
  - by intros [= <- <-].
Qed.

Lemma obj_get_delete {V} (o : list (string * V)) k : obj_get (obj_delete o k) k = None.
Proof.
  unfold obj_delete. induction o as [|[k0 v0] o IH]; cbn; [done|].
  destruct (String.eqb k0 k) eqn:Hk; cbn; [done|]. by rewrite Hk.
Qed.

Lemma obj_get_delete_ne {V} (o : list (string * V)) k k' :
  k <> k' -> obj_get (obj_delete o k) k' = obj_get o k'.
Proof.
  intros Hne. unfold obj_delete. induction o as [|[k0 v0] o IH]; cbn; [done|].
  destruct (String.eqb_spec k0 k) as [->|Hk]; cbn.
  - apply String.eqb_neq in Hne. by rewrite Hne.
  - by rewrite IH.
Qed.

Lemma delete_keyed tid s r s' :
  keyed s -> Tenant.delete tid s = Ok (r, s') -> keyed s'.
Proof.
  intros Hk. unfold Tenant.delete. unfold bind at 1. unfold get at 1.
  cbv beta zeta. intros H.
  assert (Tenant.tenants s' = obj_delete (Tenant.tenants s) tid) as Ht.
  { destruct (bool_decide _); by injection H as _ <-. }
  intros tid' t Hg. rewrite Ht in Hg.
  destruct (decide (tid = tid')) as [<-|Hne].
  - by rewrite obj_get_delete in Hg.
  - rewrite obj_get_delete_ne in Hg by done. by apply Hk.
Qed.

Lemma keyed_empty : keyed Demo.tenants0.
Proof. intros tid t H. discriminate H. Qed.

Lemma keyed_registry1 : keyed Demo.registry1.
Proof.
  intros tid t H.
  change (obj_get [("t1", Demo.tenant1)] tid = Some t) in H.
  cbn [obj_get] in H.
  destruct (String.eqb_spec "t1" tid) as [<-|]; [|discriminate].
  by injection H as <-.
Qed.

Lemma brand_section_fields t t' :
  name t = name t' -> brand t = brand t' ->
  Tenant.brand_section t = Tenant.brand_section t'.
Proof. unfold Tenant.brand_section. by intros -> ->. Qed.

End TenantFacts.

(** ** The text of the guidelines *)

Module GuidelineFacts.
Import JS Data Core Spec.

Lemma append_cons (x : ascii) (a b : string) : String x a +:+ b = String x (a +:+ b).
Proof. reflexivity. Qed.

Lemma append_nil (a : string) : "" +:+ a = a.
Proof. reflexivity. Qed.

Lemma append_assoc (a b c : string) : (a +:+ b) +:+ c = a +:+ b +:+ c.
Proof.
  induction a as [|x a IH]; [done|]. rewrite !append_cons. by rewrite IH.
Qed.

Lemma append_empty (a : string) : a +:+ "" = a.
Proof. induction a as [|x a IH]; [done|]. rewrite append_cons. by rewrite IH. Qed.

Lemma text_of_app (l r : list string) : text_of (l ++ r) = text_of l +:+ text_of r.
Proof.
  induction l as [|x l IH]; cbn [text_of app]; [done|].
  by rewrite IH, !append_assoc.
Qed.

Lemma join_comma_separated (l : list string) : join ", " l = comma_separated l.
Proof.
  induction l as [|x l IH]; [done|]. destruct l as [|y l]; [done|].
  change (join ", " (x :: y :: l)) with (x +:+ ", " +:+ join ", " (y :: l)).
  by rewrite IH.
Qed.

Lemma show_value_rendered (v : MemValue) : show_value v = rendered v.
Proof. by destruct v. Qed.

Lemma fold_append (l : list string) : forall g,
  fold_left String.append l g = g +:+ fold_right String.append "" l.
Proof.
  induction l as [|x l IH]; intros g; cbn [fold_left fold_right].
  - by rewrite append_empty.
  - by rewrite IH, append_assoc.
Qed.

Lemma learned_lines (shown : list MemoryEntry) :
  fold_right String.append "" (map Tenant.learning_line shown)
  = text_of (map (fun e => "- " +:+ key e +:+ ": " +:+ rendered (value e)) shown).
Proof.
  induction shown as [|e l IH]; cbn [map fold_right text_of]; [done|].
  rewrite IH. unfold Tenant.learning_line.
  by rewrite show_value_rendered, !append_assoc.
Qed.

(** The text [getBrandGuidelines] builds for the tenant and the entries it
    shows is the text of the lines of the document. *)
Lemma guidelines_text (t : TenantConfig) (shown : list MemoryEntry) :
  match shown with
  | [] => Tenant.brand_section t
  | _ :: _ => Tenant.brand_section t +:+ Tenant.learned_section shown
  end = text_of (guideline_lines t shown).
Proof.
  unfold guideline_lines. rewrite !text_of_app.
  assert (Tenant.brand_section t
          = text_of [ "## Brand Writing Guidelines — " +:+ name t; "";
                      "**Voice:** " +:+ voice (brand t);
                      "**Tone:** " +:+ tone (brand t);
                      "**Target Audience:** " +:+ audience (brand t);
                      "**Industry:** " +:+ industry (brand t) ]
            +:+ text_of match keywords (brand t) with
                        | [] => []
                        | kw => ["**Include keywords:** " +:+ comma_separated kw]
                        end
            +:+ text_of match avoidWords (brand t) with
                        | [] => []
                        | aw => ["**NEVER use:** " +:+ comma_separated aw]
                        end) as ->.
  { unfold Tenant.brand_section. cbv zeta. rewrite !join_comma_separated.
    destruct (keywords (brand t)) as [|k kw], (avoidWords (brand t)) as [|a aw];
      cbn [length Nat.eqb text_of]; rewrite ?append_assoc, ?append_empty.
    all: reflexivity. }
  destruct shown as [|e l].
  - change (text_of []) with "". by rewrite append_empty.
  - rewrite !append_assoc. do 3 f_equal.
    unfold Tenant.learned_section. rewrite fold_append, learned_lines.
    set (lines := map _ (e :: l)).
    change (text_of ("" :: "**Learned preferences:**" :: lines))
      with ("" +:+ nl +:+ "**Learned preferences:**" +:+ nl +:+ text_of lines).
    by rewrite !append_assoc.
Qed.

Lemma StronglySorted_app {A} (R : A -> A -> Prop) (l r : list A) :
  StronglySorted R (l ++ r) -> forall a b, a ∈ l -> b ∈ r -> R a b.
Proof.
  induction l as [|x l IH]; intros Hs a b Ha Hb; [by apply elem_of_nil in Ha|].
  cbn in Hs. apply StronglySorted_inv in Hs as [Hs Hx].
  apply elem_of_cons in Ha as [->|Ha]; [|by apply IH].
  rewrite Forall_forall in Hx. apply Hx. apply elem_of_app. by right.
Qed.

End GuidelineFacts.

Module Registry.
Import JS Data Core Spec MonadFacts StoreFacts ObjFacts TenantFacts GuidelineFacts.

(** C3. [create({name: "Acme"})] with no other field supplied yields a
    tenant whose slug is ["acme"], whose [brand.voice] is ["professional
    yet approachable"] and whose [settings.platforms] is [["local-file"]];
    and whenever no slug is supplied, the slug is the name lower-cased
    with every non-alphanumeric run replaced by a single ["-"]. *)
Theorem create_acme (h : Host) :
  (forall s, exists t s',
     Tenant.create h (Demo.named "Acme") s = Ok (t, s') /\
     slug t = "acme" /\
     voice (brand t) = "professional yet approachable" /\
     settings_platforms (settings t) = ["local-file"]) /\
  (forall config cname s,
     pt_name config = Some cname ->
     pt_slug config = None ->
     exists t s',
       Tenant.create h config s = Ok (t, s') /\
       slug t = slug_spec cname).
Proof.
  split.
  - intros s.
    destruct (create_Ok h (Demo.named "Acme") "Acme" s eq_refl)
      as (tid & created & updated & s' & Hrun & _).
    eexists _, s'. split; [exact Hrun|]. repeat split.
  - intros config cname s Hn Hs.
    destruct (create_Ok h config cname s Hn)
      as (tid & created & updated & s' & Hrun & _).
    eexists _, s'. split; [exact Hrun|]. cbn. rewrite Hs. apply slugify_spec.
Qed.

Lemma create_acme_witness :
  exists t s',
    Tenant.create Demo.host (Demo.named "Hello,  World 42!") Demo.tenants0
      = Ok (t, s') /\
    slug t = "hello-world-42-".
Proof.
  destruct (proj2 (create_acme Demo.host) (Demo.named "Hello,  World 42!")
              "Hello,  World 42!" Demo.tenants0 eq_refl eq_refl)
    as (t & s' & Hrun & Hslug).
  exists t, s'. split; [exact Hrun|]. rewrite Hslug. reflexivity.
Defined.

(** C4, as stated, fails for a supplied empty string: the tenant created
    from a brand whose [voice] is [""] is read back with the default
    voice. *)
Lemma empty_voice_not_kept :
  exists t s' t',
    (pt_brand Demo.empty_voice ≫= pb_voice) = Some "" /\
    Tenant.create Demo.host Demo.empty_voice Demo.tenants0 = Ok (t, s') /\
    Tenant.get s' (id t) = Some t' /\
    voice (brand t') = "professional yet approachable" /\
    voice (brand t') <> "".
Proof.
  eexists _, _, _. split; [reflexivity|]. split; [vm_compute; reflexivity|].
  split; [vm_compute; reflexivity|]. split; [reflexivity|].
  vm_compute. discriminate.
Qed.

(** C4, as amended. For every partial configuration carrying a name,
    [create(config)] returns a tenant [t], and [get(t.id)] then returns
    [t], whose [brand] and [settings] are the supplied values merged over
    the defaults: a supplied [voice], [tone], [audience], [industry] or
    [defaultType] is kept unless it is the empty string, which counts as
    unset; a supplied [keywords], [avoidWords], [autoPublish] or
    [settings.platforms] is kept; every unset field takes its default;
    [defaultModel] is the supplied one, if any. *)
Theorem create_then_get (h : Host) (config : PartialTenantConfig)
    (cname : string) (s : Tenant.State) :
  pt_name config = Some cname ->
  exists t s',
    Tenant.create h config s = Ok (t, s') /\
    Tenant.get s' (id t) = Some t /\
    merged_string (pt_brand config ≫= pb_voice)
      "professional yet approachable" (voice (brand t)) /\
    merged_string (pt_brand config ≫= pb_tone)
      "authoritative but friendly" (tone (brand t)) /\
    merged_string (pt_brand config ≫= pb_audience) "general" (audience (brand t)) /\
    merged_string (pt_brand config ≫= pb_industry) "technology" (industry (brand t)) /\
    merged (pt_brand config ≫= pb_keywords) [] (keywords (brand t)) /\
    merged (pt_brand config ≫= pb_avoidWords) [] (avoidWords (brand t)) /\
    merged_string (pt_settings config ≫= pst_defaultType) "blog+social"
      (defaultType (settings t)) /\
    defaultModel (settings t) = pt_settings config ≫= pst_defaultModel /\
    merged (pt_settings config ≫= pst_autoPublish) false (autoPublish (settings t)) /\
    merged (pt_settings config ≫= pst_platforms) ["local-file"]
      (settings_platforms (settings t)).
Proof.
  intros Hn.
  destruct (create_Ok h config cname s Hn)
    as (tid & created & updated & s' & Hrun & Ht & _).
  eexists _, s'. split; [exact Hrun|]. split.
  { unfold Tenant.get. rewrite Ht. apply obj_get_set. }
  cbn. repeat split;
    solve [ apply str_or_merged | apply arr_or_merged | apply nullish_merged ].
Qed.

Lemma create_then_get_witness :
  exists t s',
    Tenant.create Demo.host Demo.empty_voice Demo.tenants0 = Ok (t, s') /\
    Tenant.get s' (id t) = Some t /\
    tone (brand t) = "dry".
Proof.
  destruct (create_then_get Demo.host Demo.empty_voice "Acme" Demo.tenants0 eq_refl)
    as (t & s' & Hrun & Hget & _ & [Htone _] & _).
  exists t, s'. split; [exact Hrun|]. split; [exact Hget|].
  apply Htone; [reflexivity | discriminate].
Defined.

(** C6, as stated, fails for a store in which an entry is written again
    after others have been added: the entry keeps its place in the
    sequence of the store.  Of the eleven entries of the brand-manager in
    [Demo.learned_store] the document shows the last ten of the sequence
    and leaves out [pref01], the one written last. *)
Lemma recent_learning_omitted :
  let this := Demo.registry_learned Demo.learned_store in
  exists latest,
    latest ∈ learnings_of this "t1" /\
    key latest = "pref01" /\
    entry_updatedAt latest = "T+1700000000012" /\
    length (learnings_of this "t1") = 11 /\
    Forall (fun e => key e <> "pref01" ->
                     String.ltb (entry_updatedAt e) (entry_updatedAt latest) = true)
           (learnings_of this "t1") /\
    Tenant.getBrandGuidelines this "t1" =
      text_of
        [ "## Brand Writing Guidelines — Acme"; "";
          "**Voice:** professional yet approachable";
          "**Tone:** authoritative but friendly";
          "**Target Audience:** general";
          "**Industry:** technology";
          "";
          "**Learned preferences:**";
          "- pref02: no jargon";
          "- pref03: cite sources";
          "- pref04: active voice";
          "- pref05: one idea per paragraph";
          "- pref06: use examples";
          "- pref07: avoid cliches";
          "- pref08: plain headings";
          "- pref09: metric units";
          "- pref10: no exclamation marks";
          "- pref11: British spelling" ].
Proof.
  cbv zeta. eexists. split; [left|].
  split; [reflexivity|]. split; [reflexivity|]. split; [reflexivity|].
  split; [|vm_compute; reflexivity].
  repeat constructor; first [ intros _; reflexivity | intros H; by destruct H ].
Qed.

(** C6, as amended. [getBrandGuidelines(id)] returns the empty string when
    [id] is not a known tenant; for a known tenant it returns the document
    whose lines are the heading with the tenant's name, a blank line, the
    voice, tone, audience and industry of its brand, its keywords and its
    words to avoid when it has any, and, when the tenant's store has
    entries attributed to the brand-manager agent, a blank line, a heading
    and one line [- key: value] for each of the last 10 (or fewer, when
    there are fewer) of the sequence of these entries, in the order of the
    sequence.  The entries shown are the most recent ones whenever the
    sequence is in the order of the last writes. *)
Theorem brand_guidelines_document (this : Tenant.State) (tid : string) :
  (Tenant.get this tid = None -> Tenant.getBrandGuidelines this tid = "") /\
  (forall t,
     Tenant.get this tid = Some t ->
     exists omitted shown,
       learnings_of this tid = omitted ++ shown /\
       length shown = 10 `min` length (learnings_of this tid) /\
       Forall (fun e => agent e = "brand-manager") shown /\
       Tenant.getBrandGuidelines this tid = text_of (guideline_lines t shown) /\
       (StronglySorted
          (fun a b => String.leb (entry_updatedAt a) (entry_updatedAt b) = true)
          (learnings_of this tid) ->
        forall a b, a ∈ omitted -> b ∈ shown ->
                    String.leb (entry_updatedAt a) (entry_updatedAt b) = true)).
Proof.
  unfold Tenant.get, Tenant.getBrandGuidelines, learnings_of, Tenant.getMemory.
  split; [by intros ->|]. intros t ->.
  destruct (Tenant.memories this !! tid) as [mem|].
  - set (l := Memory_byAgent mem "brand-manager").
    exists (take (length l - 10) l), (slice_last 10 l).
    assert (l = take (length l - 10) l ++ slice_last 10 l) as Hl.
    { unfold slice_last. by rewrite take_drop. }
    split; [exact Hl|]. split; [apply slice_last_length|].
    split; [apply Forall_drop, byAgent_agent|]. split.
    + rewrite <- guidelines_text.
      pose proof (slice_last_length 10 l) as Hlen.
      destruct l as [|e l']; [done|].
      change (length (e :: l') =? 0)%nat with false. cbv iota.
      destruct (slice_last 10 (e :: l')) as [|e' l'']; [cbn in Hlen; lia|done].
    + intros Hs. rewrite Hl in Hs. by apply StronglySorted_app.
  - exists [], []. split; [done|]. split; [done|]. split; [done|].
    split; [by rewrite <- guidelines_text|].
    intros _ a b Ha. by apply elem_of_nil in Ha.
Qed.

Lemma brand_guidelines_document_witness :
  Tenant.getBrandGuidelines Demo.tenants0 "nobody" = "" /\
  exists omitted shown,
    learnings_of (Demo.registry_learned Demo.learned_store) "t1" = omitted ++ shown /\
    length shown = 10 /\
    Tenant.getBrandGuidelines (Demo.registry_learned Demo.learned_store) "t1"
    = text_of (guideline_lines Demo.tenant1 shown).
Proof.
  split.
  - apply (brand_guidelines_document Demo.tenants0 "nobody"). reflexivity.
  - destruct (proj2 (brand_guidelines_document
                       (Demo.registry_learned Demo.learned_store) "t1")
                Demo.tenant1 eq_refl) as (omitted & shown & Hl & Hlen & _ & Hdoc & _).
    exists omitted, shown. split; [exact Hl|]. split; [exact Hlen|exact Hdoc].
Defined.



End Registry.

(** ** The brand manager *)

Module BrandFacts.
Import JS Data Core Spec MonadFacts StoreFacts.

Lemma includes_elem l x : includes l x = true <-> x ∈ l.
Proof.
  unfold includes. rewrite existsb_exists. split.
  - intros (y & Hy & Heq). apply String.eqb_eq in Heq as ->. by apply list_elem_of_In.
  - intros Hx. exists x. split; [by apply list_elem_of_In|apply String.eqb_refl].
Qed.

Lemma set_add_all_NoDup l : forall seen, NoDup seen -> NoDup (set_add_all seen l).
Proof.
  induction l as [|x l IH]; intros seen Hnd; cbn; [done|].
  destruct (includes seen x) eqn:Hx; [by apply IH|].
  apply IH, NoDup_app. split; [done|]. split; [|apply NoDup_singleton].
  intros y Hy Hy'. apply list_elem_of_singleton in Hy' as ->.
  apply includes_elem in Hy. congruence.
Qed.

Lemma set_add_all_elem l : forall seen x,
  x ∈ set_add_all seen l <-> x ∈ seen \/ x ∈ l.
Proof.
  induction l as [|y l IH]; intros seen x; cbn.
  - rewrite elem_of_nil. tauto.
  - destruct (includes seen y) eqn:Hy; rewrite IH, elem_of_cons.
    + apply includes_elem in Hy. split; [tauto|].
      intros [?|[->|?]]; tauto.
    + rewrite elem_of_app, list_elem_of_singleton. tauto.
Qed.

Lemma set_add_all_prefix l : forall seen, seen `prefix_of` set_add_all seen l.
Proof.
  induction l as [|y l IH]; intros seen; cbn; [done|].
  destruct (includes seen y); [apply IH|].
  etrans; [|apply IH]. by apply prefix_app_r.
Qed.

Lemma set_of_NoDup l : NoDup (set_of l).
Proof. apply set_add_all_NoDup. constructor. Qed.

Lemma set_of_elem l x : x ∈ set_of l <-> x ∈ l.
Proof. unfold set_of. rewrite set_add_all_elem, elem_of_nil. tauto. Qed.

Lemma merge_profile_keywords existing input :
  NoDup (bp_keywords (BrandManager.merge_profile existing input)) /\
  forall x, x ∈ bp_keywords (BrandManager.merge_profile existing input) <->
            x ∈ bp_keywords existing \/ x ∈ arr_or (in_keywords input) [].
Proof.
  cbn. split; [apply set_of_NoDup|]. intros x.
  by rewrite set_of_elem, elem_of_app.
Qed.

Lemma merge_profile_avoidWords existing input :
  NoDup (bp_avoidWords (BrandManager.merge_profile existing input)) /\
  forall x, x ∈ bp_avoidWords (BrandManager.merge_profile existing input) <->
            x ∈ bp_avoidWords existing \/ x ∈ arr_or (in_avoidWords input) [].
Proof.
  cbn. split; [apply set_of_NoDup|]. intros x.
  by rewrite set_of_elem, elem_of_app.
Qed.

Lemma merge_profile_examples existing input :
  length (bp_examples (BrandManager.merge_profile existing input)) <= 10 /\
  bp_examples (BrandManager.merge_profile existing input)
    `suffix_of` bp_examples existing ++ arr_or (in_examples input) [].
Proof.
  cbn. unfold slice_last. split; [rewrite length_drop; lia|apply suffix_drop].
Qed.

Lemma merge_profile_learnings existing input :
  bp_learnings (BrandManager.merge_profile existing input)
  = bp_learnings existing ++ arr_or (in_learnings input) [].
Proof. reflexivity. Qed.

Lemma kept_length (pushed : list string) :
  length (if (20 <? length pushed)%nat then slice_last 20 pushed else pushed) <= 20.
Proof.
  destruct (Nat.ltb_spec 20 (length pushed)); [|lia].
  unfold slice_last. rewrite length_drop. lia.
Qed.

Lemma brand_memory_set_get h k v tg s :
  exists s',
    BrandManager.memory_set h k v tg s = Ok (tt, s') /\
    (forall k', Memory_get (BrandManager.memory s') k' =
                if decide (k = k') then Some v else Memory_get (BrandManager.memory s) k').
Proof.
  eexists. split; [reflexivity|]. intros k'. cbn.
  destruct (decide (k = k')) as [<-|Hne].
  - apply Memory_get_set.
  - by apply Memory_get_set_ne.
Qed.

Lemma feedback_key_not_brand x : "feedback:" +:+ x <> "brand:default".
Proof. discriminate. Qed.

Lemma learnFromFeedback_caps h message input s reply s' :
  BrandManager.learnFromFeedback h message input s = Ok (reply, s') ->
  exists profile,
    Memory_get (BrandManager.memory s') "brand:default" = Some (VProfile profile) /\
    length (bp_learnings profile) <= 20.
Proof.
  unfold BrandManager.learnFromFeedback. cbv beta zeta. intros H.
  apply bind_Ok_inv in H as (response & s1 & _ & H).
  apply bind_Ok_inv in H as (pf & s2 & _ & H).
  apply bind_Ok_inv in H as (applies_to & s3 & _ & H).
  apply bind_Ok_inv in H as (learned & s4 & _ & H).
  apply bind_Ok_inv in H as (? & s5 & _ & H).
  apply bind_Ok_inv in H as (? & s6 & H6 & H).
  apply bind_Ok_inv in H as (t & s7 & H7 & H).
  apply bind_Ok_inv in H as (? & s8 & H8 & H).
  rewrite createMessage_Ok in H. injection H as _ <-.
  destruct (brand_memory_set_get h "brand:default"
              (VProfile (BrandManager.with_learnings pf.1
                 (if (20 <? length (bp_learnings pf.1 ++
                        ["[" +:+ BrandManager.show_json_opt h applies_to +:+ "] "
                         +:+ BrandManager.show_json_opt h learned]))%nat
                  then slice_last 20 (bp_learnings pf.1 ++
                        ["[" +:+ BrandManager.show_json_opt h applies_to +:+ "] "
                         +:+ BrandManager.show_json_opt h learned])
                  else bp_learnings pf.1 ++
                        ["[" +:+ BrandManager.show_json_opt h applies_to +:+ "] "
                         +:+ BrandManager.show_json_opt h learned])))
              [Some "brand"; Some "learning"] s5) as (s6' & E6 & G6).
  rewrite E6 in H6. injection H6 as _ ->.
  injection H7 as <- <-.
  match type of H8 with
  | BrandManager.memory_set h ?k ?v ?tg ?st = _ =>
      destruct (brand_memory_set_get h k v tg st) as (s8' & E8 & G8)
  end.
  rewrite E8 in H8. injection H8 as _ ->.
  eexists. split.
  - cbn [BrandManager.memory set_ticks BrandManager.State_ticking].
    rewrite G8. rewrite decide_False by apply feedback_key_not_brand.
    cbn [BrandManager.memory set_ticks BrandManager.State_ticking].
    rewrite G6. by rewrite decide_True.
  - cbn. apply kept_length.
Qed.

Example match_braces_example :
  match_braces "Sure: {a: {b}} and } more" = Some "{a: {b}} and }" /\
  match_braces "} before {" = None.
Proof. split; reflexivity. Qed.

Lemma extract_json_unparsable h response no_match on_throw :
  unparsable h response ->
  BrandManager.extract_json h response no_match on_throw
  = match match_braces response with None => no_match | Some _ => on_throw end.
Proof.
  unfold BrandManager.extract_json. intros [->|(text & -> & ->)]; reflexivity.
Qed.

Lemma getProfile_Ok n s :
  exists pf, BrandManager.getProfile n s = Ok (pf, s).
Proof.
  unfold BrandManager.getProfile. unfold bind, get.
  destruct (Memory_get _ _) as [v|]; [destruct (truthy v)|]; cbn; eauto.
Qed.

Lemma handle_learn h message input s :
  msg_payload message = TaskPayload "learn-from-feedback" input ->
  BrandManager.handle h message s = BrandManager.learnFromFeedback h message input s.
Proof.
  intros Hp. unfold BrandManager.handle, BrandManager.with_input. rewrite Hp.
  reflexivity.
Qed.

Lemma handle_analyze h message input s :
  msg_payload message = TaskPayload "analyze-sample" input ->
  BrandManager.handle h message s = BrandManager.analyzeSample h message input s.
Proof.
  intros Hp. unfold BrandManager.handle, BrandManager.with_input. rewrite Hp.
  reflexivity.
Qed.

Lemma learn_fallback h message input s :
  unparsable h (llm_chat h (BrandManager.reads s) (BrandManager.learn_messages h input)) ->
  exists reply s',
    BrandManager.learnFromFeedback h message input s = Ok (reply, s') /\
    msg_kind reply = result /\
    msg_payload reply =
      ResultPayload true (OutLearned (JStr <$> in_feedback input) (Some (JStr "all"))) /\
    msg_correlationId reply = Some (msg_id message).
Proof.
  intros Hu. unfold BrandManager.learnFromFeedback. cbv beta zeta.
  unfold bind at 1. unfold BrandManager.chat at 1. cbn [bind tick ret ticks BrandManager.State_ticking].
  rewrite (extract_json_unparsable h _ _ _ Hu).
  match goal with
  | |- context [match match_braces ?r with None => ?a | Some _ => ?a end] =>
      replace (match match_braces r with None => a | Some _ => a end) with a
        by (by destruct (match_braces r))
  end.
  destruct (getProfile_Ok "default" (set_ticks (S (BrandManager.reads s)) s))
    as ([profile shared] & Hpf).
  rewrite (bind_Ok _ _ _ _ _ Hpf).
  destruct (in_feedback input) as [f|]; destruct shared;
    (eexists _, _; split; [reflexivity|]; repeat split).
Qed.

Lemma analyze_outcome h message input s :
  exists s',
    BrandManager.analyzeSample h message input s =
      Ok ({| msg_from := "brand-manager"; msg_to := msg_from message;
             msg_kind := result;
             msg_payload :=
               ResultPayload true
                 (OutAnalysis
                    (BrandManager.extract_json h
                       (llm_chat h (BrandManager.reads s)
                          (BrandManager.analyze_messages input))
                       (JObj [("error", JStr "Could not parse")])
                       (JObj [("raw",
                               JStr (llm_chat h (BrandManager.reads s)
                                       (BrandManager.analyze_messages input)))])));
             msg_id := fresh_id h (S (BrandManager.reads s));
             msg_correlationId := Some (msg_id message) |}, s').
Proof.
  eexists. cbv [BrandManager.analyzeSample BrandManager.chat bind tick ret createMessage].
  reflexivity.
Qed.

End BrandFacts.

Module Brand.
Import JS Data Core Spec MonadFacts StoreFacts BrandFacts.

(** C5. [set-brand] union-deduplicates [keywords] and [avoidWords]
    ([merge_profile_keywords], [merge_profile_avoidWords]) and keeps the
    last 10 [examples] ([merge_profile_examples]), but it appends
    [learnings] without keeping the last 20 as [learnFromFeedback] does
    ([learnFromFeedback_caps]): a [set-brand] task carrying twenty-one
    learnings stores and returns a profile of twenty-one learnings. *)
Theorem set_brand_learnings_uncapped :
  exists reply s' profile,
    BrandManager.handle Demo.host
      (Demo.task_message "m1" "set-brand" (Demo.learnings_input Demo.twenty_one))
      Demo.brand0
    = Ok (reply, s') /\
    msg_payload reply = ResultPayload true (OutSaved profile) /\
    Memory_get (BrandManager.memory s') "brand:default" = Some (VProfile profile) /\
    length (bp_learnings profile) = 21.
Proof.
  eexists _, _, _. split; [vm_compute; reflexivity|].
  split; [reflexivity|]. split; [vm_compute; reflexivity|]. reflexivity.
Qed.


(** C8, as stated, fails for [analyze-sample] when the answer has no
    braces at all: the analysis is then the fixed object
    [{ error: "Could not parse" }], not a wrapper of the raw text. *)
Lemma analysis_without_braces :
  exists reply s' analysis,
    match_braces (llm_chat Demo.host 0 (BrandManager.analyze_messages
                                           (Demo.sample_input "Hello world")))
      = None /\
    BrandManager.handle Demo.host
      (Demo.task_message "m1" "analyze-sample" (Demo.sample_input "Hello world"))
      Demo.brand0
    = Ok (reply, s') /\
    msg_payload reply = ResultPayload true (OutAnalysis analysis) /\
    analysis = JObj [("error", JStr "Could not parse")] /\
    analysis <> JObj [("raw", JStr "I could not find any rule.")].
Proof.
  eexists _, _, _. split; [vm_compute; reflexivity|].
  split; [vm_compute; reflexivity|]. split; [reflexivity|].
  split; [reflexivity|]. discriminate.
Qed.

(** C8, as amended. When the answer of the language model contains no
    parseable JSON object, [handle] returns a [result] envelope with
    [success = true], correlated to the task: for [learn-from-feedback]
    the learning is the feedback text itself (and applies to ["all"]); for
    [analyze-sample] the analysis is [{ raw: <the answer> }] when the
    answer has braces that fail to parse, and the fixed object
    [{ error: "Could not parse" }] when it has no braces. *)
Theorem unparsable_reply_degrades (h : Host) (message : Message)
    (input : TaskInput) (s : BrandManager.State) :
  (msg_payload message = TaskPayload "learn-from-feedback" input ->
   unparsable h (llm_chat h (BrandManager.reads s)
                   (BrandManager.learn_messages h input)) ->
   exists reply s',
     BrandManager.handle h message s = Ok (reply, s') /\
     msg_kind reply = result /\
     msg_payload reply =
       ResultPayload true
         (OutLearned (JStr <$> in_feedback input) (Some (JStr "all"))) /\
     msg_correlationId reply = Some (msg_id message))
  /\
  (msg_payload message = TaskPayload "analyze-sample" input ->
   forall response,
     response = llm_chat h (BrandManager.reads s)
                  (BrandManager.analyze_messages input) ->
     (match_braces response = None ->
      exists reply s',
        BrandManager.handle h message s = Ok (reply, s') /\
        msg_kind reply = result /\
        msg_payload reply =
          ResultPayload true
            (OutAnalysis (JObj [("error", JStr "Could not parse")])) /\
        msg_correlationId reply = Some (msg_id message))
     /\
     (forall text,
        match_braces response = Some text ->
        JSON_parse h text = None ->
        exists reply s',
          BrandManager.handle h message s = Ok (reply, s') /\
          msg_kind reply = result /\
          msg_payload reply =
            ResultPayload true (OutAnalysis (JObj [("raw", JStr response)])) /\
          msg_correlationId reply = Some (msg_id message))).
Proof.
  split.
  - intros Hp Hu. rewrite (handle_learn h message input s Hp).
    by apply learn_fallback.
  - intros Hp response ->. rewrite (handle_analyze h message input s Hp).
    destruct (analyze_outcome h message input s) as (s' & ->).
    unfold BrandManager.extract_json. split.
    + intros ->. eexists _, _. split; [reflexivity|]. repeat split.
    + intros text -> ->. eexists _, _. split; [reflexivity|]. repeat split.
Qed.

Lemma unparsable_reply_degrades_witness :
  exists reply s',
    BrandManager.handle Demo.host
      (Demo.task_message "m1" "learn-from-feedback" (Demo.feedback_input "Too formal"))
      Demo.brand0
    = Ok (reply, s') /\
    msg_payload reply =
      ResultPayload true
        (OutLearned (Some (JStr "Too formal")) (Some (JStr "all"))).
Proof.
  destruct (proj1 (unparsable_reply_degrades Demo.host
                     (Demo.task_message "m1" "learn-from-feedback"
                        (Demo.feedback_input "Too formal"))
                     (Demo.feedback_input "Too formal") Demo.brand0) eq_refl)
    as (reply & s' & Hrun & _ & Hp & _).
  - left. vm_compute. reflexivity.
  - exists reply, s'. split; [exact Hrun | exact Hp].
Defined.

End Brand.

(** ** The handlers return *)

Module Returns.
Import JS Data Core Spec MonadFacts StoreFacts TrackFacts RankFacts BrandFacts.

Lemma Analytics_handle_returns h message action input s :
  msg_payload message = TaskPayload action input ->
  metrics_typed (Analytics.memory s) ->
  (action = "report" ->
   time_in_range (now_ms h (Analytics.reads s)
                  - num_or (in_days input) 30 * 86400000) = true) ->
  exists reply s', Analytics.handle h message s = Ok (reply, s').
Proof.
  intros Hp Hty Hin. unfold Analytics.handle, Analytics.with_input. rewrite Hp.
  cbn [Analytics.payload_action Analytics.payload_input].
  repeat case_bool_decide; simplify_eq.
  - destruct (track_returns h message input s Hty) as (m & s' & Hrun & _). eauto.
  - unfold Analytics.report. cbv beta zeta.
    unfold bind at 1. unfold tick at 1. unfold bind at 1. unfold date_iso at 1.
    cbn [ticks Analytics.State_ticking]. rewrite (Hin eq_refl).
    eexists _, _. reflexivity.
  - unfold Analytics.getInsights. unfold bind at 1. unfold get at 1.
    destruct (_ =? 0)%nat; [eexists _, _; reflexivity|].
    rewrite (bind_Ok _ _ s s _ (entries_metrics_typed _ s (search_typed _ Hty))).
    eexists _, _. reflexivity.
  - unfold Analytics.topContent. unfold bind at 1. unfold get at 1.
    rewrite (bind_Ok _ _ s s _ (entries_metrics_typed _ s (search_typed _ Hty))).
    eexists _, _. reflexivity.
  - eexists _, _. reflexivity.
Qed.

Lemma setBrand_Ok h message input s :
  exists reply s', BrandManager.setBrand h message input s = Ok (reply, s').
Proof.
  unfold BrandManager.setBrand. cbv beta zeta.
  destruct (getProfile_Ok (str_or (in_name input) (str_or (in_brandName input) "default")) s)
    as (pf & Hpf).
  rewrite (bind_Ok _ _ _ _ _ Hpf). eexists _, _. reflexivity.
Qed.

Lemma getBrandContext_Ok h message input s :
  exists reply s', BrandManager.getBrandContext h message input s = Ok (reply, s').
Proof.
  unfold BrandManager.getBrandContext. cbv beta zeta.
  destruct (getProfile_Ok (str_or (in_brandName input) "default") s) as (pf & Hpf).
  rewrite (bind_Ok _ _ _ _ _ Hpf). eexists _, _. reflexivity.
Qed.

Lemma learnFromFeedback_Ok h message input s :
  (forall text, JSON_parse h text <> Some JNull) ->
  exists reply s', BrandManager.learnFromFeedback h message input s = Ok (reply, s').
Proof.
  intros Hnull. unfold BrandManager.learnFromFeedback. cbv beta zeta.
  unfold bind at 1. unfold BrandManager.chat at 1.
  cbn [bind tick ret ticks BrandManager.State_ticking].
  match goal with
  | |- context [BrandManager.getProfile ?n] =>
      destruct (getProfile_Ok n (set_ticks (S (BrandManager.reads s)) s))
        as ([profile shared] & Hpf)
  end.
  rewrite (bind_Ok _ _ _ _ _ Hpf).
  match goal with
  | |- context [BrandManager.json_field ?l _] => destruct l eqn:Hl
  end;
    try (destruct shared; eexists _, _; reflexivity).
  exfalso. unfold BrandManager.extract_json in Hl.
  destruct (match_braces _); [|discriminate].
  destruct (JSON_parse h s0) eqn:Hparse; [|destruct (in_feedback input); discriminate].
  subst. by apply (Hnull s0).
Qed.

Lemma Brand_handle_returns h message action input s :
  msg_payload message = TaskPayload action input ->
  (forall text, JSON_parse h text <> Some JNull) ->
  exists reply s', BrandManager.handle h message s = Ok (reply, s').
Proof.
  intros Hp Hnull. unfold BrandManager.handle, BrandManager.with_input. rewrite Hp.
  cbn [Analytics.payload_action Analytics.payload_input].
  repeat case_bool_decide.
  - apply setBrand_Ok.
  - by apply learnFromFeedback_Ok.
  - destruct (analyze_outcome h message input s) as (s' & ->). eauto.
  - apply getBrandContext_Ok.
Qed.

End Returns.

(** ** What the analytics agent reads and writes *)

Module AnalyticsProps.
Import JS Data Core Spec Terms MonadFacts StoreFacts TrackFacts SortFacts RankFacts
  ObjFacts FloatFacts CountFacts.

Lemma entries_metrics_state l (s : Analytics.State) ms s' :
  Analytics.entries_metrics l s = Ok (ms, s') -> s' = s.
Proof.
  unfold Analytics.entries_metrics. revert ms s'.
  induction l as [|e l IH]; intros ms s' H; cbn in H.
  - by injection H as _ <-.
  - destruct (Analytics.as_metrics (value e)); [|discriminate].
    unfold bind at 1, ret at 1 in H.
    apply bind_Ok_inv in H as (ys & s1 & Hys & H).
    apply IH in Hys as ->. by injection H as _ <-.
Qed.

(** X1. A task whose action is not [track] -- [report], [insights],
    [top-content], or an action the agent does not know -- never writes
    to the Memory Store: after a [handle] that returns, the store is the
    one before. *)
Theorem reads_leave_store (h : Host) (message : Message)
    (s s' : Analytics.State) (reply : Message) :
  Analytics.payload_action (msg_payload message) <> Some "track" ->
  Analytics.handle h message s = Ok (reply, s') ->
  Analytics.memory s' = Analytics.memory s.
Proof.
  intros Hna. unfold Analytics.handle, Analytics.with_input.
  case_bool_decide; [done|].
  repeat case_bool_decide.
  - destruct (Analytics.payload_input _) as [input|]; [|discriminate].
    unfold Analytics.report. cbv beta zeta.
    unfold bind at 1. unfold tick at 1. unfold bind at 1. unfold date_iso at 1.
    destruct (time_in_range _); [|discriminate].
    unfold ret at 1. unfold bind at 1. unfold get at 1.
    rewrite createMessage_Ok. by intros [= _ <-].
  - unfold Analytics.getInsights. unfold bind at 1. unfold get at 1.
    destruct (_ =? 0)%nat.
    + rewrite createMessage_Ok. by intros [= _ <-].
    + cbv beta zeta. intros Hrun. apply bind_Ok_inv in Hrun as (ms & s1 & Hms & Hrun).
      apply entries_metrics_state in Hms as ->.
      rewrite createMessage_Ok in Hrun. by injection Hrun as _ <-.
  - destruct (Analytics.payload_input _) as [input|]; [|discriminate].
    unfold Analytics.topContent. cbv beta zeta.
    unfold bind at 1. unfold get at 1. intros Hrun.
    apply bind_Ok_inv in Hrun as (ms & s1 & Hms & Hrun).
    apply entries_metrics_state in Hms as ->.
    rewrite createMessage_Ok in Hrun. by injection Hrun as _ <-.
  - rewrite createMessage_Ok. by intros [= _ <-].
Qed.

Lemma reads_leave_store_witness :
  exists reply s',
    Analytics.handle Demo.host (Demo.task_message "m2" "insights" no_input)
      Demo.tracked_once
    = Ok (reply, s') /\
    Analytics.memory s' = Analytics.memory Demo.tracked_once.
Proof.
  destruct (Analytics.handle Demo.host (Demo.task_message "m2" "insights" no_input)
              Demo.tracked_once) as [[reply s']|e] eqn:Hrun.
  - exists reply, s'. split; [reflexivity|].
    apply (reads_leave_store Demo.host (Demo.task_message "m2" "insights" no_input)
             Demo.tracked_once s' reply); [|exact Hrun].
    intros Heq. vm_compute in Heq. discriminate Heq.
  - vm_compute in Hrun. discriminate Hrun.
Defined.

Lemma track_run h message input cid p s cm0 :
  in_contentId input = Some cid ->
  in_platform input = Some p ->
  found_or_new h s input cid = Some cm0 ->
  exists reply s' now written,
    Analytics.track h message input s = Ok (reply, s') /\
    msg_payload reply = ResultPayload true (OutTracked (Some cid) (Some p)) /\
    Analytics.memory s' =
      Memory_set (Analytics.memory s) ("metrics:" +:+ cid)
        (VMetrics (tracked cm0 (Some p) (in_metrics input) now)) "analytics"
        (Some "metrics" :: Some p :: (Some <$> arr_or (in_tags input) [])) written.
Proof.
  intros Hc Hp Hf. unfold Analytics.track. rewrite Hc, Hp.
  cbv beta zeta. cbn [show_str]. unfold bind at 1. unfold get at 1.
  unfold found_or_new in Hf.
  destruct (Memory_get (Analytics.memory s) ("metrics:" +:+ cid)) as [v|] eqn:Hg.
  - destruct v as [str|cm| | |]; try discriminate.
    + destruct str; [|discriminate]. injection Hf as <-.
      eexists _, _, _, _. split; [reflexivity|]. split; [reflexivity|].
      unfold str_or_undefined, str_or. by destruct (in_title input) as [[|]|].
    + injection Hf as <-.
      eexists _, _, _, _. split; [reflexivity|]. split; reflexivity.
  - injection Hf as <-.
    eexists _, _, _, _. split; [reflexivity|]. split; [reflexivity|].
    unfold str_or_undefined, str_or. by destruct (in_title input) as [[|]|].
Qed.

Lemma trackable_found h s input cid :
  trackable (Analytics.memory s) cid ->
  exists cm0, found_or_new h s input cid = Some cm0 /\
    (forall cm, Memory_get (Analytics.memory s) ("metrics:" +:+ cid) = Some (VMetrics cm) ->
                cm0 = cm) /\
    (Memory_get (Analytics.memory s) ("metrics:" +:+ cid) = None ->
     cm_id cm0 = Some cid /\ cm_title cm0 = Some (str_or (in_title input) cid) /\
     cm_topic cm0 = str_or (in_topic input) "" /\
     cm_platforms cm0 = [] /\ cm_metrics cm0 = [] /\
     cm_tags cm0 = arr_or (in_tags input) []).
Proof.
  unfold found_or_new. intros [Hg|[cm Hg]]; rewrite Hg; eexists; split; try reflexivity.
  - split; [discriminate|]. intros _. repeat split.
  - split; [by intros cm' [= ->]|discriminate].
Qed.

Lemma key_injective cid cid' :
  "metrics:" +:+ cid = "metrics:" +:+ cid' -> cid = cid'.
Proof. intros H. cbn in H. by injection H. Qed.

(** X2. A [track] task for [contentId], on a store that holds content
    metrics or nothing under its key, answers [{tracked, contentId,
    platform}] and writes the entry [metrics:<contentId>] only: every
    other key of the store reads as before, and so do the per-platform
    records of every other content. *)
Theorem track_touches_one_key (h : Host) (message : Message) (input : TaskInput)
    (contentId platform : string) (s : Analytics.State) :
  msg_payload message = TaskPayload "track" input ->
  in_contentId input = Some contentId ->
  in_platform input = Some platform ->
  trackable (Analytics.memory s) contentId ->
  exists reply s',
    Analytics.handle h message s = Ok (reply, s') /\
    msg_payload reply
    = ResultPayload true (OutTracked (Some contentId) (Some platform)) /\
    (forall k, k <> "metrics:" +:+ contentId ->
               Memory_get (Analytics.memory s') k = Memory_get (Analytics.memory s) k) /\
    (forall other, other <> contentId ->
       forall q, stats_of (Analytics.memory s') other q
                 = stats_of (Analytics.memory s) other q).
Proof.
  intros Hp Hc Hpl Ht.
  destruct (trackable_found h s input contentId Ht) as (cm0 & Hf & _).
  destruct (track_run h message input contentId platform s cm0 Hc Hpl Hf)
    as (reply & s' & now & written & Hrun & Hpay & Hmem).
  exists reply, s'. rewrite (handle_track h message input s Hp).
  split; [exact Hrun|]. split; [exact Hpay|]. rewrite Hmem. split.
  - intros k Hk. by apply Memory_get_set_ne.
  - intros other Ho q. unfold stats_of. rewrite Memory_get_set_ne; [done|].
    intros Heq. by apply key_injective in Heq.
Qed.

Lemma track_touches_one_key_witness :
  exists reply s',
    Analytics.handle Demo.host
      (Demo.task_message "m1" "track" (Demo.track_input "post1" "twitter" 10))
      Demo.analytics0
    = Ok (reply, s') /\
    Memory_get (Analytics.memory s') "metrics:post2" = None.
Proof.
  destruct (track_touches_one_key Demo.host
              (Demo.task_message "m1" "track" (Demo.track_input "post1" "twitter" 10))
              (Demo.track_input "post1" "twitter" 10) "post1" "twitter"
              Demo.analytics0 eq_refl eq_refl eq_refl (or_introl eq_refl))
    as (reply & s' & Hrun & _ & Hframe & _).
  exists reply, s'. split; [exact Hrun|].
  rewrite Hframe; [reflexivity|discriminate].
Defined.

(** X3. A [track] task for content the store already holds keeps the
    [id], [title], [topic], [createdAt] and [tags] of the stored entry --
    the [title], [topic] and [tags] of the task are ignored --, keeps the
    platforms listed so far at the front of [platforms], and leaves the
    record of every other platform as it was. *)
Theorem track_keeps_metadata (h : Host) (message : Message) (input : TaskInput)
    (contentId platform : string) (s : Analytics.State) (cm : ContentMetrics) :
  msg_payload message = TaskPayload "track" input ->
  in_contentId input = Some contentId ->
  in_platform input = Some platform ->
  Memory_get (Analytics.memory s) ("metrics:" +:+ contentId) = Some (VMetrics cm) ->
  exists reply s' cm',
    Analytics.handle h message s = Ok (reply, s') /\
    Memory_get (Analytics.memory s') ("metrics:" +:+ contentId) = Some (VMetrics cm') /\
    cm_id cm' = cm_id cm /\ cm_title cm' = cm_title cm /\
    cm_topic cm' = cm_topic cm /\ cm_createdAt cm' = cm_createdAt cm /\
    cm_tags cm' = cm_tags cm /\
    cm_platforms cm `prefix_of` cm_platforms cm' /\
    (forall q, q <> platform ->
               obj_get (cm_metrics cm') q = obj_get (cm_metrics cm) q).
Proof.
  intros Hp Hc Hpl Hg.
  assert (found_or_new h s input contentId = Some cm) as Hf.
  { unfold found_or_new. by rewrite Hg. }
  destruct (track_run h message input contentId platform s cm Hc Hpl Hf)
    as (reply & s' & now & written & Hrun & _ & Hmem).
  exists reply, s', (tracked cm (Some platform) (in_metrics input) now).
  rewrite (handle_track h message input s Hp). split; [exact Hrun|].
  rewrite Hmem, Memory_get_set. split; [reflexivity|]. cbn.
  repeat split.
  - unfold Analytics.add_platform. destruct (includes_undefined _ _); [done|].
    by apply prefix_app_r.
  - intros q Hq. by apply TenantFacts.obj_get_set_ne.
Qed.

Lemma track_keeps_metadata_witness :
  exists reply s' cm',
    Analytics.handle Demo.host
      (Demo.task_message "m2" "track" (Demo.track_input "post1" "linkedin" 7))
      Demo.tracked_once
    = Ok (reply, s') /\
    Memory_get (Analytics.memory s') "metrics:post1" = Some (VMetrics cm') /\
    cm_title cm' = Some "post1".
Proof.
  assert (exists cm,
            Memory_get (Analytics.memory Demo.tracked_once) "metrics:post1"
            = Some (VMetrics cm) /\ cm_title cm = Some "post1") as (cm & Hcm & Htitle).
  { eexists. split; reflexivity. }
  destruct (track_keeps_metadata Demo.host
              (Demo.task_message "m2" "track" (Demo.track_input "post1" "linkedin" 7))
              (Demo.track_input "post1" "linkedin" 7) "post1" "linkedin"
              Demo.tracked_once cm eq_refl eq_refl eq_refl Hcm)
    as (reply & s' & cm' & Hrun & Hget & _ & Ht & _).
  exists reply, s', cm'. split; [exact Hrun|]. split; [exact Hget|].
  rewrite Ht. exact Htitle.
Defined.

(** X4. A [track] task for content the store does not hold adds one
    entry: its [id] is the [contentId], its [title] is the one of the task
    or, when that is absent or empty, the [contentId]; its [topic]
    defaults to the empty string and its [tags] to none; it lists the one
    platform of the task and holds one per-platform record. *)
Theorem track_new_content (h : Host) (message : Message) (input : TaskInput)
    (contentId platform : string) (s : Analytics.State) :
  msg_payload message = TaskPayload "track" input ->
  in_contentId input = Some contentId ->
  in_platform input = Some platform ->
  Memory_get (Analytics.memory s) ("metrics:" +:+ contentId) = None ->
  exists reply s' cm' title stats,
    Analytics.handle h message s = Ok (reply, s') /\
    Memory_get (Analytics.memory s') ("metrics:" +:+ contentId) = Some (VMetrics cm') /\
    cm_id cm' = Some contentId /\
    cm_title cm' = Some title /\
    merged_string (in_title input) contentId title /\
    merged_string (in_topic input) "" (cm_topic cm') /\
    merged (in_tags input) [] (cm_tags cm') /\
    cm_platforms cm' = [Some platform] /\
    cm_metrics cm' = [(platform, stats)] /\
    length (mem_entries (Analytics.memory s'))
      = S (length (mem_entries (Analytics.memory s))).
Proof.
  intros Hp Hc Hpl Hg.
  destruct (trackable_found h s input contentId (or_introl Hg))
    as (cm0 & Hf & _ & Hnew).
  destruct (Hnew Hg) as (Hid & Hti & Hto & Hpls & Hms & Htg).
  destruct (track_run h message input contentId platform s cm0 Hc Hpl Hf)
    as (reply & s' & now & written & Hrun & _ & Hmem).
  eexists reply, s', (tracked cm0 (Some platform) (in_metrics input) now), _, _.
  rewrite (handle_track h message input s Hp). split; [exact Hrun|].
  rewrite Hmem, Memory_get_set. split; [reflexivity|]. cbn.
  rewrite Hid, Hti, Hto, Hpls, Hms, Htg. cbn.
  split; [done|]. split; [reflexivity|]. split; [apply TenantFacts.str_or_merged|].
  split; [apply TenantFacts.str_or_merged|].
  split; [apply TenantFacts.arr_or_merged|]. split; [done|]. split; [reflexivity|].
  rewrite upsert_fresh; [rewrite length_app; cbn; lia|].
  cbn. destruct (Analytics.memory s). exact Hg.
Qed.

Lemma track_new_content_witness :
  exists reply s' cm',
    Analytics.handle Demo.host
      (Demo.task_message "m1" "track" (Demo.track_input "post1" "twitter" 10))
      Demo.analytics0
    = Ok (reply, s') /\
    Memory_get (Analytics.memory s') "metrics:post1" = Some (VMetrics cm') /\
    cm_platforms cm' = [Some "twitter"].
Proof.
  destruct (track_new_content Demo.host
              (Demo.task_message "m1" "track" (Demo.track_input "post1" "twitter" 10))
              (Demo.track_input "post1" "twitter" 10) "post1" "twitter"
              Demo.analytics0 eq_refl eq_refl eq_refl eq_refl)
    as (reply & s' & cm' & title & stats & Hrun & Hget & _ & _ & _ & _ & _ & Hpl & _).
  exists reply, s', cm'. split; [exact Hrun|]. split; [exact Hget|exact Hpl].
Defined.

(** X5. The record [track] stores for the platform merges the counts of
    the task over the record it replaces: each of [views], [likes],
    [shares], [comments], [clicks] and [impressions] is the value of the
    task when it supplies one, and the stored value otherwise.  When the
    merged [views] are positive the [engagement] is the double
    [(likes + comments + shares) / views * 100], computed in this order,
    an absent count, a zero and NaN being 0; when the views are absent or
    not positive nothing is divided and the [engagement] is merged like
    the counts. *)
Theorem track_merges_counts (h : Host) (message : Message) (input : TaskInput)
    (contentId platform : string) (s : Analytics.State) :
  msg_payload message = TaskPayload "track" input ->
  in_contentId input = Some contentId ->
  in_platform input = Some platform ->
  trackable (Analytics.memory s) contentId ->
  exists reply s' st,
    Analytics.handle h message s = Ok (reply, s') /\
    stats_of (Analytics.memory s') contentId platform = Some st /\
    field_merged views mi_views
      (stats_of (Analytics.memory s) contentId platform) (in_metrics input) st /\
    field_merged likes mi_likes
      (stats_of (Analytics.memory s) contentId platform) (in_metrics input) st /\
    field_merged shares mi_shares
      (stats_of (Analytics.memory s) contentId platform) (in_metrics input) st /\
    field_merged comments mi_comments
      (stats_of (Analytics.memory s) contentId platform) (in_metrics input) st /\
    field_merged clicks mi_clicks
      (stats_of (Analytics.memory s) contentId platform) (in_metrics input) st /\
    field_merged impressions mi_impressions
      (stats_of (Analytics.memory s) contentId platform) (in_metrics input) st /\
    (forall v, views st = Some v -> PrimFloat.ltb 0 v = true ->
       engagement st
       = Some ((counted (likes st) + counted (comments st) + counted (shares st))
               / v * 100)%float) /\
    (views st = None \/ (exists v, views st = Some v /\ PrimFloat.ltb 0 v = false) ->
     field_merged engagement mi_engagement
       (stats_of (Analytics.memory s) contentId platform) (in_metrics input) st).
Proof.
  intros Hp Hc Hpl Ht.
  destruct (trackable_found h s input contentId Ht) as (cm0 & Hf & Hold & Hnew).
  destruct (track_run h message input contentId platform s cm0 Hc Hpl Hf)
    as (reply & s' & now & written & Hrun & _ & Hmem).
  assert (stats_of (Analytics.memory s) contentId platform
          = obj_get (cm_metrics cm0) platform) as Hprev.
  { unfold stats_of. destruct Ht as [Hg|[cm Hg]].
    - destruct (Hnew Hg) as (_ & _ & _ & _ & -> & _). by rewrite Hg.
    - rewrite Hg. by rewrite (Hold cm Hg). }
  rewrite Hprev.
  eexists reply, s', _.
  rewrite (handle_track h message input s Hp). split; [exact Hrun|].
  split.
  { unfold stats_of. rewrite Hmem, Memory_get_set. cbn. apply obj_get_set. }
  destruct (updated_record (obj_get (cm_metrics cm0) platform) (in_metrics input) now)
    as (_ & Hv & Hl & Hs & Hco & Hcl & Him & Hrate & Hkeep).
  do 6 (split; [assumption|]). split; [exact Hrate|exact Hkeep].
Qed.

Lemma track_merges_counts_witness :
  exists reply s' st,
    Analytics.handle Demo.host
      (Demo.task_message "m1" "track" (Demo.track_input "post1" "twitter" 10))
      Demo.analytics0
    = Ok (reply, s') /\
    stats_of (Analytics.memory s') "post1" "twitter" = Some st /\
    views st = Some 10%float /\
    engagement st = Some 0%float.
Proof.
  destruct (track_merges_counts Demo.host
              (Demo.task_message "m1" "track" (Demo.track_input "post1" "twitter" 10))
              (Demo.track_input "post1" "twitter" 10) "post1" "twitter"
              Demo.analytics0 eq_refl eq_refl eq_refl (or_introl eq_refl))
    as (reply & s' & st & Hrun & Hst & Hv & Hl & _ & Hco & _ & _ & Hrate & _).
  exists reply, s', st. split; [exact Hrun|]. split; [exact Hst|].
  split; [exact Hv|].
  rewrite (Hrate 10%float Hv eq_refl).
  unfold field_merged in Hl, Hco. cbn in Hl, Hco.
  vm_compute in Hrun. injection Hrun as <- <-.
  vm_compute in Hst. injection Hst as <-. reflexivity.
Defined.

(** X6. When the key of the content holds a value that is no content
    metrics and is not the empty string -- a string, or an object of
    another shape -- [track] reads [existing.metrics[platform]] of it and
    throws a [TypeError]; nothing is written and the clock is not read:
    the agent is in the state it was in. *)
Theorem track_foreign_value (h : Host) (message : Message) (input : TaskInput)
    (contentId platform : string) (s : Analytics.State) (v : MemValue) :
  msg_payload message = TaskPayload "track" input ->
  in_contentId input = Some contentId ->
  in_platform input = Some platform ->
  Memory_get (Analytics.memory s) ("metrics:" +:+ contentId) = Some v ->
  foreign v ->
  exists text, Analytics.handle h message s = Throw (TypeError text) s.
Proof.
  intros Hp Hc Hpl Hget Hfor.
  rewrite (handle_track h message input s Hp).
  unfold Analytics.track. rewrite Hc, Hpl. cbv beta zeta. cbn [show_str].
  unfold bind at 1. unfold get at 1. rewrite Hget.
  assert (truthy v = true /\ Analytics.as_metrics v = None) as [-> ->].
  { destruct v as [t| | | |]; cbn in *; try done.
    split; [|done]. apply negb_true_iff. by apply String.eqb_neq. }
  eexists. reflexivity.
Qed.

Lemma track_foreign_value_witness :
  exists text,
    Analytics.handle Demo.host
      (Demo.task_message "m1" "track" (Demo.track_input "post1" "twitter" 10))
      Samples.foreign_store
    = Throw (TypeError text) Samples.foreign_store.
Proof.
  apply (track_foreign_value Demo.host
           (Demo.task_message "m1" "track" (Demo.track_input "post1" "twitter" 10))
           (Demo.track_input "post1" "twitter" 10) "post1" "twitter"
           Samples.foreign_store (VString "n/a")
           eq_refl eq_refl eq_refl eq_refl).
  discriminate.
Defined.

Lemma handle_insights h message input s :
  msg_payload message = TaskPayload "insights" input ->
  Analytics.handle h message s = Analytics.getInsights h message s.
Proof.
  intros Hp. unfold Analytics.handle, Analytics.with_input. rewrite Hp. reflexivity.
Qed.

Lemma handle_report h message input s :
  msg_payload message = TaskPayload "report" input ->
  Analytics.handle h message s = Analytics.report h message input s.
Proof.
  intros Hp. unfold Analytics.handle, Analytics.with_input. rewrite Hp. reflexivity.
Qed.

Lemma push_if_length {A} (x : option A) f l :
  length l <= length (Analytics.push_if x f l) <= S (length l).
Proof. destruct x; cbn; [rewrite length_app; cbn|]; lia. Qed.

(** X7. On a store whose [metrics:] entries are content metrics,
    [insights] answers with exactly one line, "No content tracked yet.
    Start generating and tracking to get insights!", when nothing is
    tracked; otherwise its list ends with the line counting the tracked
    entries and the tip line, preceded by at most two lines (best topic,
    best platform). *)
Theorem insights_shape (h : Host) (message : Message) (input : TaskInput)
    (s : Analytics.State) :
  msg_payload message = TaskPayload "insights" input ->
  metrics_typed (Analytics.memory s) ->
  exists reply s' insights,
    Analytics.handle h message s = Ok (reply, s') /\
    msg_payload reply = ResultPayload true (OutInsights insights) /\
    (Memory_search (Analytics.memory s) "metrics:" = [] ->
     insights =
       ["No content tracked yet. Start generating and tracking to get insights!"]) /\
    (Memory_search (Analytics.memory s) "metrics:" <> [] ->
     exists front,
       length front <= 2 /\
       insights =
         front
         ++ [ "📊 Total content tracked: "
              +:+ number_to_string h
                    (of_nat (length (Memory_search (Analytics.memory s) "metrics:")))
              +:+ " pieces";
              "💡 Tip: Track metrics regularly to improve content strategy" ]).
Proof.
  intros Hp Hty. rewrite (handle_insights h message input s Hp).
  unfold Analytics.getInsights. unfold bind at 1. unfold get at 1.
  destruct (Memory_search (Analytics.memory s) "metrics:") as [|e l] eqn:Hs.
  - cbn [length Nat.eqb]. rewrite createMessage_Ok.
    eexists _, _, _. split; [reflexivity|]. split; [reflexivity|]. split; done.
  - cbn [length Nat.eqb]. cbv beta zeta.
    pose proof (search_typed _ Hty) as Hall. rewrite Hs in Hall.
    rewrite (bind_Ok _ _ s s _ (entries_metrics_typed _ s Hall)).
    rewrite createMessage_Ok.
    eexists _, _, _. split; [reflexivity|]. split; [reflexivity|].
    split; [done|]. intros _.
    eexists. split; [|reflexivity].
    match goal with
    | |- length (Analytics.push_if ?x ?f (Analytics.push_if ?y ?g [])) <= 2 =>
        pose proof (push_if_length x f (Analytics.push_if y g []));
        pose proof (push_if_length y g [])
    end.
    cbn [length] in *. lia.
Qed.

Lemma insights_shape_witness :
  exists reply s',
    Analytics.handle Demo.host (Demo.task_message "m1" "insights" no_input)
      Demo.analytics0
    = Ok (reply, s') /\
    msg_payload reply
    = ResultPayload true
        (OutInsights
           ["No content tracked yet. Start generating and tracking to get insights!"]).
Proof.
  destruct (insights_shape Demo.host (Demo.task_message "m1" "insights" no_input)
              no_input Demo.analytics0 eq_refl (List.Forall_nil _))
    as (reply & s' & insights & Hrun & Hpay & Hempty & _).
  exists reply, s'. split; [exact Hrun|].
  rewrite Hpay, (Hempty eq_refl). reflexivity.
Defined.

Lemma sort_head_max {A} (cmp : A -> A -> float) (R : A -> A -> Prop) (P : A -> Prop) :
  (forall x y, P x -> P y -> if after cmp x y then R y x else R x y) ->
  Transitive R ->
  forall l x, Forall P l -> head (sort cmp l) = Some x ->
  x ∈ l /\ forall y, y ∈ l -> y = x \/ R x y.
Proof.
  intros Hcmp Htr l x HP Hx.
  pose proof (sort_Sorted cmp R P Hcmp l HP) as Hs.
  apply Sorted_StronglySorted in Hs; [|exact Htr].
  destruct (sort cmp l) as [|x' r] eqn:Hl; [discriminate|].
  injection Hx as ->. apply StronglySorted_inv in Hs as [_ Hall].
  assert (forall y, y ∈ l <-> y ∈ x :: r) as Hperm.
  { intros y. by rewrite <- Hl, sort_perm. }
  split; [apply Hperm; by left|].
  intros y Hy. apply Hperm, elem_of_cons in Hy as [->|Hy]; [by left|].
  right. rewrite List.Forall_forall in Hall. by apply Hall, list_elem_of_In.
Qed.

(** The views of platform [p] over the records [l], added to [a]. *)
Lemma views_from_cons (a : float) p (ps : string * PlatformStats) l :
  fold_left (fun total ps => (total + counted (views ps.2))%float)
    (List.filter (fun ps : string * PlatformStats => String.eqb ps.1 p) (ps :: l)) a
  = fold_left (fun total ps => (total + counted (views ps.2))%float)
      (List.filter (fun ps : string * PlatformStats => String.eqb ps.1 p) l)
      (if String.eqb ps.1 p then (a + counted (views ps.2))%float else a).
Proof. cbn [List.filter]. by destruct (String.eqb ps.1 p). Qed.

Lemma add_views_fold l : forall acc p,
  Forall (fun ps : string * PlatformStats => is_count (counted (views ps.2)) = true) l ->
  (forall k a, obj_get acc k = Some a -> is_count a = true) ->
  (forall q, obj_get (fold_left add_views l acc) p = Some q ->
     is_count q = true /\
     q = fold_left (fun total ps => (total + counted (views ps.2))%float)
           (List.filter (fun ps : string * PlatformStats => String.eqb ps.1 p) l)
           (default 0%float (obj_get acc p))) /\
  (obj_get (fold_left add_views l acc) p = None <->
   obj_get acc p = None /\ p ∉ l.*1) /\
  (NoDup acc.*1 -> NoDup (fold_left add_views l acc).*1).
Proof.
  induction l as [|ps l IH]; intros acc p Hl Hacc; cbn [fold_left].
  - split; [|split; [|done]].
    + intros q Hq. split; [by apply (Hacc p)|]. by rewrite Hq.
    + cbn. split; [intros H; split; [done|apply not_elem_of_nil]|by intros [? _]].
  - apply Forall_cons in Hl as [Hps Hl].
    assert (is_count (num_or (obj_get acc ps.1) 0 + num_or (views ps.2) 0)%float = true)
      as Hnew.
    { rewrite (num_or_counted (views ps.2)). apply count_add; [|exact Hps].
      destruct (obj_get acc ps.1) as [a|] eqn:Ha; [|reflexivity].
      rewrite num_or_count; by apply (Hacc ps.1). }
    assert (forall k a, obj_get (add_views acc ps) k = Some a -> is_count a = true)
      as Hacc'.
    { intros k a. unfold add_views. destruct (String.eqb_spec ps.1 k) as [<-|Hne].
      - rewrite obj_get_set. by intros [= <-].
      - rewrite TenantFacts.obj_get_set_ne by done. apply Hacc. }
    destruct (IH (add_views acc ps) p Hl Hacc') as (IHq & IHn & IHd).
    split; [|split].
    + intros q Hq. destruct (IHq q Hq) as [Hc ->]. split; [exact Hc|].
      rewrite views_from_cons. f_equal.
      unfold add_views. destruct (String.eqb_spec ps.1 p) as [<-|Hne].
      * rewrite obj_get_set. rewrite (num_or_counted (views ps.2)).
        destruct (obj_get acc ps.1) as [a|] eqn:Ha;
          cbn [default from_option Datatypes.id]; [|reflexivity].
        f_equal. apply num_or_count. by apply (Hacc ps.1).
      * by rewrite TenantFacts.obj_get_set_ne.
    + rewrite IHn. unfold add_views. cbn. rewrite not_elem_of_cons.
      destruct (String.eqb_spec ps.1 p) as [<-|Hne].
      * rewrite obj_get_set. split; [by intros [? _]|by intros (_ & ? & _)].
      * rewrite TenantFacts.obj_get_set_ne by done.
        split; [intros [? ?]; repeat split; [done|congruence|done]|tauto].
    + intros Hnd. apply IHd. by apply obj_set_NoDup.
Qed.

(** X8. Where every views count is 0, a positive number or infinity (an
    absent one counting 0): [getTopPlatform] answers ["none"] when the
    contents hold no per-platform record; otherwise it names a platform
    that occurs in them and whose views -- the doubles added up from 0 in
    the order of the records -- are not below those of any other platform
    (a platform whose name is the empty string reads ["none"]). *)
Theorem top_platform_maximal (metrics : list ContentMetrics) :
  Forall (fun ps : string * PlatformStats => is_count (counted (views ps.2)) = true)
    (Analytics.all_stats metrics) ->
  (Analytics.all_stats metrics = [] -> Analytics.getTopPlatform metrics = "none") /\
  (Analytics.all_stats metrics <> [] ->
   exists p,
     p ∈ (Analytics.all_stats metrics).*1 /\
     (forall p', p' ∈ (Analytics.all_stats metrics).*1 ->
        PrimFloat.leb (views_total p' (Analytics.all_stats metrics))
          (views_total p (Analytics.all_stats metrics)) = true) /\
     Analytics.getTopPlatform metrics = (if String.eqb p "" then "none" else p)).
Proof.
  intros Hcounts. unfold Analytics.getTopPlatform.
  change (fold_left _ (Analytics.all_stats metrics) [])
    with (fold_left add_views (Analytics.all_stats metrics) []).
  set (l := Analytics.all_stats metrics) in *.
  split; [by intros ->|]. intros Hl.
  set (totals := fold_left add_views l []).
  set (cmp := fun a b : string * float => (b.2 - a.2)%float).
  assert (forall k a, obj_get ([] : list (string * float)) k = Some a -> is_count a = true)
    as Hnil by done.
  assert (forall p q, (p, q) ∈ totals ->
            p ∈ l.*1 /\ is_count q = true /\ q = views_total p l) as Htot.
  { intros p q Hin. destruct (add_views_fold l [] p Hcounts Hnil) as (Hq & Hn & Hd).
    apply obj_elem_get in Hin; [|apply Hd; constructor].
    split; [|exact (Hq q Hin)].
    destruct (decide (p ∈ l.*1)) as [|Hno]; [done|].
    assert (obj_get totals p = None) as Hnone by (apply Hn; by split).
    congruence. }
  assert (forall p, p ∈ l.*1 -> exists q, (p, q) ∈ totals) as Hocc.
  { intros p Hp. destruct (add_views_fold l [] p Hcounts Hnil) as (_ & Hn & _).
    destruct (obj_get totals p) as [q|] eqn:Hg.
    - exists q. by apply TenantFacts.obj_get_elem.
    - apply Hn in Hg as [_ Hno]. done. }
  destruct (head (sort cmp totals)) as [[p q]|] eqn:Hh.
  - destruct (sort_head_max cmp
                (fun a b : string * float => (count_rank b.2 <= count_rank a.2)%Z)
                (fun a : string * float => is_count a.2 = true))
      with (l := totals) (x := (p, q)) as [Hin Hmax]; [| | |exact Hh|].
    { intros x y Hx Hy. unfold after, cmp. rewrite sub_pos, (count_ltb _ _ Hx Hy).
      destruct (Z.ltb_spec (count_rank x.2) (count_rank y.2)); lia. }
    { intros a b c Hab Hbc. cbn in *. lia. }
    { apply Forall_forall. intros [p' q'] Hin. by destruct (Htot p' q' Hin) as (_ & ? & _). }
    destruct (Htot p q Hin) as (Hp & Hc & Hq).
    exists p. split; [exact Hp|]. split.
    + intros p' Hp'. destruct (Hocc p' Hp') as [q' Hq'].
      destruct (Htot p' q' Hq') as (_ & Hc' & Heq').
      rewrite <- Heq', <- Hq, (count_leb _ _ Hc' Hc). apply Z.leb_le.
      destruct (Hmax (p', q') Hq') as [[= -> ->]|Hle]; [lia|exact Hle].
    + cbn. unfold str_or. reflexivity.
  - exfalso. destruct l as [|ps l']; [done|].
    destruct (Hocc ps.1) as [q Hq]; [by left|].
    rewrite <- (sort_perm cmp) in Hq.
    destruct (sort cmp totals); [by apply elem_of_nil in Hq|discriminate].
Qed.

Lemma top_platform_maximal_witness :
  exists p,
    Analytics.getTopPlatform
      (Analytics.metrics_of (mem_entries (Analytics.memory Demo.tracked_three))) = p /\
    p = "twitter" /\
    views_total "twitter"
      (Analytics.all_stats
         (Analytics.metrics_of (mem_entries (Analytics.memory Demo.tracked_three))))
    = 40%float /\
    PrimFloat.leb
      (views_total "linkedin"
         (Analytics.all_stats
            (Analytics.metrics_of (mem_entries (Analytics.memory Demo.tracked_three)))))
      (views_total p
         (Analytics.all_stats
            (Analytics.metrics_of (mem_entries (Analytics.memory Demo.tracked_three)))))
    = true.
Proof.
  destruct (top_platform_maximal
              (Analytics.metrics_of (mem_entries (Analytics.memory Demo.tracked_three))))
    as [_ Htop].
  - repeat (constructor; [reflexivity|]). constructor.
  - destruct Htop as (p & _ & Hmax & Hp); [discriminate|].
    assert (Analytics.getTopPlatform
              (Analytics.metrics_of (mem_entries (Analytics.memory Demo.tracked_three)))
            = "twitter") as Hv by reflexivity.
    rewrite Hv in Hp. destruct (String.eqb p ""); [discriminate Hp|].
    exists p. split; [by rewrite Hv|]. split; [done|]. split; [reflexivity|].
    apply Hmax. right. right. by left.
Defined.

(** X9. The number of items [top-content] returns, [n] being the number
    of tracked entries: the smaller of 5 and [n] when no limit is given or
    the limit is 0 or NaN; the smaller of the limit, truncated to an
    integer, and [n] for a positive limit (so none for a limit below 1,
    and all for an infinite one); and for a limit of -1 or below, [n] less
    the truncated magnitude of the limit, or none when that exceeds [n]:
    the end of the ranking is dropped. *)
Theorem top_content_count (h : Host) (message : Message) (input : TaskInput)
    (s : Analytics.State) :
  msg_payload message = TaskPayload "top-content" input ->
  metrics_typed (Analytics.memory s) ->
  exists reply s' items,
    Analytics.handle h message s = Ok (reply, s') /\
    msg_payload reply = ResultPayload true (OutTopContent items) /\
    let n := length (Memory_search (Analytics.memory s) "metrics:") in
    (in_limit input = None \/
     (exists q, in_limit input = Some q /\
                (PrimFloat.eqb q 0 = true \/ PrimFloat.is_nan q = true)) ->
     length items = 5 `min` n) /\
    (forall q, in_limit input = Some q -> PrimFloat.ltb 0 q = true ->
       length items = match ToIntegerOrInfinity q with
                      | Finite k => Z.to_nat k `min` n
                      | _ => n
                      end) /\
    (forall q, in_limit input = Some q -> PrimFloat.leb q (-1) = true ->
       length items = match ToIntegerOrInfinity q with
                      | Finite k => n - Z.to_nat (- k)
                      | _ => 0
                      end).
Proof.
  intros Hp Hty. rewrite (handle_top_content h message input s Hp).
  unfold Analytics.topContent. cbv beta zeta.
  unfold bind at 1. unfold get at 1.
  rewrite (bind_Ok _ _ s s _ (entries_metrics_typed _ s (search_typed _ Hty))).
  rewrite createMessage_Ok.
  eexists _, _, _. split; [reflexivity|]. split; [reflexivity|].
  cbv zeta. set (n := length (Memory_search (Analytics.memory s) "metrics:")).
  rewrite length_map.
  assert (forall e, length (slice_to e
            (sort (Analytics.by_score h)
               (map (fun m => (m, Analytics.score_of h (str_or (in_metric input) "views") m))
                  (Analytics.metrics_of (Memory_search (Analytics.memory s) "metrics:")))))
          = match ToIntegerOrInfinity e with
            | Finite k => if (k <? 0)%Z then Z.to_nat (Z.of_nat n + k)
                          else Z.to_nat k `min` n
            | PlusInfinity => n
            | MinusInfinity => 0
            end) as Hlen.
  { intros e.
    assert (length (sort (Analytics.by_score h)
               (map (fun m => (m, Analytics.score_of h (str_or (in_metric input) "views") m))
                  (Analytics.metrics_of (Memory_search (Analytics.memory s) "metrics:"))))
            = n) as Hn.
    { rewrite (Permutation_length (sort_perm _ _)), length_map.
      unfold Analytics.metrics_of, n.
      pose proof (search_typed _ Hty) as Hall.
      induction Hall as [|e0 l [m Hm] Hl IH]; cbn; [done|].
      rewrite Hm. cbn. by rewrite IH. }
    unfold slice_to. destruct (ToIntegerOrInfinity e) as [k| |]; [|done..].
    destruct (Z.ltb_spec k 0); rewrite length_take, Hn; lia. }
  rewrite Hlen. split; [|split].
  - intros Hl.
    assert (num_or (in_limit input) 5 = 5%float) as ->.
    { destruct Hl as [->|(q & -> & Hq)]; [done|]. cbn. unfold num_truthy.
      destruct Hq as [-> | ->]; by rewrite ?orb_true_r. }
    by rewrite ToIntegerOrInfinity_5.
  - intros q Hq Hpos. rewrite Hq, (num_or_positive q 5 Hpos).
    destruct (ToIntegerOrInfinity_positive q Hpos) as [->|(k & -> & Hk)]; [done|].
    by destruct (Z.ltb_spec k 0); [lia|].
  - intros q Hq Hneg. rewrite Hq. cbn [num_or]. rewrite (negative_truthy q Hneg).
    destruct (ToIntegerOrInfinity_negative q Hneg) as [->|(k & -> & Hk)]; [done|].
    destruct (Z.ltb_spec k 0); lia.
Qed.

Lemma top_content_count_witness :
  exists reply s' items,
    Analytics.handle Demo.host
      (Demo.task_message "m4" "top-content" (Demo.top_input (Some (-1)%float) None))
      Demo.tracked_three
    = Ok (reply, s') /\
    msg_payload reply = ResultPayload true (OutTopContent items) /\
    length items = 2.
Proof.
  destruct (top_content_count Demo.host
              (Demo.task_message "m4" "top-content" (Demo.top_input (Some (-1)%float) None))
              (Demo.top_input (Some (-1)%float) None) Demo.tracked_three eq_refl)
    as (reply & s' & items & Hrun & Hp & Hcount).
  - repeat constructor; intros _; eexists; reflexivity.
  - cbv zeta in Hcount. destruct Hcount as (_ & _ & Hneg).
    exists reply, s', items. split; [exact Hrun|]. split; [exact Hp|].
    rewrite (Hneg (-1)%float eq_refl eq_refl). reflexivity.
Defined.

Lemma num_or_period input : num_or (in_days input) 30 = period_days input.
Proof.
  unfold period_days. destruct (in_days input) as [d|]; cbn; [|done].
  unfold num_truthy. by destruct (PrimFloat.is_nan d || PrimFloat.eqb d 0).
Qed.

Lemma filter_none {A} (f : A -> bool) l :
  (forall x, x ∈ l -> f x = false) -> List.filter f l = [].
Proof.
  induction l as [|x l IH]; intros H; cbn; [done|].
  rewrite (H x) by (by left). apply IH. intros y Hy. apply H. by right.
Qed.

Lemma untracked_stats m p l :
  p <> "" ->
  untracked m p ->
  l ⊆ Analytics.metrics_of (Memory_search m "metrics:") ->
  List.filter (fun ps : string * PlatformStats => String.eqb p "" || String.eqb ps.1 p)
              (Analytics.all_stats l) = [].
Proof.
  intros Hp Hun Hsub. apply filter_none. intros ps Hps.
  apply String.eqb_neq in Hp as ->. cbn. apply String.eqb_neq. intros <-.
  unfold Analytics.all_stats in Hps.
  apply list_elem_of_In, in_concat in Hps as (o & Ho & Hin).
  apply in_map_iff in Ho as (cm & <- & Hcm).
  apply list_elem_of_In, Hsub in Hcm. unfold Analytics.metrics_of in Hcm.
  apply list_elem_of_omap in Hcm as (e & He & Hv).
  unfold Memory_search in He. apply list_elem_of_In, filter_In in He as [He _].
  unfold untracked in Hun. rewrite List.Forall_forall in Hun.
  destruct (value e) as [| cm' | | |] eqn:Hval; try discriminate.
  injection Hv as ->.
  specialize (Hun e He cm Hval). apply obj_get_None in Hun.
  apply Hun. apply list_elem_of_fmap. exists ps. split; [done|by apply list_elem_of_In].
Qed.

(** X10. A [report] whose period starts at a time a [Date] can hold,
    filtered by a platform for which no content holds a record, answers
    with that platform, all four totals 0 and the average engagement
    ["0%"] (no division takes place); its content count, its top platform
    and its period are those of the report of the same period without the
    filter: the filter applies to the totals only. *)
Theorem report_untracked_platform (h : Host) (message : Message) (input : TaskInput)
    (p : string) (s : Analytics.State) :
  msg_payload message = TaskPayload "report" input ->
  in_platform input = Some p -> p <> "" ->
  untracked (Analytics.memory s) p ->
  is_time (now_ms h (Analytics.reads s) - period_days input * 86400000) ->
  exists reply s' r,
    Analytics.handle h message s = Ok (reply, s') /\
    msg_payload reply = ResultPayload true (OutReport r) /\
    rp_platform r = p /\
    rp_totalViews r = 0%float /\ rp_totalLikes r = 0%float /\
    rp_totalShares r = 0%float /\ rp_totalComments r = 0%float /\
    rp_avgEngagement r = number_to_string h 0%float +:+ "%" /\
    forall message0 input0,
      msg_payload message0 = TaskPayload "report" input0 ->
      in_days input0 = in_days input ->
      exists reply0 s0 r0,
        Analytics.handle h message0 s = Ok (reply0, s0) /\
        msg_payload reply0 = ResultPayload true (OutReport r0) /\
        rp_contentCount r0 = rp_contentCount r /\
        rp_topPlatform r0 = rp_topPlatform r /\
        rp_period r0 = rp_period r.
Proof.
  intros Hp Hpl Hne Hun Htime. rewrite (handle_report h message input s Hp).
  assert (time_in_range (now_ms h (Analytics.reads s)
                         - num_or (in_days input) 30 * 86400000) = true) as Hrange.
  { rewrite num_or_period. destruct Htime as [Hlo Hhi].
    unfold time_in_range. by rewrite Hlo, Hhi. }
  unfold Analytics.report. cbv beta zeta.
  unfold bind at 1. unfold tick at 1. cbv beta iota.
  unfold bind at 1. unfold date_iso at 1.
  cbn [ticks Analytics.State_ticking]. rewrite Hrange. unfold ret at 1.
  unfold bind at 1. unfold get at 1. cbv beta iota.
  rewrite createMessage_Ok.
  rewrite Hpl.
  rewrite (untracked_stats (Analytics.memory s) p);
    [|exact Hne|exact Hun|].
  2:{ intros x Hx. apply list_elem_of_In, filter_In in Hx as [Hx _].
      by apply list_elem_of_In. }
  eexists _, _, _. split; [reflexivity|]. split; [reflexivity|].
  cbn [rp_platform rp_totalViews rp_totalLikes rp_totalShares rp_totalComments
       rp_avgEngagement rp_contentCount rp_topPlatform rp_period].
  split; [unfold str_or; by apply String.eqb_neq in Hne as ->|].
  do 4 (split; [reflexivity|]).
  split; [reflexivity|].
  intros message0 input0 Hp0 Hdays.
  rewrite (handle_report h message0 input0 s Hp0).
  unfold Analytics.report. cbv beta zeta.
  unfold bind at 1. unfold tick at 1. cbv beta iota.
  unfold bind at 1. unfold date_iso at 1.
  cbn [ticks Analytics.State_ticking]. rewrite Hdays, Hrange. unfold ret at 1.
  unfold bind at 1. unfold get at 1. cbv beta iota.
  rewrite createMessage_Ok.
  eexists _, _, _. split; [reflexivity|]. split; [reflexivity|].
  cbn [rp_contentCount rp_topPlatform rp_period]. done.
Qed.

Lemma report_untracked_platform_witness :
  exists reply s' r,
    Analytics.handle Demo.host
      (Demo.task_message "m2" "report" (Samples.report_input (Some "medium") None))
      Demo.tracked_once
    = Ok (reply, s') /\
    msg_payload reply = ResultPayload true (OutReport r) /\
    rp_totalViews r = 0%float.
Proof.
  destruct (report_untracked_platform Demo.host
              (Demo.task_message "m2" "report" (Samples.report_input (Some "medium") None))
              (Samples.report_input (Some "medium") None) "medium"
              Demo.tracked_once eq_refl eq_refl)
    as (reply & s' & r & Hrun & Hp & _ & Hv & _).
  - discriminate.
  - repeat constructor. intros cm Hcm. injection Hcm as <-. reflexivity.
  - split; reflexivity.
  - exists reply, s', r. split; [exact Hrun|]. split; [exact Hp|exact Hv].
Defined.

End AnalyticsProps.

(** ** What the brand manager saves and learns *)

Module BrandProps.
Import JS Data Core Spec Terms MonadFacts StoreFacts BrandFacts.

Lemma brand_memory_set_run h k v tg s :
  BrandManager.memory_set h k v tg s
  = Ok (tt, {| BrandManager.memory :=
                 Memory_set (BrandManager.memory s) k v BrandManager.name tg
                   (toISOString h (now_ms h (BrandManager.reads s)));
               BrandManager.default_learnings := BrandManager.default_learnings s;
               BrandManager.reads := S (BrandManager.reads s) |}).
Proof. reflexivity. Qed.

Lemma handle_set_brand h message input s :
  msg_payload message = TaskPayload "set-brand" input ->
  BrandManager.handle h message s = BrandManager.setBrand h message input s.
Proof.
  intros Hp. unfold BrandManager.handle, BrandManager.with_input. rewrite Hp. reflexivity.
Qed.

Lemma handle_get_brand_context h message input s :
  msg_payload message = TaskPayload "get-brand-context" input ->
  BrandManager.handle h message s = BrandManager.getBrandContext h message input s.
Proof.
  intros Hp. unfold BrandManager.handle, BrandManager.with_input. rewrite Hp. reflexivity.
Qed.

Lemma getProfile_stored n s p :
  Memory_get (BrandManager.memory s) ("brand:" +:+ n) = Some (VProfile p) ->
  BrandManager.getProfile n s = Ok ((p, false), s).
Proof.
  intros Hg. unfold BrandManager.getProfile, bind, get. by rewrite Hg.
Qed.

Lemma getProfile_missing n s :
  Memory_get (BrandManager.memory s) ("brand:" +:+ n) = None ->
  BrandManager.getProfile n s
  = Ok ((BrandManager.with_name
           (BrandManager.DEFAULT_PROFILE (BrandManager.default_learnings s)) n, true), s).
Proof.
  intros Hg. unfold BrandManager.getProfile, bind, get. by rewrite Hg.
Qed.

(** What [setBrand] returns and stores, given the profile it read. *)
Lemma setBrand_run h message input s pf :
  BrandManager.getProfile (brand_of input) s = Ok (pf, s) ->
  exists reply s',
    BrandManager.setBrand h message input s = Ok (reply, s') /\
    msg_payload reply
    = ResultPayload true (OutSaved (BrandManager.merge_profile pf.1 input)) /\
    BrandManager.default_learnings s' = BrandManager.default_learnings s /\
    Memory_get (BrandManager.memory s') ("brand:" +:+ brand_of input)
    = Some (VProfile (BrandManager.merge_profile pf.1 input)) /\
    Memory_get (BrandManager.memory s') "brand_voice"
    = Some (VString (bp_voice (BrandManager.merge_profile pf.1 input))) /\
    Memory_get (BrandManager.memory s') "brand_tone"
    = Some (VString (bp_tone (BrandManager.merge_profile pf.1 input))) /\
    Memory_get (BrandManager.memory s') "brand_audience"
    = Some (VString (bp_audience (BrandManager.merge_profile pf.1 input))) /\
    Memory_get (BrandManager.memory s') "social_tone"
    = Some (VString (JSON_stringify h
                       (bp_socialStyle (BrandManager.merge_profile pf.1 input)))) /\
    forall k, k <> "brand:" +:+ brand_of input -> k <> "brand_voice" ->
      k <> "brand_tone" -> k <> "brand_audience" -> k <> "social_tone" ->
      Memory_get (BrandManager.memory s') k = Memory_get (BrandManager.memory s) k.
Proof.
  intros Hpf. unfold BrandManager.setBrand. cbv beta zeta.
  fold (brand_of input).
  rewrite (bind_Ok _ _ s s _ Hpf).
  set (updated := BrandManager.merge_profile pf.1 input).
  rewrite (bind_Ok _ _ _ _ _ (brand_memory_set_run _ _ _ _ _)).
  rewrite (bind_Ok _ _ _ _ _ (brand_memory_set_run _ _ _ _ _)).
  rewrite (bind_Ok _ _ _ _ _ (brand_memory_set_run _ _ _ _ _)).
  rewrite (bind_Ok _ _ _ _ _ (brand_memory_set_run _ _ _ _ _)).
  rewrite (bind_Ok _ _ _ _ _ (brand_memory_set_run _ _ _ _ _)).
  rewrite createMessage_Ok.
  eexists _, _. split; [reflexivity|]. split; [reflexivity|].
  cbn [BrandManager.memory BrandManager.default_learnings BrandManager.reads
       set_ticks BrandManager.State_ticking].
  split; [reflexivity|].
  assert (forall n : string, "brand:" +:+ n <> "brand_voice") as H1 by (intros n Heq; simpl in Heq; discriminate Heq).
  assert (forall n : string, "brand:" +:+ n <> "brand_tone") as H2 by (intros n Heq; simpl in Heq; discriminate Heq).
  assert (forall n : string, "brand:" +:+ n <> "brand_audience") as H3 by (intros n Heq; simpl in Heq; discriminate Heq).
  assert (forall n : string, "brand:" +:+ n <> "social_tone") as H4 by (intros n Heq; simpl in Heq; discriminate Heq).
  repeat split.
  - rewrite !Memory_get_set_ne by (intros Heq; symmetry in Heq; revert Heq;
      first [apply H1|apply H2|apply H3|apply H4]).
    apply Memory_get_set.
  - rewrite !Memory_get_set_ne by discriminate. apply Memory_get_set.
  - rewrite !Memory_get_set_ne by discriminate. apply Memory_get_set.
  - rewrite !Memory_get_set_ne by discriminate. apply Memory_get_set.
  - apply Memory_get_set.
  - intros k Hk0 Hk1 Hk2 Hk3 Hk4.
    rewrite !Memory_get_set_ne by congruence. reflexivity.
Qed.

(** X11. What [set-brand] saves, [get-brand-context] returns: after a
    [set-brand] task for a brand (its [name], else its [brandName], else
    ["default"]) answered with the profile [updated], a
    [get-brand-context] task for that brand answers with [updated] and
    the guidelines built from it. *)
Theorem set_brand_round_trip (h : Host) (message : Message) (input : TaskInput)
    (s : BrandManager.State) :
  msg_payload message = TaskPayload "set-brand" input ->
  exists reply s' updated,
    BrandManager.handle h message s = Ok (reply, s') /\
    msg_payload reply = ResultPayload true (OutSaved updated) /\
    forall message' input',
      msg_payload message' = TaskPayload "get-brand-context" input' ->
      str_or (in_brandName input') "default" = brand_of input ->
      exists reply' s'',
        BrandManager.handle h message' s' = Ok (reply', s'') /\
        msg_payload reply'
        = ResultPayload true
            (OutBrandContext updated (BrandManager.buildGuidelines h updated)).
Proof.
  intros Hp. rewrite (handle_set_brand h message input s Hp).
  destruct (getProfile_Ok (brand_of input) s) as [pf Hpf].
  destruct (setBrand_run h message input s pf Hpf)
    as (reply & s' & Hrun & Hpay & _ & Hget & _).
  exists reply, s', (BrandManager.merge_profile pf.1 input).
  split; [exact Hrun|]. split; [exact Hpay|].
  intros message' input' Hp' Hn.
  rewrite (handle_get_brand_context h message' input' s' Hp').
  unfold BrandManager.getBrandContext. cbv beta zeta. rewrite Hn.
  rewrite (bind_Ok _ _ _ _ _ (getProfile_stored _ _ _ Hget)).
  rewrite createMessage_Ok. eexists _, _. split; reflexivity.
Qed.

Lemma set_brand_round_trip_witness :
  exists reply s' updated reply' s'',
    BrandManager.handle Demo.host
      (Demo.task_message "m1" "set-brand" (Demo.learnings_input ["Be brief"]))
      Demo.brand0
    = Ok (reply, s') /\
    BrandManager.handle Demo.host
      (Demo.task_message "m2" "get-brand-context" no_input) s'
    = Ok (reply', s'') /\
    msg_payload reply'
    = ResultPayload true
        (OutBrandContext updated (BrandManager.buildGuidelines Demo.host updated)).
Proof.
  destruct (set_brand_round_trip Demo.host
              (Demo.task_message "m1" "set-brand" (Demo.learnings_input ["Be brief"]))
              (Demo.learnings_input ["Be brief"]) Demo.brand0 eq_refl)
    as (reply & s' & updated & Hrun & _ & Hnext).
  destruct (Hnext (Demo.task_message "m2" "get-brand-context" no_input) no_input
              eq_refl eq_refl)
    as (reply' & s'' & Hrun' & Hpay').
  exists reply, s', updated, reply', s''.
  split; [exact Hrun|]. split; [exact Hrun'|exact Hpay'].
Defined.

(** X12. [set-brand] also publishes the saved profile under the shared
    keys: afterwards [brand_voice], [brand_tone] and [brand_audience]
    hold the voice, tone and audience of the profile it answered with,
    and [social_tone] holds its social style as JSON; the stored profile
    of every other brand is untouched. *)
Theorem set_brand_shared_keys (h : Host) (message : Message) (input : TaskInput)
    (s : BrandManager.State) :
  msg_payload message = TaskPayload "set-brand" input ->
  exists reply s' updated,
    BrandManager.handle h message s = Ok (reply, s') /\
    msg_payload reply = ResultPayload true (OutSaved updated) /\
    Memory_get (BrandManager.memory s') "brand_voice" = Some (VString (bp_voice updated)) /\
    Memory_get (BrandManager.memory s') "brand_tone" = Some (VString (bp_tone updated)) /\
    Memory_get (BrandManager.memory s') "brand_audience"
      = Some (VString (bp_audience updated)) /\
    Memory_get (BrandManager.memory s') "social_tone"
      = Some (VString (JSON_stringify h (bp_socialStyle updated))) /\
    forall n, n <> brand_of input ->
      Memory_get (BrandManager.memory s') ("brand:" +:+ n)
      = Memory_get (BrandManager.memory s) ("brand:" +:+ n).
Proof.
  intros Hp. rewrite (handle_set_brand h message input s Hp).
  destruct (getProfile_Ok (brand_of input) s) as [pf Hpf].
  destruct (setBrand_run h message input s pf Hpf)
    as (reply & s' & Hrun & Hpay & _ & _ & Hv & Ht & Ha & Hs & Hframe).
  exists reply, s', (BrandManager.merge_profile pf.1 input).
  repeat (split; [done|]).
  intros n Hn. apply Hframe; try (intros Heq; simpl in Heq; discriminate Heq).
  intros Heq. apply Hn. simpl in Heq. by injection Heq.
Qed.

Lemma set_brand_shared_keys_witness :
  exists reply s' updated,
    BrandManager.handle Demo.host
      (Demo.task_message "m1" "set-brand" (Demo.learnings_input ["Be brief"]))
      Demo.brand0
    = Ok (reply, s') /\
    Memory_get (BrandManager.memory s') "brand_voice"
    = Some (VString (bp_voice updated)).
Proof.
  destruct (set_brand_shared_keys Demo.host
              (Demo.task_message "m1" "set-brand" (Demo.learnings_input ["Be brief"]))
              (Demo.learnings_input ["Be brief"]) Demo.brand0 eq_refl)
    as (reply & s' & updated & Hrun & _ & Hv & _).
  exists reply, s', updated. split; [exact Hrun|exact Hv].
Defined.

Lemma getProfile_state n s s1 pf :
  BrandManager.memory s1 = BrandManager.memory s ->
  BrandManager.default_learnings s1 = BrandManager.default_learnings s ->
  BrandManager.getProfile n s1 = Ok (pf, s1) ->
  BrandManager.getProfile n s = Ok (pf, s).
Proof.
  unfold BrandManager.getProfile, bind, get. intros -> ->.
  destruct (Memory_get _ _) as [v|]; [destruct (truthy v)|]; cbn;
    intros [= <-]; reflexivity.
Qed.

Lemma getProfile_inv n s pf s' :
  BrandManager.getProfile n s = Ok (pf, s') -> s' = s.
Proof.
  unfold BrandManager.getProfile, bind, get.
  destruct (Memory_get _ _) as [v|]; [destruct (truthy v)|]; cbn; by intros [= _ <-].
Qed.

Lemma json_field_inv v k s r s' :
  BrandManager.json_field v k s = Ok (r, s') -> s' = s.
Proof. destruct v; cbn; try discriminate; by intros [= _ <-]. Qed.

(** What a run of [learnFromFeedback] that returns has done. *)
Lemma learn_run h message input s reply s' :
  BrandManager.learnFromFeedback h message input s = Ok (reply, s') ->
  exists pf applies_to learned,
    BrandManager.getProfile "default" s = Ok (pf, s) /\
    msg_payload reply = ResultPayload true (OutLearned learned applies_to) /\
    let pushed := bp_learnings pf.1 ++ [learned_line h applies_to learned] in
    let kept := if (20 <? length pushed)%nat then slice_last 20 pushed else pushed in
    Memory_get (BrandManager.memory s') "brand:default"
    = Some (VProfile (BrandManager.with_learnings pf.1 kept)) /\
    BrandManager.default_learnings s'
    = (if pf.2 then pushed else BrandManager.default_learnings s) /\
    Memory_get (BrandManager.memory s')
      ("feedback:" +:+ number_to_string h (now_ms h (BrandManager.reads s + 2)))
    = Some (VFeedback {| fb_feedback := in_feedback input; fb_learning := learned;
                         fb_contentType := str_or (in_contentType input) "general";
                         fb_rating := in_rating input |}) /\
    forall k, k <> "brand:default" ->
      k <> "feedback:" +:+ number_to_string h (now_ms h (BrandManager.reads s + 2)) ->
      Memory_get (BrandManager.memory s') k = Memory_get (BrandManager.memory s) k.
Proof.
  unfold BrandManager.learnFromFeedback. cbv beta zeta. intros H.
  unfold bind at 1 in H. unfold BrandManager.chat at 1 in H.
  cbn [bind tick ret ticks BrandManager.State_ticking] in H.
  apply bind_Ok_inv in H as (pf & s2 & Hpf & H).
  pose proof (getProfile_inv _ _ _ _ Hpf) as ->.
  apply bind_Ok_inv in H as (applies_to & s3 & H3 & H).
  pose proof (json_field_inv _ _ _ _ _ H3) as ->.
  apply bind_Ok_inv in H as (learned & s4 & H4 & H).
  pose proof (json_field_inv _ _ _ _ _ H4) as ->.
  exists pf, applies_to, learned.
  split.
  { eapply getProfile_state; [| |exact Hpf]; reflexivity. }
  fold (learned_line h applies_to learned) in H.
  clear Hpf H3 H4.
  destruct pf as [profile shared]. cbn [fst snd] in *.
  destruct shared;
    unfold bind at 1 in H;
    cbn [snd BrandManager.set_default_learnings modify ret] in H;
    cbv beta iota in H;
    rewrite (bind_Ok _ _ _ _ _ (brand_memory_set_run _ _ _ _ _)) in H;
    unfold bind at 1 in H; cbn [tick] in H; cbv beta iota in H;
    rewrite (bind_Ok _ _ _ _ _ (brand_memory_set_run _ _ _ _ _)) in H;
    rewrite createMessage_Ok in H; injection H as <- <-;
    cbn [msg_payload BrandManager.memory BrandManager.default_learnings
         BrandManager.reads set_ticks ticks BrandManager.State_ticking];
    replace (S (S (BrandManager.reads s))) with (BrandManager.reads s + 2) by lia;
    (split; [reflexivity|]); (split; [|split; [reflexivity|split]]);
    [ rewrite Memory_get_set_ne by apply feedback_key_not_brand; apply Memory_get_set
    | apply Memory_get_set
    | intros k Hk1 Hk2; by rewrite !Memory_get_set_ne by congruence
    | rewrite Memory_get_set_ne by apply feedback_key_not_brand; apply Memory_get_set
    | apply Memory_get_set
    | intros k Hk1 Hk2; by rewrite !Memory_get_set_ne by congruence ].
Qed.

(** X13. [learn-from-feedback] (the parser never yielding [null])
    stores, under [brand:default], the default profile whose learnings
    are the previous ones followed by the line ["[<applies_to>]
    <learning>"] it answers with, cut to the last 20: the new line is the
    last one, the list is a suffix of the old list with the line, and its
    length is the smaller of 20 and the old length plus one.  The
    feedback itself is stored under [feedback:<time>]. *)
Theorem learn_keeps_last_twenty (h : Host) (message : Message) (input : TaskInput)
    (s : BrandManager.State) :
  msg_payload message = TaskPayload "learn-from-feedback" input ->
  (forall text, JSON_parse h text <> Some JNull) ->
  exists reply s' pf applies_to learned profile,
    BrandManager.handle h message s = Ok (reply, s') /\
    BrandManager.getProfile "default" s = Ok (pf, s) /\
    msg_payload reply = ResultPayload true (OutLearned learned applies_to) /\
    Memory_get (BrandManager.memory s') "brand:default" = Some (VProfile profile) /\
    last (bp_learnings profile) = Some (learned_line h applies_to learned) /\
    bp_learnings profile
      `suffix_of` bp_learnings pf.1 ++ [learned_line h applies_to learned] /\
    length (bp_learnings profile) = 20 `min` S (length (bp_learnings pf.1)) /\
    Memory_get (BrandManager.memory s')
      ("feedback:" +:+ number_to_string h (now_ms h (BrandManager.reads s + 2)))
    = Some (VFeedback {| fb_feedback := in_feedback input; fb_learning := learned;
                         fb_contentType := str_or (in_contentType input) "general";
                         fb_rating := in_rating input |}).
Proof.
  intros Hp Hnull. rewrite (handle_learn h message input s Hp).
  destruct (Returns.learnFromFeedback_Ok h message input s Hnull) as (reply & s' & Hrun).
  destruct (learn_run h message input s reply s' Hrun)
    as (pf & applies_to & learned & Hpf & Hpay & Hget & _ & Hfb & _).
  cbv zeta in Hget.
  eexists reply, s', pf, applies_to, learned, _.
  split; [exact Hrun|]. split; [exact Hpf|]. split; [exact Hpay|].
  split; [exact Hget|]. cbn [bp_learnings BrandManager.with_learnings].
  set (line := learned_line h applies_to learned).
  set (pushed := bp_learnings pf.1 ++ [line]).
  assert (length pushed = S (length (bp_learnings pf.1))) as Hlen.
  { unfold pushed. rewrite length_app. cbn. lia. }
  split; [|split; [|split; [|exact Hfb]]].
  - destruct (Nat.ltb_spec 20 (length pushed)) as [Hlt|Hle].
    + unfold slice_last, pushed. rewrite drop_app_le by (fold pushed; lia).
      apply last_snoc.
    + apply last_snoc.
  - destruct (20 <? length pushed)%nat; [apply TenantFacts.slice_last_suffix|done].
  - destruct (Nat.ltb_spec 20 (length pushed)) as [Hlt|Hle].
    + unfold slice_last. rewrite length_drop. lia.
    + lia.
Qed.

Lemma learn_keeps_last_twenty_witness :
  exists reply s' profile,
    BrandManager.handle Demo.host
      (Demo.task_message "m1" "learn-from-feedback" (Demo.feedback_input "Too formal"))
      Demo.brand0
    = Ok (reply, s') /\
    Memory_get (BrandManager.memory s') "brand:default" = Some (VProfile profile) /\
    bp_learnings profile <> [].
Proof.
  destruct (learn_keeps_last_twenty Demo.host
              (Demo.task_message "m1" "learn-from-feedback"
                 (Demo.feedback_input "Too formal"))
              (Demo.feedback_input "Too formal") Demo.brand0 eq_refl)
    as (reply & s' & pf & applies_to & learned & profile
        & Hrun & _ & _ & Hget & Hlast & _).
  - intros text Heq. discriminate Heq.
  - exists reply, s', profile. split; [exact Hrun|]. split; [exact Hget|].
    intros Hnil. rewrite Hnil in Hlast. discriminate Hlast.
Defined.

(** X14. The learnings of [DEFAULT_PROFILE] are shared: when nothing is
    stored under [brand:default], [learn-from-feedback] pushes its line
    on the array of [DEFAULT_PROFILE] itself, so that afterwards
    [get-brand-context] for any other brand that has no stored profile
    answers with a profile of that name whose learnings are those of
    [DEFAULT_PROFILE] before the task followed by the line learned for
    the default brand. *)
Theorem default_learnings_shared (h : Host) (message : Message) (input : TaskInput)
    (s : BrandManager.State) :
  msg_payload message = TaskPayload "learn-from-feedback" input ->
  (forall text, JSON_parse h text <> Some JNull) ->
  Memory_get (BrandManager.memory s) "brand:default" = None ->
  exists reply s' applies_to learned,
    BrandManager.handle h message s = Ok (reply, s') /\
    msg_payload reply = ResultPayload true (OutLearned learned applies_to) /\
    forall message' input',
      msg_payload message' = TaskPayload "get-brand-context" input' ->
      Memory_get (BrandManager.memory s)
        ("brand:" +:+ str_or (in_brandName input') "default") = None ->
      str_or (in_brandName input') "default" <> "default" ->
      exists reply' s'' profile guidelines,
        BrandManager.handle h message' s' = Ok (reply', s'') /\
        msg_payload reply' = ResultPayload true (OutBrandContext profile guidelines) /\
        bp_name profile = str_or (in_brandName input') "default" /\
        bp_learnings profile
        = BrandManager.default_learnings s ++ [learned_line h applies_to learned].
Proof.
  intros Hp Hnull Hnone. rewrite (handle_learn h message input s Hp).
  destruct (Returns.learnFromFeedback_Ok h message input s Hnull) as (reply & s' & Hrun).
  destruct (learn_run h message input s reply s' Hrun)
    as (pf & applies_to & learned & Hpf & Hpay & _ & Hdl & _ & Hframe).
  rewrite (getProfile_missing _ _ Hnone) in Hpf. injection Hpf as <-.
  cbn [fst snd bp_learnings BrandManager.with_name BrandManager.DEFAULT_PROFILE] in Hdl.
  exists reply, s', applies_to, learned.
  split; [exact Hrun|]. split; [exact Hpay|].
  intros message' input' Hp' Hn Hne.
  rewrite (handle_get_brand_context h message' input' s' Hp').
  unfold BrandManager.getBrandContext. cbv beta zeta.
  set (n := str_or (in_brandName input') "default") in *.
  assert (Memory_get (BrandManager.memory s') ("brand:" +:+ n) = None) as Hn'.
  { rewrite Hframe; [exact Hn| |].
    - intros Heq. apply Hne. simpl in Heq. by injection Heq.
    - intros Heq. simpl in Heq. discriminate Heq. }
  rewrite (bind_Ok _ _ _ _ _ (getProfile_missing _ _ Hn')).
  rewrite createMessage_Ok. eexists _, _, _, _.
  split; [reflexivity|]. split; [reflexivity|]. split; [reflexivity|].
  cbn [fst bp_learnings BrandManager.with_name BrandManager.DEFAULT_PROFILE].
  exact Hdl.
Qed.

Lemma default_learnings_shared_witness :
  exists reply s' reply' s'' profile guidelines,
    BrandManager.handle Demo.host
      (Demo.task_message "m1" "learn-from-feedback" (Demo.feedback_input "Too formal"))
      Demo.brand0
    = Ok (reply, s') /\
    BrandManager.handle Demo.host
      (Demo.task_message "m2" "get-brand-context" (Samples.brand_input "acme")) s'
    = Ok (reply', s'') /\
    msg_payload reply' = ResultPayload true (OutBrandContext profile guidelines) /\
    bp_name profile = "acme" /\
    bp_learnings profile <> [].
Proof.
  destruct (default_learnings_shared Demo.host
              (Demo.task_message "m1" "learn-from-feedback"
                 (Demo.feedback_input "Too formal"))
              (Demo.feedback_input "Too formal") Demo.brand0 eq_refl)
    as (reply & s' & applies_to & learned & Hrun & _ & Hnext).
  - intros text Heq. discriminate Heq.
  - reflexivity.
  - destruct (Hnext (Demo.task_message "m2" "get-brand-context"
                       (Samples.brand_input "acme"))
                (Samples.brand_input "acme") eq_refl eq_refl)
      as (reply' & s'' & profile & guidelines & Hrun' & Hpay' & Hname & Hl).
    + discriminate.
    + exists reply, s', reply', s'', profile, guidelines.
      split; [exact Hrun|]. split; [exact Hrun'|]. split; [exact Hpay'|].
      split; [exact Hname|]. rewrite Hl. discriminate.
Defined.

(** X15. A task whose action is neither [set-brand] nor
    [learn-from-feedback] -- [analyze-sample], [get-brand-context], or
    any other action, which is treated as [get-brand-context] -- changes
    neither the Memory Store nor the learnings of [DEFAULT_PROFILE]. *)
Theorem brand_reads_leave_store (h : Host) (message : Message)
    (s s' : BrandManager.State) (reply : Message) :
  Analytics.payload_action (msg_payload message) <> Some "set-brand" ->
  Analytics.payload_action (msg_payload message) <> Some "learn-from-feedback" ->
  BrandManager.handle h message s = Ok (reply, s') ->
  BrandManager.memory s' = BrandManager.memory s /\
  BrandManager.default_learnings s' = BrandManager.default_learnings s.
Proof.
  intros Hn1 Hn2. unfold BrandManager.handle, BrandManager.with_input.
  do 2 (case_bool_decide; [done|]).
  case_bool_decide.
  - destruct (Analytics.payload_input _) as [input|]; [|discriminate].
    destruct (analyze_outcome h message input s) as [s1 Hs1].
    assert (s1 = set_ticks (S (S (BrandManager.reads s))) s) as ->.
    { revert Hs1.
      cbv [BrandManager.analyzeSample BrandManager.chat bind tick ret createMessage].
      by intros [= <-]. }
    rewrite Hs1. by intros [= _ <-].
  - destruct (Analytics.payload_input _) as [input|]; [|discriminate].
    unfold BrandManager.getBrandContext. cbv beta zeta. intros Hrun.
    apply bind_Ok_inv in Hrun as (pf & s1 & Hpf & Hrun).
    apply getProfile_inv in Hpf as ->.
    rewrite createMessage_Ok in Hrun. by injection Hrun as _ <-.
Qed.

Lemma brand_reads_leave_store_witness :
  exists reply s',
    BrandManager.handle Demo.host
      (Demo.task_message "m1" "analyze-sample" (Demo.sample_input "Hello world"))
      Demo.brand0
    = Ok (reply, s') /\
    BrandManager.memory s' = BrandManager.memory Demo.brand0.
Proof.
  destruct (BrandManager.handle Demo.host
              (Demo.task_message "m1" "analyze-sample" (Demo.sample_input "Hello world"))
              Demo.brand0) as [[reply s']|e] eqn:Hrun.
  - exists reply, s'. split; [reflexivity|].
    apply (brand_reads_leave_store Demo.host
             (Demo.task_message "m1" "analyze-sample" (Demo.sample_input "Hello world"))
             Demo.brand0 s' reply); [| |exact Hrun];
      intros Heq; vm_compute in Heq; discriminate Heq.
  - vm_compute in Hrun. discriminate Hrun.
Defined.

Lemma set_add_all_app l1 : forall seen l2,
  set_add_all seen (l1 ++ l2) = set_add_all (set_add_all seen l1) l2.
Proof.
  induction l1 as [|x l1 IH]; intros seen l2; cbn; [done|].
  destruct (includes seen x); apply IH.
Qed.

Lemma set_add_all_seen l : forall seen,
  (forall x, x ∈ l -> x ∈ seen) -> set_add_all seen l = seen.
Proof.
  induction l as [|x l IH]; intros seen Hsub; cbn; [done|].
  assert (includes seen x = true) as ->.
  { apply includes_elem, Hsub. by left. }
  apply IH. intros y Hy. apply Hsub. by right.
Qed.

Lemma set_add_all_distinct l : forall seen,
  NoDup (seen ++ l) -> set_add_all seen l = seen ++ l.
Proof.
  induction l as [|x l IH]; intros seen Hnd; cbn; [by rewrite app_nil_r|].
  assert (includes seen x = false) as ->.
  { destruct (includes seen x) eqn:Hi; [|done].
    apply includes_elem in Hi. apply NoDup_app in Hnd as (_ & Hd & _).
    exfalso. apply (Hd x Hi). by left. }
  rewrite IH; rewrite <- app_assoc; [done|exact Hnd].
Qed.

Lemma set_of_again a k : set_of (set_of (a ++ k) ++ k) = set_of (a ++ k).
Proof.
  unfold set_of at 1. rewrite set_add_all_app.
  rewrite (set_add_all_distinct (set_of (a ++ k)) []).
  2:{ rewrite app_nil_l. apply set_of_NoDup. }
  rewrite app_nil_l. apply set_add_all_seen.
  intros x Hx. apply set_of_elem, elem_of_app. by right.
Qed.

Lemma nullish_again {A} (x : option A) d : nullish x (nullish x d) = nullish x d.
Proof. by destruct x. Qed.

(** X16. Sending the same [set-brand] task twice: the second answer has
    the name, voice, tone, audience, industry, social style, keywords and
    avoid-words of the first -- the union of the keywords is taken
    without duplicates --, while the learnings of the task are appended a
    second time, and so are its examples, of which the last 10 are
    kept. *)
Theorem set_brand_repeated (h : Host) (m1 m2 : Message) (input : TaskInput)
    (s : BrandManager.State) :
  msg_payload m1 = TaskPayload "set-brand" input ->
  msg_payload m2 = TaskPayload "set-brand" input ->
  exists reply1 s1 p1 reply2 s2 p2,
    BrandManager.handle h m1 s = Ok (reply1, s1) /\
    msg_payload reply1 = ResultPayload true (OutSaved p1) /\
    BrandManager.handle h m2 s1 = Ok (reply2, s2) /\
    msg_payload reply2 = ResultPayload true (OutSaved p2) /\
    bp_name p2 = bp_name p1 /\ bp_voice p2 = bp_voice p1 /\
    bp_tone p2 = bp_tone p1 /\ bp_audience p2 = bp_audience p1 /\
    bp_industry p2 = bp_industry p1 /\ bp_socialStyle p2 = bp_socialStyle p1 /\
    bp_keywords p2 = bp_keywords p1 /\ bp_avoidWords p2 = bp_avoidWords p1 /\
    bp_learnings p2 = bp_learnings p1 ++ arr_or (in_learnings input) [] /\
    bp_examples p2 = slice_last 10 (bp_examples p1 ++ arr_or (in_examples input) []).
Proof.
  intros Hp1 Hp2.
  rewrite (handle_set_brand h m1 input s Hp1).
  destruct (getProfile_Ok (brand_of input) s) as [pf Hpf].
  destruct (setBrand_run h m1 input s pf Hpf)
    as (reply1 & s1 & Hrun1 & Hpay1 & _ & Hget & _).
  destruct (setBrand_run h m2 input s1 _ (getProfile_stored _ _ _ Hget))
    as (reply2 & s2 & Hrun2 & Hpay2 & _).
  rewrite <- (handle_set_brand h m2 input s1 Hp2) in Hrun2.
  eexists reply1, s1, _, reply2, s2, _.
  split; [exact Hrun1|]. split; [exact Hpay1|].
  split; [exact Hrun2|]. split; [exact Hpay2|].
  cbn [fst BrandManager.merge_profile bp_name bp_voice bp_tone bp_audience bp_industry
       bp_socialStyle bp_keywords bp_avoidWords bp_learnings bp_examples].
  rewrite !nullish_again, !set_of_again.
  repeat split.
  unfold BrandManager.merge_socialStyle. cbn [twitter linkedin instagram].
  by rewrite !nullish_again.
Qed.

Lemma set_brand_repeated_witness :
  exists reply1 s1 p1 reply2 s2 p2,
    BrandManager.handle Demo.host
      (Demo.task_message "m1" "set-brand" (Samples.keywords_input ["ai"] ["Be brief"]))
      Demo.brand0
    = Ok (reply1, s1) /\
    msg_payload reply1 = ResultPayload true (OutSaved p1) /\
    BrandManager.handle Demo.host
      (Demo.task_message "m2" "set-brand" (Samples.keywords_input ["ai"] ["Be brief"]))
      s1
    = Ok (reply2, s2) /\
    msg_payload reply2 = ResultPayload true (OutSaved p2) /\
    bp_keywords p2 = bp_keywords p1.
Proof.
  destruct (set_brand_repeated Demo.host
              (Demo.task_message "m1" "set-brand"
                 (Samples.keywords_input ["ai"] ["Be brief"]))
              (Demo.task_message "m2" "set-brand"
                 (Samples.keywords_input ["ai"] ["Be brief"]))
              (Samples.keywords_input ["ai"] ["Be brief"]) Demo.brand0 eq_refl eq_refl)
    as (reply1 & s1 & p1 & reply2 & s2 & p2 & H1 & P1 & H2 & P2
        & _ & _ & _ & _ & _ & _ & Hk & _).
  exists reply1, s1, p1, reply2, s2, p2.
  split; [exact H1|]. split; [exact P1|]. split; [exact H2|].
  split; [exact P2|exact Hk].
Defined.

End BrandProps.

(** ** The life cycle of a tenant *)

Module TenantProps.
Import JS Data Core Spec Terms MonadFacts StoreFacts TenantFacts ObjFacts GuidelineFacts.

(** X17. [delete] never throws and answers whether the tenant was
    registered.  Afterwards the tenant, its Memory Store and its executor
    are gone; every other tenant keeps its record, store and executor;
    and the manifest is rewritten, to the tenants that are left, only
    when a tenant was removed. *)
Theorem delete_removes (tid : string) (s : Tenant.State) :
  exists s',
    Tenant.delete tid s = Ok (bool_decide (is_Some (Tenant.get s tid)), s') /\
    Tenant.get s' tid = None /\
    Tenant.getMemory s' tid = None /\
    Tenant.getExecutor s' tid = None /\
    (forall tid', tid' <> tid ->
       Tenant.get s' tid' = Tenant.get s tid' /\
       Tenant.getMemory s' tid' = Tenant.getMemory s tid' /\
       Tenant.getExecutor s' tid' = Tenant.getExecutor s tid') /\
    Tenant.manifest s'
    = (if bool_decide (is_Some (Tenant.get s tid)) then Some (Tenant.list_ s')
       else Tenant.manifest s).
Proof.
  unfold Tenant.delete. unfold bind at 1. unfold get at 1. cbv beta zeta.
  unfold Tenant.get, Tenant.getMemory, Tenant.getExecutor, Tenant.list_.
  destruct (bool_decide (is_Some (obj_get (Tenant.tenants s) tid)));
    (eexists; split; [reflexivity|]; cbn;
     split; [apply obj_get_delete|];
     split; [apply lookup_delete_eq|];
     split; [apply lookup_delete_eq|];
     split; [|reflexivity];
     intros tid' Hne;
     rewrite obj_get_delete_ne by done;
     by rewrite !lookup_delete_ne by done).
Qed.

Lemma obj_set_existing {V} (o : list (string * V)) k v v' :
  obj_get o k = Some v -> length (obj_set o k v') = length o.
Proof.
  induction o as [|[k0 v0] o IH]; cbn; [done|].
  destruct (String.eqb k0 k); cbn; [done|]. intros H. by rewrite IH.
Qed.

(** What [update] returns for a registered tenant, and the state it
    leaves. *)
Lemma update_run h tid updates tenant s :
  obj_get (Tenant.tenants s) tid = Some tenant ->
  exists s',
    Tenant.update h tid updates s
    = Ok (Some (Tenant.apply_settings (Tenant.apply_updates tenant updates) updates
                  (toISOString h (now_ms h (Tenant.reads s)))), s') /\
    Tenant.tenants s'
    = obj_set (Tenant.tenants s) tid
        (Tenant.apply_settings (Tenant.apply_updates tenant updates) updates
           (toISOString h (now_ms h (Tenant.reads s)))) /\
    Tenant.manifest s' = Some (values (Tenant.tenants s')) /\
    Tenant.memories s'
    = match pt_platforms updates with
      | Some _ => <[id tenant := Memory_init (Tenant.disk s)
                     (Tenant.path_join [Tenant.dataDir s; id tenant; "memory"])]>
                    (Tenant.memories s)
      | None => Tenant.memories s
      end /\
    Tenant.executors s'
    = match pt_platforms updates with
      | Some ups => <[id tenant := Tenant.executor_of (spread (platforms tenant) ups)]>
                      (Tenant.executors s)
      | None => Tenant.executors s
      end.
Proof.
  intros Ht. unfold Tenant.update. unfold bind at 1. unfold get at 1.
  rewrite Ht. cbv beta zeta.
  destruct (pt_platforms updates) as [ups|] eqn:Hp.
  - rewrite (bind_Ok _ _ _ _ _ (initTenantResources_Ok _ s)).
    eexists. split; [reflexivity|]. cbn. rewrite Hp. done.
  - eexists. split; [reflexivity|]. cbn. done.
Qed.

(** X18. [update] of an id that is not registered answers [null] and
    changes nothing, the manifest included.  [update] of a registered
    tenant answers with the record now registered under the id: its [id],
    [slug] and [createdAt] are the old ones whatever the updates say (a
    new name does not change the slug), its [updatedAt] is the time of
    the call; the manifest is rewritten to the registered tenants, whose
    number is unchanged, and every other tenant keeps its record, store
    and executor. *)
Theorem update_keeps_identity (h : Host) (tid : string)
    (updates : PartialTenantConfig) (s : Tenant.State) :
  keyed s ->
  (Tenant.get s tid = None -> Tenant.update h tid updates s = Ok (None, s)) /\
  (forall tenant, Tenant.get s tid = Some tenant ->
   exists t' s',
     Tenant.update h tid updates s = Ok (Some t', s') /\
     Tenant.get s' tid = Some t' /\
     id t' = tid /\ slug t' = slug tenant /\ createdAt t' = createdAt tenant /\
     updatedAt t' = toISOString h (now_ms h (Tenant.reads s)) /\
     Tenant.manifest s' = Some (Tenant.list_ s') /\
     length (Tenant.list_ s') = length (Tenant.list_ s) /\
     forall tid', tid' <> tid ->
       Tenant.get s' tid' = Tenant.get s tid' /\
       Tenant.getMemory s' tid' = Tenant.getMemory s tid' /\
       Tenant.getExecutor s' tid' = Tenant.getExecutor s tid').
Proof.
  intros Hk. unfold Tenant.get, Tenant.getMemory, Tenant.getExecutor, Tenant.list_.
  split.
  - intros Hn. unfold Tenant.update. unfold bind at 1. unfold get at 1. by rewrite Hn.
  - intros tenant Ht. pose proof (Hk tid tenant Ht) as Hid.
    destruct (update_run h tid updates tenant s Ht) as (s' & Hrun & Hts & Hman & Hmem & Hex).
    eexists _, s'. split; [exact Hrun|].
    rewrite Hts, Hman, Hts, Hmem, Hex, Hid.
    split; [apply obj_get_set|].
    cbn [id slug createdAt updatedAt Tenant.apply_settings Tenant.apply_updates].
    repeat (split; [done|]).
    split.
    { unfold values. rewrite !length_map. by apply (obj_set_existing _ _ tenant). }
    intros tid' Hne. rewrite obj_get_set_ne by done.
    destruct (pt_platforms updates); by rewrite ?lookup_insert_ne by done.
Qed.

Lemma update_keeps_identity_witness :
  Tenant.update Demo.host "nobody" (Demo.named "X") Demo.registry1
  = Ok (None, Demo.registry1).
Proof.
  exact (proj1 (update_keeps_identity Demo.host "nobody" (Demo.named "X")
                  Demo.registry1 keyed_registry1) eq_refl).
Defined.

(** X19. How [update] merges: a name that is absent or empty keeps the
    old name; the fields of [brand] and of [settings] that the updates
    supply replace the old ones, an empty string included, and the
    others are kept; and without [platforms] in the updates the
    credentials, the Memory Stores and the executors are left as they
    are. *)
Theorem update_merges_fields (h : Host) (tid : string)
    (updates : PartialTenantConfig) (tenant : TenantConfig) (s : Tenant.State) :
  Tenant.get s tid = Some tenant ->
  exists t' s',
    Tenant.update h tid updates s = Ok (Some t', s') /\
    merged_string (pt_name updates) (name tenant) (name t') /\
    (pt_brand updates = None -> brand t' = brand tenant) /\
    (forall b, pt_brand updates = Some b ->
       merged (pb_voice b) (voice (brand tenant)) (voice (brand t')) /\
       merged (pb_tone b) (tone (brand tenant)) (tone (brand t')) /\
       merged (pb_audience b) (audience (brand tenant)) (audience (brand t')) /\
       merged (pb_industry b) (industry (brand tenant)) (industry (brand t')) /\
       merged (pb_keywords b) (keywords (brand tenant)) (keywords (brand t')) /\
       merged (pb_avoidWords b) (avoidWords (brand tenant)) (avoidWords (brand t'))) /\
    (pt_settings updates = None -> settings t' = settings tenant) /\
    (forall st, pt_settings updates = Some st ->
       merged (pst_defaultType st) (defaultType (settings tenant))
         (defaultType (settings t')) /\
       merged (pst_autoPublish st) (autoPublish (settings tenant))
         (autoPublish (settings t')) /\
       merged (pst_platforms st) (settings_platforms (settings tenant))
         (settings_platforms (settings t')) /\
       defaultModel (settings t')
       = match pst_defaultModel st with
         | Some m => Some m
         | None => defaultModel (settings tenant)
         end) /\
    (pt_platforms updates = None ->
       platforms t' = platforms tenant /\
       Tenant.memories s' = Tenant.memories s /\
       Tenant.executors s' = Tenant.executors s).
Proof.
  intros Ht.
  destruct (update_run h tid updates tenant s Ht) as (s' & Hrun & _ & _ & Hmem & Hex).
  eexists _, s'. split; [exact Hrun|].
  cbn [name brand settings platforms Tenant.apply_settings Tenant.apply_updates].
  split; [apply str_or_merged|].
  split; [by intros ->|].
  split.
  { intros b ->. cbn [voice tone audience industry keywords avoidWords Tenant.merge_brand].
    repeat split; apply nullish_merged. }
  split; [by intros ->|].
  split.
  { intros st ->.
    cbn [defaultType autoPublish settings_platforms defaultModel Tenant.merge_settings].
    repeat split; apply nullish_merged. }
  intros Hp. rewrite Hp in Hmem, Hex. by rewrite Hp.
Qed.

Lemma update_merges_fields_witness :
  exists t' s',
    Tenant.update Demo.host "t1" (Demo.named "Acme Corp") Demo.registry1
    = Ok (Some t', s') /\
    name t' = "Acme Corp".
Proof.
  destruct (update_merges_fields Demo.host "t1" (Demo.named "Acme Corp")
              Demo.tenant1 Demo.registry1 eq_refl)
    as (t' & s' & Hrun & Hname & _).
  exists t', s'. split; [exact Hrun|].
  apply (proj1 Hname "Acme Corp" eq_refl). discriminate.
Defined.

Lemma tenant_memory_set_run h tid k v a tg s mem :
  Tenant.memories s !! tid = Some mem ->
  exists s',
    Tenant.memory_set h tid k v a tg s = Ok (tt, s') /\
    Tenant.tenants s' = Tenant.tenants s /\
    Tenant.executors s' = Tenant.executors s /\
    Tenant.dataDir s' = Tenant.dataDir s /\
    Tenant.manifest s' = Tenant.manifest s /\
    Tenant.directories s' = Tenant.directories s /\
    Tenant.reads s' = S (Tenant.reads s) /\
    Tenant.memories s'
    = <[tid := Memory_set mem k v a tg (toISOString h (now_ms h (Tenant.reads s)))]>
        (Tenant.memories s) /\
    Tenant.disk s'
    = persist (Memory_set mem k v a tg (toISOString h (now_ms h (Tenant.reads s))))
        (Tenant.disk s).
Proof.
  intros Hm. unfold Tenant.memory_set. unfold bind at 1. unfold get at 1.
  rewrite Hm. eexists. split; [reflexivity|]. repeat split.
Qed.

(** What [register] leaves behind. *)
Lemma register_run h t s :
  exists s',
    Tenant.register h t s = Ok (t, s') /\
    Tenant.tenants s' = obj_set (Tenant.tenants s) (id t) t /\
    Tenant.manifest s' = Some (values (Tenant.tenants s')) /\
    Tenant.memories s'
    = <[id t := seeded h t (Tenant.reads s)
                  (Memory_init (Tenant.disk s)
                     (Tenant.path_join [Tenant.dataDir s; id t; "memory"]))]>
        (Tenant.memories s) /\
    Tenant.executors s'
    = <[id t := Tenant.executor_of (platforms t)]> (Tenant.executors s) /\
    Tenant.disk s' !! Tenant.path_join [Tenant.dataDir s; id t; "memory"]
    = Some (mem_entries
              (seeded h t (Tenant.reads s)
                 (Memory_init (Tenant.disk s)
                    (Tenant.path_join [Tenant.dataDir s; id t; "memory"])))) /\
    Tenant.path_join [Tenant.dataDir s; id t; "output"] ∈ Tenant.directories s' /\
    Tenant.dataDir s' = Tenant.dataDir s /\
    Tenant.reads s' = Tenant.reads s + 4.
Proof.
  unfold Tenant.register.
  unfold bind at 1. cbn [modify].
  set (s1 := Tenant.with_tenants _ s).
  rewrite (bind_Ok _ _ _ _ _ (initTenantResources_Ok t s1)).
  unfold bind at 1. cbn [Tenant.saveTenants modify].
  set (m0 := Memory_init (Tenant.disk s) (Tenant.path_join [Tenant.dataDir s; id t; "memory"])).
  match goal with |- context [bind _ _ ?st = _] => remember st as s2 eqn:Hs2 end.
  assert (Tenant.tenants s2 = obj_set (Tenant.tenants s) (id t) t /\
          Tenant.manifest s2 = Some (values (obj_set (Tenant.tenants s) (id t) t)) /\
          Tenant.memories s2 = <[id t := m0]> (Tenant.memories s) /\
          Tenant.executors s2
          = <[id t := Tenant.executor_of (platforms t)]> (Tenant.executors s) /\
          Tenant.path_join [Tenant.dataDir s; id t; "output"] ∈ Tenant.directories s2 /\
          Tenant.dataDir s2 = Tenant.dataDir s /\
          Tenant.reads s2 = Tenant.reads s) as (T2 & F2 & M2 & E2 & O2 & D2 & R2).
  { subst s2 s1. cbn. repeat split. set_solver. }
  clear Hs2 s1.
  destruct (tenant_memory_set_run h (id t) "brand_voice" (VString (voice (brand t)))
              "brand-manager" [Some "brand"] s2 m0)
    as (s3 & Hr3 & T3 & E3 & D3 & F3 & O3 & R3 & M3 & K3);
    [by rewrite M2, lookup_insert_eq|].
  rewrite (bind_Ok _ _ _ _ _ Hr3). clear Hr3.
  destruct (tenant_memory_set_run h (id t) "brand_tone" (VString (tone (brand t)))
              "brand-manager" [Some "brand"] s3 _ ltac:(by rewrite M3, lookup_insert_eq))
    as (s4 & Hr4 & T4 & E4 & D4 & F4 & O4 & R4 & M4 & K4).
  rewrite (bind_Ok _ _ _ _ _ Hr4). clear Hr4.
  destruct (tenant_memory_set_run h (id t) "brand_audience"
              (VString (audience (brand t)))
              "brand-manager" [Some "brand"] s4 _ ltac:(by rewrite M4, lookup_insert_eq))
    as (s5 & Hr5 & T5 & E5 & D5 & F5 & O5 & R5 & M5 & K5).
  rewrite (bind_Ok _ _ _ _ _ Hr5). clear Hr5.
  destruct (tenant_memory_set_run h (id t) ("brand:" +:+ slug t) (VBrand (brand t))
              "brand-manager" [Some "brand"] s5 _ ltac:(by rewrite M5, lookup_insert_eq))
    as (s6 & Hr6 & T6 & E6 & D6 & F6 & O6 & R6 & M6 & K6).
  rewrite (bind_Ok _ _ _ _ _ Hr6). clear Hr6.
  exists s6. split; [reflexivity|].
  rewrite R5, R4, R3, R2 in M6, K6. rewrite R4, R3, R2 in M5. rewrite R3, R2 in M4.
  rewrite R2 in M3.
  assert (Tenant.memories s6
          = <[id t := seeded h t (Tenant.reads s) m0]> (Tenant.memories s)) as M.
  { rewrite M6, M5, M4, M3, M2, !insert_insert_eq. unfold seeded.
    by rewrite Nat.add_0_r, !Nat.add_succ_r, !Nat.add_0_r. }
  split; [by rewrite T6, T5, T4, T3, T2|].
  split; [by rewrite F6, F5, F4, F3, F2, T6, T5, T4, T3, T2|].
  split; [exact M|].
  split; [by rewrite E6, E5, E4, E3, E2|].
  split.
  { rewrite K6. unfold persist at 1.
    rewrite lookup_insert_eq. unfold seeded.
    by rewrite Nat.add_0_r, !Nat.add_succ_r, !Nat.add_0_r. }
  split; [by rewrite O6, O5, O4, O3|].
  split; [by rewrite D6, D5, D4, D3, D2|].
  rewrite R6, R5, R4, R3, R2. lia.
Qed.

Lemma create_run h config cname s :
  pt_name config = Some cname ->
  exists s',
    Tenant.create h config s = Ok (created h config cname s, s') /\
    Tenant.tenants s'
    = obj_set (Tenant.tenants s) (id (created h config cname s))
        (created h config cname s) /\
    Tenant.manifest s' = Some (values (Tenant.tenants s')) /\
    Tenant.memories s'
    = <[id (created h config cname s) :=
          seeded h (created h config cname s) (Tenant.reads s + 4)
            (Memory_init (Tenant.disk s)
               (Tenant.path_join [Tenant.dataDir s; id (created h config cname s);
                                  "memory"]))]>
        (Tenant.memories s) /\
    Tenant.executors s'
    = <[id (created h config cname s) :=
          Tenant.executor_of (platforms (created h config cname s))]>
        (Tenant.executors s) /\
    Tenant.disk s'
      !! Tenant.path_join [Tenant.dataDir s; id (created h config cname s); "memory"]
    = Some (mem_entries
              (seeded h (created h config cname s) (Tenant.reads s + 4)
                 (Memory_init (Tenant.disk s)
                    (Tenant.path_join [Tenant.dataDir s;
                                       id (created h config cname s); "memory"])))) /\
    Tenant.path_join [Tenant.dataDir s; id (created h config cname s); "output"]
      ∈ Tenant.directories s' /\
    Tenant.dataDir s' = Tenant.dataDir s.
Proof.
  intros Hn. unfold Tenant.create. rewrite Hn.
  unfold bind at 1. cbn [tick]. unfold bind at 1. cbn [tick].
  unfold bind at 1. cbn [now_iso tick bind ret].
  cbn [ticks set_ticks Tenant.State_ticking Tenant.reads].
  replace (S (S (Tenant.reads s))) with (Tenant.reads s + 2) by lia.
  replace (S (Tenant.reads s + 2)) with (Tenant.reads s + 3) by lia.
  fold (created h config cname s).
  match goal with
  | |- context [Tenant.register h _ ?s4] =>
      destruct (register_run h (created h config cname s) s4)
        as (s' & Hr & Ht & Hf & Hm & He & Hd & Ho & Hdd & _)
  end.
  cbn [Tenant.tenants Tenant.memories Tenant.executors Tenant.disk Tenant.dataDir
       Tenant.reads] in *.
  replace (S (Tenant.reads s + 3)) with (Tenant.reads s + 4) in * by lia.
  exists s'. by repeat (split; [assumption|]).
Qed.

Lemma seeded_get h t n mem :
  Memory_get (seeded h t n mem) "brand_voice" = Some (VString (voice (brand t))) /\
  Memory_get (seeded h t n mem) "brand_tone" = Some (VString (tone (brand t))) /\
  Memory_get (seeded h t n mem) "brand_audience"
    = Some (VString (audience (brand t))) /\
  Memory_get (seeded h t n mem) ("brand:" +:+ slug t) = Some (VBrand (brand t)) /\
  forall k, k <> "brand_voice" -> k <> "brand_tone" -> k <> "brand_audience" ->
    k <> "brand:" +:+ slug t ->
    Memory_get (seeded h t n mem) k = Memory_get mem k.
Proof.
  unfold seeded.
  assert (forall x : string, "brand:" +:+ x <> "brand_voice") as H1
    by (intros x Heq; simpl in Heq; discriminate Heq).
  assert (forall x : string, "brand:" +:+ x <> "brand_tone") as H2
    by (intros x Heq; simpl in Heq; discriminate Heq).
  assert (forall x : string, "brand:" +:+ x <> "brand_audience") as H3
    by (intros x Heq; simpl in Heq; discriminate Heq).
  repeat split.
  - rewrite Memory_get_set_ne by apply H1.
    rewrite !Memory_get_set_ne by discriminate. apply Memory_get_set.
  - rewrite Memory_get_set_ne by apply H2.
    rewrite !Memory_get_set_ne by discriminate. apply Memory_get_set.
  - rewrite Memory_get_set_ne by apply H3. apply Memory_get_set.
  - apply Memory_get_set.
  - intros k K1 K2 K3 K4. by rewrite !Memory_get_set_ne by congruence.
Qed.

(** X20. [create] provisions the tenant it returns: its Memory Store is
    the one of [<dataDir>/<id>/memory] and holds the voice, the tone and
    the audience of the brand under [brand_voice], [brand_tone] and
    [brand_audience] and the brand record under [brand:<slug>], all four
    written through to the backing location; its executor holds -- has
    been passed -- exactly the credentials of its platforms; its output
    directory exists; and the manifest lists the registered tenants. *)
Theorem create_seeds_memory (h : Host) (config : PartialTenantConfig)
    (cname : string) (s : Tenant.State) :
  pt_name config = Some cname ->
  exists t s' mem exec,
    Tenant.create h config s = Ok (t, s') /\
    Tenant.getMemory s' (id t) = Some mem /\
    mem_dir mem = Tenant.path_join [Tenant.dataDir s; id t; "memory"] /\
    Memory_get mem "brand_voice" = Some (VString (voice (brand t))) /\
    Memory_get mem "brand_tone" = Some (VString (tone (brand t))) /\
    Memory_get mem "brand_audience" = Some (VString (audience (brand t))) /\
    Memory_get mem ("brand:" +:+ slug t) = Some (VBrand (brand t)) /\
    Tenant.disk s' !! mem_dir mem = Some (mem_entries mem) /\
    Tenant.getOutputDir s' (id t) ∈ Tenant.directories s' /\
    Tenant.getExecutor s' (id t) = Some exec /\
    (forall k v, holds exec k v <-> credential_of (platforms t) k v) /\
    Tenant.manifest s' = Some (Tenant.list_ s').
Proof.
  intros Hn.
  destruct (create_run h config cname s Hn)
    as (s' & Hrun & Ht & Hf & Hm & He & Hd & Ho & Hdd).
  set (t := created h config cname s) in *.
  destruct (seeded_get h t (Tenant.reads s + 4)
              (Memory_init (Tenant.disk s)
                 (Tenant.path_join [Tenant.dataDir s; id t; "memory"])))
    as (G1 & G2 & G3 & G4 & _).
  eexists t, s', _, _. split; [exact Hrun|].
  unfold Tenant.getMemory, Tenant.getExecutor, Tenant.getOutputDir, Tenant.list_.
  rewrite Hm, He, Hdd, !lookup_insert_eq.
  split; [reflexivity|]. split; [reflexivity|].
  do 4 (split; [assumption|]).
  split; [exact Hd|]. split; [exact Ho|]. split; [reflexivity|].
  split; [apply executor_of_holds|exact Hf].
Qed.

Lemma create_seeds_memory_witness :
  exists t s' mem exec,
    Tenant.create Demo.host (Demo.with_platforms "Acme" (platforms Demo.tenant1))
      Demo.tenants0 = Ok (t, s') /\
    Tenant.getMemory s' (id t) = Some mem /\
    Memory_get mem "brand_tone" = Some (VString (tone (brand t))) /\
    Tenant.getExecutor s' (id t) = Some exec /\
    holds exec "apiKey" "wp-old" /\ holds exec "apiKey" "tw-key" /\
    ~ holds exec "apiKey" "other".
Proof.
  destruct (create_seeds_memory Demo.host
              (Demo.with_platforms "Acme" (platforms Demo.tenant1)) "Acme"
              Demo.tenants0 eq_refl)
    as (t & s' & mem & exec & Hrun & Hmem & _ & _ & Htone & _ & _ & _ & _ & Hex
        & Hholds & _).
  exists t, s', mem, exec. split; [exact Hrun|]. split; [exact Hmem|].
  split; [exact Htone|]. split; [exact Hex|].
  vm_compute in Hrun. injection Hrun as <- <-.
  split; [|split].
  - apply Hholds. eexists "wordpress", _. split; [by left|by left].
  - apply Hholds. eexists "twitter", _. split; [right; by left|by left].
  - intros Hh. apply Hholds in Hh as (platform & creds & Hp & Hc).
    cbn [platforms] in Hp.
    repeat (apply elem_of_cons in Hp as [[= -> ->]|Hp];
            [repeat (apply elem_of_cons in Hc as [Hc|Hc]; [discriminate Hc|]);
             by apply elem_of_nil in Hc|]).
    by apply elem_of_nil in Hp.
Defined.

Lemma seeded_empty h t n dir :
  mem_entries (seeded h t n {| mem_dir := dir; mem_entries := [] |})
  = [ {| key := "brand_voice"; value := VString (voice (brand t));
         agent := "brand-manager"; tags := [Some "brand"];
         entry_updatedAt := toISOString h (now_ms h (n + 0)) |};
      {| key := "brand_tone"; value := VString (tone (brand t));
         agent := "brand-manager"; tags := [Some "brand"];
         entry_updatedAt := toISOString h (now_ms h (n + 1)) |};
      {| key := "brand_audience"; value := VString (audience (brand t));
         agent := "brand-manager"; tags := [Some "brand"];
         entry_updatedAt := toISOString h (now_ms h (n + 2)) |};
      {| key := "brand:" +:+ slug t; value := VBrand (brand t);
         agent := "brand-manager"; tags := [Some "brand"];
         entry_updatedAt := toISOString h (now_ms h (n + 3)) |} ].
Proof. reflexivity. Qed.

(** X21. The guidelines of a tenant just created on an empty disk end
    with the section of learned preferences, which lists the four
    entries [create] wrote on behalf of the brand-manager: the voice, the
    tone and the audience under their keys, and under [brand:<slug>] the
    brand record rendered as ["[object Object]"]. *)
Theorem new_tenant_guidelines (h : Host) (config : PartialTenantConfig)
    (cname : string) (s : Tenant.State) :
  pt_name config = Some cname ->
  Tenant.disk s = ∅ ->
  exists t s',
    Tenant.create h config s = Ok (t, s') /\
    Tenant.getBrandGuidelines s' (id t)
    = text_of
        ([ "## Brand Writing Guidelines — " +:+ name t;
           "";
           "**Voice:** " +:+ voice (brand t);
           "**Tone:** " +:+ tone (brand t);
           "**Target Audience:** " +:+ audience (brand t);
           "**Industry:** " +:+ industry (brand t) ]
         ++ match keywords (brand t) with
            | [] => []
            | kw => ["**Include keywords:** " +:+ comma_separated kw]
            end
         ++ match avoidWords (brand t) with
            | [] => []
            | aw => ["**NEVER use:** " +:+ comma_separated aw]
            end
         ++ [ "";
              "**Learned preferences:**";
              "- brand_voice: " +:+ voice (brand t);
              "- brand_tone: " +:+ tone (brand t);
              "- brand_audience: " +:+ audience (brand t);
              "- brand:" +:+ slug t +:+ ": [object Object]" ]).
Proof.
  intros Hn Hdisk.
  destruct (create_run h config cname s Hn)
    as (s' & Hrun & Ht & Hf & Hm & He & Hd & Ho & Hdd).
  set (t := created h config cname s) in *.
  eexists t, s'. split; [exact Hrun|].
  unfold Tenant.getBrandGuidelines. rewrite Ht, obj_get_set, Hm, lookup_insert_eq.
  unfold Memory_init. rewrite Hdisk, lookup_empty. cbn [default].
  unfold Memory_byAgent. rewrite seeded_empty.
  cbn [List.filter agent String.eqb Ascii.eqb Bool.eqb length Nat.eqb].
  unfold slice_last. cbn [length Nat.sub drop].
  match goal with
  | |- _ +:+ Tenant.learned_section ?shown = _ =>
      etrans; [exact (guidelines_text t shown)|]
  end.
  unfold guideline_lines. cbn [map key value rendered].
  by rewrite !append_assoc.
Qed.

Lemma new_tenant_guidelines_witness :
  exists t s',
    Tenant.create Demo.host (Demo.named "Acme") Demo.tenants0 = Ok (t, s') /\
    Tenant.getBrandGuidelines s' (id t)
    = text_of
        [ "## Brand Writing Guidelines — Acme";
          "";
          "**Voice:** professional yet approachable";
          "**Tone:** authoritative but friendly";
          "**Target Audience:** general";
          "**Industry:** technology";
          "";
          "**Learned preferences:**";
          "- brand_voice: professional yet approachable";
          "- brand_tone: authoritative but friendly";
          "- brand_audience: general";
          "- brand:acme: [object Object]" ].
Proof.
  destruct (new_tenant_guidelines Demo.host (Demo.named "Acme") "Acme" Demo.tenants0
              eq_refl eq_refl)
    as (t & s' & Hrun & Hg).
  exists t, s'. split; [exact Hrun|]. rewrite Hg.
  vm_compute in Hrun. injection Hrun as <- <-. reflexivity.
Defined.

Lemma obj_set_fresh {V} (o : list (string * V)) k v :
  obj_get o k = None -> obj_set o k v = o ++ [(k, v)].
Proof.
  induction o as [|[k0 v0] o IH]; cbn; [done|].
  destruct (String.eqb k0 k); [done|]. intros H. by rewrite IH.
Qed.

Lemma find_snoc {A} (f : A -> bool) l x :
  List.find f (l ++ [x])
  = match List.find f l with
    | Some y => Some y
    | None => if f x then Some x else None
    end.
Proof.
  induction l as [|y l IH]; cbn; [done|]. by destruct (f y).
Qed.

(** X22. [create] registers the tenant under the id
    [tenant_<time>_<suffix>] and leaves the record of every other id
    alone.  When the id is new the tenant is appended to the list, and a
    lookup by slug answers as before for every slug an earlier tenant
    has -- the earliest tenant of a slug is the one found, so a new tenant
    with a slug already taken cannot be reached by it.  When the id is
    taken the number of tenants is unchanged. *)
Theorem create_appends (h : Host) (config : PartialTenantConfig)
    (cname : string) (s : Tenant.State) :
  pt_name config = Some cname ->
  exists t s',
    Tenant.create h config s = Ok (t, s') /\
    id t = Tenant.tenant_id h (now_ms h (Tenant.reads s))
             (random_suffix h (S (Tenant.reads s))) /\
    (forall tid, tid <> id t -> Tenant.get s' tid = Tenant.get s tid) /\
    (is_Some (Tenant.get s (id t)) ->
     length (Tenant.list_ s') = length (Tenant.list_ s)) /\
    (Tenant.get s (id t) = None ->
     Tenant.list_ s' = Tenant.list_ s ++ [t] /\
     forall sl, Tenant.getBySlug s' sl
                = match Tenant.getBySlug s sl with
                  | Some t0 => Some t0
                  | None => if String.eqb (slug t) sl then Some t else None
                  end).
Proof.
  intros Hn.
  destruct (create_run h config cname s Hn) as (s' & Hrun & Ht & _).
  set (t := created h config cname s) in *.
  exists t, s'. split; [exact Hrun|]. split; [reflexivity|].
  unfold Tenant.get, Tenant.list_, Tenant.getBySlug. rewrite Ht.
  split; [|split].
  - intros tid Hne. by rewrite obj_get_set_ne.
  - intros [t0 Ht0]. unfold values. rewrite !length_map.
    by apply (obj_set_existing _ _ t0).
  - intros Hnone. rewrite (obj_set_fresh _ _ _ Hnone).
    unfold values. rewrite map_app. cbn [map snd].
    split; [reflexivity|]. intros sl.
    by rewrite (find_snoc (fun t0 : TenantConfig => String.eqb (slug t0) sl)).
Qed.

Lemma create_appends_witness :
  exists t s',
    Tenant.create Demo.host (Demo.named "Acme") Demo.tenants0 = Ok (t, s') /\
    Tenant.list_ s' = [t].
Proof.
  destruct (create_appends Demo.host (Demo.named "Acme") "Acme" Demo.tenants0 eq_refl)
    as (t & s' & Hrun & _ & _ & _ & Hfresh).
  exists t, s'. split; [exact Hrun|]. exact (proj1 (Hfresh eq_refl)).
Defined.

Lemma loadTenants_loop ts : forall (acc : M Tenant.State unit) s0 s1,
  acc s0 = Ok (tt, s1) ->
  fold_left
    (fun acc t =>
       run! acc in
       run! modify (Tenant.with_tenants (fun m => obj_set m (id t) t)) in
       Tenant.initTenantResources t)
    ts acc s0
  = Ok (tt, loaded ts s1).
Proof.
  induction ts as [|t ts IH]; intros acc s0 s1 Hacc; cbn [fold_left loaded]; [done|].
  apply IH. rewrite (bind_Ok _ _ _ _ _ Hacc).
  unfold bind at 1. cbn [modify]. apply initTenantResources_Ok.
Qed.

Lemma init_run s :
  Tenant.init s
  = Ok (tt, match Tenant.manifest s with
            | Some ts => loaded ts (Tenant.with_directory (Tenant.dataDir s) s)
            | None => Tenant.with_directory (Tenant.dataDir s) s
            end).
Proof.
  unfold Tenant.init. unfold bind at 1. unfold get at 1.
  unfold bind at 1. cbn [Tenant.mkdir modify].
  unfold Tenant.loadTenants. unfold bind at 1. unfold get at 1.
  cbn [Tenant.manifest Tenant.with_directory].
  destruct (Tenant.manifest s) as [ts|]; [|reflexivity].
  by apply loadTenants_loop.
Qed.

Lemma Memory_init_default d d' dir :
  default [] (d' !! dir) = default [] (d !! dir) -> Memory_init d' dir = Memory_init d dir.
Proof. unfold Memory_init. by intros ->. Qed.

Lemma Disk_init_default d x dir :
  default [] (Disk_init d x !! dir) = default [] (d !! dir).
Proof.
  unfold Disk_init. destruct (decide (x = dir)) as [->|Hne].
  - by rewrite lookup_insert_eq.
  - by rewrite lookup_insert_ne.
Qed.

Lemma loaded_spec ts : forall s,
  NoDup (id <$> ts) ->
  (forall t, t ∈ ts -> obj_get (Tenant.tenants s) (id t) = None) ->
  Tenant.tenants (loaded ts s) = Tenant.tenants s ++ ((fun t => (id t, t)) <$> ts) /\
  Tenant.manifest (loaded ts s) = Tenant.manifest s /\
  Tenant.dataDir (loaded ts s) = Tenant.dataDir s /\
  Tenant.directories s ⊆ Tenant.directories (loaded ts s) /\
  (forall dir, default [] (Tenant.disk (loaded ts s) !! dir)
               = default [] (Tenant.disk s !! dir)) /\
  (forall tid, tid ∉ id <$> ts ->
     Tenant.memories (loaded ts s) !! tid = Tenant.memories s !! tid /\
     Tenant.executors (loaded ts s) !! tid = Tenant.executors s !! tid) /\
  (forall t, t ∈ ts ->
     Tenant.memories (loaded ts s) !! id t
     = Some (Memory_init (Tenant.disk s)
               (Tenant.path_join [Tenant.dataDir s; id t; "memory"])) /\
     Tenant.executors (loaded ts s) !! id t
     = Some (Tenant.executor_of (platforms t)) /\
     Tenant.path_join [Tenant.dataDir s; id t; "output"]
       ∈ Tenant.directories (loaded ts s)).
Proof.
  induction ts as [|t ts IH]; intros s Hnd Hfresh; cbn [loaded fold_left].
  - rewrite app_nil_r. repeat split; try done;
      match goal with H : _ ∈ [] |- _ => by apply elem_of_nil in H end.
  - fold (loaded ts (provisioned t
            (Tenant.with_tenants (fun m => obj_set m (id t) t) s))).
    set (s1 := provisioned t (Tenant.with_tenants (fun m => obj_set m (id t) t) s)).
    cbn [fmap list_fmap] in Hnd. apply NoDup_cons in Hnd as [Hnot Hnd].
    assert (Tenant.tenants s1 = Tenant.tenants s ++ [(id t, t)]) as Ht1.
    { subst s1. cbn. apply obj_set_fresh, Hfresh. by left. }
    destruct (IH s1 Hnd) as (IHt & IHm & IHd & IHdirs & IHdisk & IHout & IHin).
    { intros t' Ht'. rewrite Ht1.
      assert (id t' <> id t) as Hne.
      { intros Heq. apply Hnot. rewrite <- Heq. apply list_elem_of_fmap. by exists t'. }
      rewrite <- (obj_set_fresh _ _ t (Hfresh t ltac:(by left))).
      rewrite obj_get_set_ne by done. apply Hfresh. by right. }
    split; [rewrite IHt, Ht1, <- app_assoc; reflexivity|].
    split; [by rewrite IHm|]. split; [by rewrite IHd|].
    split; [etrans; [|exact IHdirs]; subst s1; cbn; apply union_subseteq_r|].
    split.
    { intros dir. rewrite IHdisk. subst s1. cbn. apply Disk_init_default. }
    split.
    { intros tid Hout. cbn [fmap list_fmap] in Hout.
      apply not_elem_of_cons in Hout as [Hne Hout].
      destruct (IHout tid Hout) as [-> ->]. subst s1. cbn.
      by rewrite !lookup_insert_ne by done. }
    intros t' Ht'. apply elem_of_cons in Ht' as [->|Ht'].
    + destruct (IHout (id t) Hnot) as [-> ->].
      split; [|split].
      * subst s1. cbn. by rewrite lookup_insert_eq.
      * subst s1. cbn. by rewrite lookup_insert_eq.
      * apply IHdirs. subst s1. cbn. apply elem_of_union_l. by apply elem_of_singleton.
    + destruct (IHin t' Ht') as (Hm & He & Ho).
      rewrite Hm, He. split; [|split; [done|]].
      * f_equal. subst s1. cbn. apply Memory_init_default, Disk_init_default.
      * exact Ho.
Qed.

(** X23. [init] never throws.  Without a readable manifest it makes the
    data directory and registers nothing.  From a manifest of tenants of
    distinct ids, a manager that holds none registers exactly the tenants
    of the manifest, in its order, each under its id and with a Memory
    Store on [<dataDir>/<id>/memory] holding what the disk persists, an
    executor that holds -- has been passed -- exactly the credentials of
    its platforms, and its output directory; the manifest itself is not
    rewritten. *)
Theorem init_restores_manifest (s : Tenant.State) :
  (Tenant.manifest s = None ->
   exists s', Tenant.init s = Ok (tt, s') /\
              Tenant.list_ s' = Tenant.list_ s /\
              Tenant.dataDir s ∈ Tenant.directories s') /\
  (forall ts,
     Tenant.manifest s = Some ts -> Tenant.tenants s = [] -> NoDup (id <$> ts) ->
     exists s',
       Tenant.init s = Ok (tt, s') /\
       Tenant.list_ s' = ts /\
       Tenant.manifest s' = Some ts /\
       registry_ok s' /\
       forall t, t ∈ ts ->
         Tenant.get s' (id t) = Some t /\
         (exists mem,
            Tenant.getMemory s' (id t) = Some mem /\
            mem_dir mem = Tenant.path_join [Tenant.dataDir s; id t; "memory"] /\
            mem_entries mem = default [] (Tenant.disk s !! mem_dir mem)) /\
         (exists exec,
            Tenant.getExecutor s' (id t) = Some exec /\
            forall k v, holds exec k v <-> credential_of (platforms t) k v) /\
         Tenant.getOutputDir s' (id t) ∈ Tenant.directories s').
Proof.
  rewrite init_run. split.
  - intros ->. eexists. split; [reflexivity|]. split; [reflexivity|].
    cbn. apply elem_of_union_l. by apply elem_of_singleton.
  - intros ts Hman Hempty Hnd. rewrite Hman. eexists. split; [reflexivity|].
    destruct (loaded_spec ts (Tenant.with_directory (Tenant.dataDir s) s) Hnd)
      as (Ht & Hm & Hd & _ & _ & _ & Hin).
    { intros t _. cbn. by rewrite Hempty. }
    cbn [Tenant.tenants Tenant.manifest Tenant.dataDir Tenant.disk
         Tenant.with_directory] in Ht, Hm, Hd, Hin.
    rewrite Hempty, app_nil_l in Ht.
    unfold Tenant.list_, Tenant.get, Tenant.getMemory, Tenant.getExecutor,
      Tenant.getOutputDir.
    rewrite Ht, Hm, Hd, Hman.
    assert (((fun t => (id t, t)) <$> ts).*1 = id <$> ts) as Hkeys.
    { rewrite <- list_fmap_compose. reflexivity. }
    split.
    { unfold values. rewrite <- (list_fmap_id ts) at 2.
      change (map snd ((fun t => (id t, t)) <$> ts))
        with (snd <$> ((fun t => (id t, t)) <$> ts)).
      by rewrite <- list_fmap_compose. }
    split; [reflexivity|].
    split.
    { split; [by rewrite Ht, Hkeys|].
      intros tid t Hg. rewrite Ht in Hg. apply obj_get_elem in Hg.
      apply list_elem_of_fmap in Hg as (t0 & [= -> ->] & _). reflexivity. }
    intros t Hin'. destruct (Hin t Hin') as (Hmem & Hex & Hout).
    split; [|split; [|split]].
    + apply obj_elem_get; [by rewrite Hkeys|].
      apply list_elem_of_fmap. by exists t.
    + eexists. split; [exact Hmem|]. split; reflexivity.
    + eexists. split; [exact Hex|]. intros k v. apply executor_of_holds.
    + exact Hout.
Qed.

Lemma init_restores_manifest_witness :
  exists s' exec,
    Tenant.init Demo.unloaded1 = Ok (tt, s') /\
    Tenant.list_ s' = [Demo.tenant1] /\
    Tenant.getExecutor s' "t1" = Some exec /\
    holds exec "url" "https://acme.example" /\
    holds exec "apiKey" "wp-old" /\ holds exec "apiKey" "tw-key".
Proof.
  destruct (proj2 (init_restores_manifest Demo.unloaded1) [Demo.tenant1]
              eq_refl eq_refl)
    as (s' & Hrun & Hlist & _ & _ & Hall).
  - apply NoDup_singleton.
  - destruct (Hall Demo.tenant1) as (_ & _ & (exec & Hex & Hholds) & _); [by left|].
    exists s', exec. split; [exact Hrun|]. split; [exact Hlist|].
    split; [exact Hex|].
    split; [|split]; apply Hholds.
    + eexists "wordpress", _. split; [by left|right; by left].
    + eexists "wordpress", _. split; [by left|by left].
    + eexists "twitter", _. split; [right; by left|by left].
Defined.

Lemma obj_delete_NoDup {V} (o : list (string * V)) k :
  NoDup o.*1 -> NoDup (obj_delete o k).*1.
Proof.
  induction o as [|[k0 v0] o IH]; cbn; [done|].
  intros Hnd. apply NoDup_cons in Hnd as [Hk0 Hnd].
  destruct (String.eqb k0 k); cbn; [by apply IH|].
  apply NoDup_cons. split; [|by apply IH].
  intros Hin. apply Hk0. apply list_elem_of_fmap in Hin as ([k1 v1] & -> & Hin).
  apply list_elem_of_In, filter_In in Hin as [Hin _].
  apply list_elem_of_fmap. exists (k1, v1). split; [done|by apply list_elem_of_In].
Qed.

(** X24. The registry keeps each tenant once and under its own [id]:
    when this holds, the ids of the listed tenants are distinct, and it
    holds again after every [create], [update] and [delete] that
    returns. *)
Theorem registry_invariant (h : Host) (s : Tenant.State) :
  registry_ok s ->
  NoDup (id <$> Tenant.list_ s) /\
  (forall config t s', Tenant.create h config s = Ok (t, s') -> registry_ok s') /\
  (forall tid updates r s', Tenant.update h tid updates s = Ok (r, s') -> registry_ok s') /\
  (forall tid r s', Tenant.delete tid s = Ok (r, s') -> registry_ok s').
Proof.
  intros [Hnd Hk]. split; [|split; [|split]].
  - assert (id <$> Tenant.list_ s = (Tenant.tenants s).*1) as ->; [|exact Hnd].
    unfold Tenant.list_, values.
    assert (forall kv, kv ∈ Tenant.tenants s -> id kv.2 = kv.1) as Hids.
    { intros [k v] Hin. apply Hk. by apply obj_elem_get. }
    revert Hids. generalize (Tenant.tenants s). intros o Hids.
    induction o as [|kv o IH]; cbn; [done|].
    rewrite (Hids kv) by (by left). f_equal. apply IH.
    intros kv' Hin. apply Hids. by right.
  - intros config t s' Hrun.
    destruct (pt_name config) as [cname|] eqn:Hn.
    + split; [|by eapply create_keyed].
      destruct (create_run h config cname s Hn) as (s1 & Hrun1 & Ht & _).
      rewrite Hrun1 in Hrun. injection Hrun as _ <-.
      rewrite Ht. by apply obj_set_NoDup.
    + unfold Tenant.create in Hrun. rewrite Hn in Hrun. discriminate Hrun.
  - intros tid updates r s' Hrun. split; [|by eapply update_keyed].
    destruct (obj_get (Tenant.tenants s) tid) as [tenant|] eqn:Hg.
    + destruct (update_run h tid updates tenant s Hg) as (s1 & Hrun1 & Ht & _).
      rewrite Hrun1 in Hrun. injection Hrun as _ <-.
      rewrite Ht. by apply obj_set_NoDup.
    + unfold Tenant.update in Hrun. unfold bind at 1 in Hrun. unfold get at 1 in Hrun.
      rewrite Hg in Hrun. by injection Hrun as _ <-.
  - intros tid r s' Hrun. split; [|by eapply delete_keyed].
    revert Hrun. unfold Tenant.delete. unfold bind at 1. unfold get at 1.
    cbv beta zeta. destruct (bool_decide _); intros [= _ <-]; cbn;
      by apply obj_delete_NoDup.
Qed.

Lemma registry_invariant_witness :
  NoDup (id <$> Tenant.list_ Demo.tenants0).
Proof.
  exact (proj1 (registry_invariant Demo.host Demo.tenants0
                  (conj NoDup_nil_2 keyed_empty))).
Defined.

End TenantProps.
